(** * PN532 / NTAG215 tag writer (nfc_controller_writer.py)

    A shallow embedding of the controller module of the amiibo emulator:
    the frame builder, the tag detector, the page write engine, the
    Flipper dump parser and the AmiiboWriter front object, followed by
    the properties established about them.

    Conventions.
    - Python [int]s and the octets of [bytes] / [bytearray] values are [Z].
      Where Python checks that an integer is an octet ([bytes(...)] raises
      [ValueError] otherwise) the check is written out with [is_byte].
    - A [str] is a [string]; one [ascii] stands for one code point below 256.
    - A Python exception is a [None] (or an explicit failure branch) at the
      place where the source's [try]/[except] catches it.
    - [time.sleep] has no counterpart: the model has no clock. *)

From Stdlib Require Import ZArith List Bool Lia String Ascii Floats Uint63.
From Stdlib Require Import DecimalString DecimalNat.
Import ListNotations.

Open Scope Z_scope.

(** ** Python primitives used by the module *)

Module Py.

(** An integer acceptable as an element of [bytes]. *)
Definition is_byte (x : Z) : bool := (0 <=? x) && (x <? 256).

Definition len {A : Type} (l : list A) : Z := Z.of_nat (List.length l).

(** [sum(l)] over integers. *)
Definition sum (l : list Z) : Z := fold_left Z.add l 0.

(** [l[a:b]] for [0 <= a], [0 <= b]: out-of-range bounds are clipped. *)
Definition slice {A : Type} (l : list A) (a b : nat) : list A :=
  firstn (b - a) (skipn a l).

(** Index normalisation of a slice bound ([PySlice_AdjustIndices], step 1). *)
Definition adjust_index (n i : Z) : Z :=
  if i <? 0 then Z.max 0 (i + n) else Z.min i n.

(** [l[start:stop] = data] on a [bytearray].  When the normalised [start]
    lies after the normalised [stop] the assignment inserts before [start]. *)
Definition slice_assign (l : list Z) (start stop : Z) (data : list Z) : list Z :=
  let s := adjust_index (len l) start in
  let e := Z.max s (adjust_index (len l) stop) in
  firstn (Z.to_nat s) l ++ data ++ skipn (Z.to_nat e) l.

(** *** Floats: [a / b * c] on small integers and [int(float)] *)

Definition float_of_int (z : Z) : float :=
  if z <? 0 then PrimFloat.opp (PrimFloat.of_uint63 (Uint63.of_Z (- z)))
  else PrimFloat.of_uint63 (Uint63.of_Z z).

(** [int(f)]: truncation towards zero; [None] for infinities and NaN,
    where Python raises. *)
Definition int_of_float (f : float) : option Z :=
  match Prim2SF f with
  | S754_zero _ => Some 0
  | S754_finite s m e =>
      let mag := if 0 <=? e then Z.pos m * 2 ^ e else Z.pos m / 2 ^ (- e) in
      Some (if s then - mag else mag)
  | S754_infinity _ => None
  | S754_nan => None
  end.

(** *** Strings *)

(** [str.isspace] on one character (code points below 256). *)
Definition isspace (c : ascii) : bool :=
  let n := N_of_ascii c in
  (((9 <=? n) && (n <=? 13)) || ((28 <=? n) && (n <=? 32))
   || (n =? 133) || (n =? 160))%N.

(** [Py_ISSPACE]: the ASCII white space [bytes.fromhex] skips. *)
Definition is_ascii_space (c : ascii) : bool :=
  let n := N_of_ascii c in
  (((9 <=? n) && (n <=? 13)) || (n =? 32))%N.

Definition is_digit (c : ascii) : bool :=
  let n := N_of_ascii c in ((48 <=? n) && (n <=? 57))%N.

Definition digit_value (c : ascii) : Z := Z.of_N (N_of_ascii c) - 48.

(** Value of a hexadecimal digit, [None] for any other character. *)
Definition hex_value (c : ascii) : option Z :=
  let n := Z.of_N (N_of_ascii c) in
  if (48 <=? n) && (n <=? 57) then Some (n - 48)
  else if (65 <=? n) && (n <=? 70) then Some (n - 55)
  else if (97 <=? n) && (n <=? 102) then Some (n - 87)
  else None.

Definition startswith (prefix s : string) : bool := String.prefix prefix s.

Fixpoint lstrip (s : string) : string :=
  match s with
  | EmptyString => EmptyString
  | String c s' => if isspace c then lstrip s' else s
  end.

Fixpoint rstrip (s : string) : string :=
  match s with
  | EmptyString => EmptyString
  | String c s' =>
      match rstrip s' with
      | EmptyString => if isspace c then EmptyString else String c EmptyString
      | r => String c r
      end
  end.

(** [s.strip()] *)
Definition strip (s : string) : string := rstrip (lstrip s).

(** [s.split(sep)] for a one-character separator. *)
Fixpoint split (sep : ascii) (s : string) : list string :=
  match s with
  | EmptyString => [EmptyString]
  | String c s' =>
      if Ascii.eqb c sep then EmptyString :: split sep s'
      else match split sep s' with
           | [] => [String c EmptyString]
           | w :: ws => String c w :: ws
           end
  end.

Fixpoint split_once (sep : ascii) (s : string) : option (string * string) :=
  match s with
  | EmptyString => None
  | String c s' =>
      if Ascii.eqb c sep then Some (EmptyString, s')
      else match split_once sep s' with
           | Some (a, b) => Some (String c a, b)
           | None => None
           end
  end.

(** [s.split(sep, 1)] *)
Definition split1 (sep : ascii) (s : string) : list string :=
  match split_once sep s with
  | Some (a, b) => [a; b]
  | None => [s]
  end.

(** [s.split()]: the maximal runs of non-space characters. *)
Fixpoint split_ws (s : string) : list string :=
  match s with
  | EmptyString => []
  | String c s' =>
      if isspace c then split_ws s'
      else match s' with
           | EmptyString => [String c EmptyString]
           | String c' _ =>
               if isspace c' then String c EmptyString :: split_ws s'
               else match split_ws s' with
                    | [] => [String c EmptyString]
                    | w :: ws => String c w :: ws
                    end
           end
  end.

(** [s.replace(old, new)] for a non-empty [old]; [skip] counts the
    characters of a match still to be passed over. *)
Fixpoint replace_from (old new : string) (skip : nat) (s : string) : string :=
  match s with
  | EmptyString => EmptyString
  | String c s' =>
      match skip with
      | S k => replace_from old new k s'
      | O =>
          if String.prefix old s
          then String.append new (replace_from old new (String.length old - 1) s')
          else String c (replace_from old new 0 s')
      end
  end.

Definition replace (old new s : string) : string := replace_from old new 0 s.

(** Digits of a decimal literal after its first digit: [acc] is the value
    read so far, [after_digit] tells whether the previous character was a
    digit (an underscore is accepted only between two digits). *)
Fixpoint int_digits (acc : Z) (after_digit : bool) (s : string) : option Z :=
  match s with
  | EmptyString => if after_digit then Some acc else None
  | String c s' =>
      if is_digit c then int_digits (10 * acc + digit_value c) true s'
      else if Ascii.eqb c "_"%char
           then (if after_digit then int_digits acc false s' else None)
           else None
  end.

(** [int(s)] on a string, base 10; [None] where Python raises [ValueError].
    (CPython's optional cap on the number of digits is not modelled.) *)
Definition int_of_str (s : string) : option Z :=
  match strip s with
  | EmptyString => None
  | String c s' =>
      if Ascii.eqb c "-"%char then option_map Z.opp (int_digits 0 false s')
      else if Ascii.eqb c "+"%char then int_digits 0 false s'
      else int_digits 0 false (String c s')
  end.

(** [bytes.fromhex(s)]: pairs of hexadecimal digits, ASCII white space
    allowed between pairs; [None] where Python raises [ValueError]. *)
Fixpoint fromhex (s : string) : option (list Z) :=
  match s with
  | EmptyString => Some []
  | String c s' =>
      if is_ascii_space c then fromhex s'
      else match hex_value c, s' with
           | Some hi, String c' s'' =>
               match hex_value c', fromhex s'' with
               | Some lo, Some rest => Some (16 * hi + lo :: rest)
               | _, _ => None
               end
           | _, _ => None
           end
  end.

Definition hex_digit_upper (n : Z) : ascii :=
  ascii_of_N (Z.to_N (if n <? 10 then 48 + n else 55 + n)).

(** [b.hex().upper()] *)
Fixpoint hex_upper (b : list Z) : string :=
  match b with
  | [] => EmptyString
  | x :: b' => String (hex_digit_upper (x / 16))
                 (String (hex_digit_upper (x mod 16)) (hex_upper b'))
  end.

(** [os.path.basename]: what follows the last slash. *)
Fixpoint basename (p : string) : string :=
  match p with
  | EmptyString => EmptyString
  | String c p' =>
      if existsb (Ascii.eqb "/"%char) (list_ascii_of_string p') then basename p'
      else if Ascii.eqb c "/"%char then p' else p
  end.

End Py.

(** ** The world the module runs in *)

(** The Flipper dump once loaded: the dictionary with the keys ['raw_data'],
    ['uid'] and ['character'].  A key that is absent is [None]. *)
Record Amiibo : Type := mkAmiibo {
  raw_data : option (list Z);
  uid : option string;
  character : option string
}.

(** [amiibo_data.get('raw_data', b'')] *)
Definition get_raw_data (a : Amiibo) : list Z :=
  match raw_data a with Some b => b | None => [] end.

(** Truth value of a dictionary: non-empty. *)
Definition dict_nonempty (a : Amiibo) : bool :=
  match raw_data a, uid a, character a with
  | None, None, None => false
  | _, _, _ => true
  end.

(** One transaction on the I2C bus, with its outcome: a write of a frame
    (accepted or failed with an I/O error), or a read of so many bytes
    ([None]: I/O error). *)
Inductive BusEvent : Type :=
| BusWrite (frame : list Z) (ok : bool)
| BusRead (length : nat) (result : option (list Z)).

(** What the module prints. *)
Inductive Msg : Type :=
| MsgInitializing
| MsgFirmware (major minor : Z)
| MsgErrorFirmware
| MsgSamConfigured
| MsgSamMayHaveFailed
| MsgErrorSending
| MsgErrorReading
| MsgDetecting
| MsgFailedSendDetect
| MsgNoResponse
| MsgResponseLength (n : Z)
| MsgResponseHex (b : list Z)
| MsgTagDetected (uid : list Z)
| MsgNoTagDetected
| MsgErrorDetecting
| MsgErrorWritingPage (page : Z)
| MsgStartingWrite
| MsgInvalidSize (n : Z)
| MsgNoTagPlaceTag
| MsgFailedToWritePage (page : Z)
| MsgWrotePages (n : Z)
| MsgErrorWritingAmiibo
| MsgFlipperDetected
| MsgUnsupportedFormat
| MsgErrorLoading
| MsgFoundUID (hex : string)
| MsgLoaded (name : string)
| MsgNoAmiiboLoaded
| MsgWriting (name : string).

(** The environment: how the bus answers its [n]-th transaction, and what
    reading a file gives ([None]: [open] or [read] raises). *)
Record Env : Type := mkEnv {
  i2c_write : nat -> list Z -> bool;
  i2c_read : nat -> nat -> option (list Z);
  read_file : string -> option string
}.

(** The state threaded through the methods: the transactions made on the bus
    so far, the lines printed, the values handed to the progress callback
    (a callback that returns and makes no transaction with the controller;
    one that raises would end the attempt in the handler of [write_amiibo],
    and is not part of the model), and the [current_amiibo] attributes of
    the NFCWriter and of the AmiiboWriter. *)
Record State : Type := mkState {
  i2c_log : list BusEvent;
  stdout : list Msg;
  progress_calls : list Z;
  nfc_current_amiibo : option Amiibo;
  current_amiibo : option Amiibo
}.

Definition M (A : Type) : Type := State -> A * State.

Definition ret {A : Type} (a : A) : M A := fun st => (a, st).

Definition bind {A B : Type} (m : M A) (f : A -> M B) : M B :=
  fun st => let (a, st') := m st in f a st'.

Notation "x <- m ;; k" := (bind m (fun x => k))
  (at level 61, m at next level, right associativity).
Notation "m ;;; k" := (bind m (fun _ => k))
  (at level 61, right associativity).

Definition print (m : Msg) : M unit := fun st =>
  (tt, mkState (i2c_log st) (stdout st ++ [m]) (progress_calls st)
               (nfc_current_amiibo st) (current_amiibo st)).

Definition log_bus (e : BusEvent) : M unit := fun st =>
  (tt, mkState (i2c_log st ++ [e]) (stdout st) (progress_calls st)
               (nfc_current_amiibo st) (current_amiibo st)).

Definition call_progress (v : Z) : M unit := fun st =>
  (tt, mkState (i2c_log st) (stdout st) (progress_calls st ++ [v])
               (nfc_current_amiibo st) (current_amiibo st)).

Definition set_nfc_current_amiibo (a : option Amiibo) : M unit := fun st =>
  (tt, mkState (i2c_log st) (stdout st) (progress_calls st) a (current_amiibo st)).

Definition set_current_amiibo (a : option Amiibo) : M unit := fun st =>
  (tt, mkState (i2c_log st) (stdout st) (progress_calls st)
               (nfc_current_amiibo st) a).

Definition get_nfc_current_amiibo : M (option Amiibo) :=
  fun st => (nfc_current_amiibo st, st).

Definition get_current_amiibo : M (option Amiibo) :=
  fun st => (current_amiibo st, st).

(** Number of the next bus transaction. *)
Definition bus_clock : M nat := fun st => (List.length (i2c_log st), st).

(** ** class NFCWriter *)

Module NFCWriter.
Import Py.

Definition CMD_GETFIRMWAREVERSION : Z := 0x02.
Definition CMD_SAMCONFIGURATION : Z := 0x14.
Definition CMD_INLISTPASSIVETARGET : Z := 0x4A.
Definition CMD_INDATAEXCHANGE : Z := 0x40.
Definition NTAG_CMD_READ : Z := 0x30.
Definition NTAG_CMD_WRITE : Z := 0xA2.
Definition PN532_PREAMBLE : Z := 0x00.
Definition PN532_STARTCODE1 : Z := 0x00.
Definition PN532_STARTCODE2 : Z := 0xFF.
Definition PN532_POSTAMBLE : Z := 0x00.
Definition PN532_HOSTTOPN532 : Z := 0xD4.
Definition PN532_PN532TOHOST : Z := 0xD5.

(** [_build_command(cmd, data)] *)
Definition _build_command (cmd : Z) (data : list Z) : list Z :=
  let length := len data + 1 in
  let lcs := Z.land (Z.lnot length + 1) 0xFF in
  let frame := [PN532_PREAMBLE; PN532_STARTCODE1; PN532_STARTCODE2;
                length; lcs; PN532_HOSTTOPN532; cmd] in
  let frame := frame ++ data in
  let dcs := Z.land (Z.lnot (sum ([PN532_HOSTTOPN532; cmd] ++ data)) + 1) 0xFF in
  let frame := frame ++ [dcs] in
  frame ++ [PN532_POSTAMBLE].

Section WithEnv.

Variable env : Env.

(** [_send_command(cmd)]: building the I2C message raises on a list that
    is not made of octets, the transfer raises on an I/O error; either
    way the method prints and returns [False]. *)
Definition _send_command (cmd : list Z) : M bool :=
  if forallb is_byte cmd then
    n <- bus_clock ;;
    let ok := i2c_write env n cmd in
    log_bus (BusWrite cmd ok) ;;;
    if ok then ret true
    else print MsgErrorSending ;;; ret false
  else print MsgErrorSending ;;; ret false.

(** [_read_response(length)]: the ready marker [0x01] in front is
    stripped; an I/O error, or an empty read (indexing it raises), gives
    [None]. *)
Definition _read_response (length : nat) : M (option (list Z)) :=
  n <- bus_clock ;;
  let r := i2c_read env n length in
  log_bus (BusRead length r) ;;;
  match r with
  | None => print MsgErrorReading ;;; ret None
  | Some [] => print MsgErrorReading ;;; ret None
  | Some (b :: rest) =>
      if b =? 0x01 then ret (Some rest) else ret (Some (b :: rest))
  end.

(** The body of the scan loop of [detect_tag] at one [offset]: the UID
    found there, if any. *)
Definition uid_at (response : list Z) (offset : nat) : option (list Z) :=
  let b := nth offset response 0 in
  if (0 <? b) && (b <? 5) then
    let uid_offset := (offset + 5)%nat in
    if (uid_offset <? List.length response)%nat then
      let uid_length := nth uid_offset response 0 in
      if (4 <=? uid_length) && (uid_length <=? 10) then
        let uid := slice response (uid_offset + 1)
                     (uid_offset + 1 + Z.to_nat uid_length) in
        if forallb is_byte uid then
          if len uid =? uid_length then Some uid else None
        else None
      else None
    else None
  else None.

(** [for offset in range(min(10, len(response)))]: the first offset
    that gives a UID wins. *)
Fixpoint scan_uid (response : list Z) (offsets : list nat) : option (list Z) :=
  match offsets with
  | [] => None
  | offset :: rest =>
      match uid_at response offset with
      | Some uid => Some uid
      | None => scan_uid response rest
      end
  end.

(** [detect_tag()] *)
Definition detect_tag : M (option (list Z)) :=
  print MsgDetecting ;;;
  let cmd := _build_command CMD_INLISTPASSIVETARGET [0x01; 0x00] in
  sent <- _send_command cmd ;;
  if negb sent then print MsgFailedSendDetect ;;; ret None
  else
    response <- _read_response 64 ;;
    match response with
    | None => print MsgNoResponse ;;; ret None
    | Some [] => print MsgNoResponse ;;; ret None
    | Some response =>
        print (MsgResponseLength (len response)) ;;;
        if forallb is_byte (firstn 20 response) then
          print (MsgResponseHex (firstn 20 response)) ;;;
          match scan_uid response
                  (seq 0 (Nat.min 10 (List.length response))) with
          | Some uid => print (MsgTagDetected uid) ;;; ret (Some uid)
          | None => print MsgNoTagDetected ;;; ret None
          end
        else print MsgErrorDetecting ;;; ret None
    end.

(** [write_page(page_num, data)] *)
Definition write_page (page_num : Z) (data : list Z) : M bool :=
  if negb (List.length data =? 4)%nat then
    print (MsgErrorWritingPage page_num) ;;; ret false
  else
    let cmd_data := [0x01; NTAG_CMD_WRITE; page_num] ++ data in
    let cmd := _build_command CMD_INDATAEXCHANGE cmd_data in
    sent <- _send_command cmd ;;
    if negb sent then ret false
    else
      response <- _read_response 64 ;;
      match response with
      | None => ret false
      | Some response =>
          if (8 <? len response)
             && (nth 6 response 0 =? 0xD5)
             && (nth 7 response 0 =? 0x41)
             && (nth 8 response 0 =? 0x00)
          then ret true else ret false
      end.

(** [int((page - 4) / (130 - 4) * 100)], in floating point. *)
Definition progress_percent (page : Z) : option Z :=
  int_of_float
    (PrimFloat.mul
       (PrimFloat.div (float_of_int (page - 4)) (float_of_int (130 - 4)))
       (float_of_int 100)).

(** The loop [for page in range(4, 130)] of [write_amiibo], from the
    pages still to write; [None] is an exception left to the method's
    handler. *)
Fixpoint write_pages (raw_data : list Z) (progress_callback : bool)
    (success_count : Z) (pages : list Z) : M (option bool) :=
  match pages with
  | [] => print (MsgWrotePages success_count) ;;; ret (Some true)
  | page :: rest =>
      let offset := Z.to_nat (page * 4) in
      let page_data := slice raw_data offset (offset + 4) in
      let page_data :=
        if (List.length page_data <? 4)%nat
        then page_data ++ repeat 0 (4 - List.length page_data)
        else page_data in
      ok <- write_page page page_data ;;
      if ok then
        if progress_callback then
          match progress_percent page with
          | Some progress =>
              call_progress progress ;;;
              write_pages raw_data progress_callback (success_count + 1) rest
          | None => ret None
          end
        else write_pages raw_data progress_callback (success_count + 1) rest
      else print (MsgFailedToWritePage page) ;;; ret (Some false)
  end.

(** [range(4, 130)] *)
Definition data_pages_range : list Z := map Z.of_nat (seq 4 126).

(** [write_amiibo(amiibo_data, progress_callback)]; [progress_callback]
    tells whether a callback was given. *)
Definition write_amiibo (amiibo_data : Amiibo) (progress_callback : bool)
  : M bool :=
  print MsgStartingWrite ;;;
  let raw := get_raw_data amiibo_data in
  if len raw <? 540 then print (MsgInvalidSize (len raw)) ;;; ret false
  else
    uid <- detect_tag ;;
    match uid with
    | None => print MsgNoTagPlaceTag ;;; ret false
    | Some [] => print MsgNoTagPlaceTag ;;; ret false
    | Some _ =>
        r <- write_pages raw progress_callback 0 data_pages_range ;;
        match r with
        | Some b => ret b
        | None => print MsgErrorWritingAmiibo ;;; ret false
        end
    end.


(** The dictionary [data_pages] of [_parse_flipper_format], in insertion
    order: assigning to a key that is present keeps its place. *)
Definition PageDict : Type := list (Z * list Z).

Fixpoint dict_set (d : PageDict) (k : Z) (v : list Z) : PageDict :=
  match d with
  | [] => [(k, v)]
  | (k', v') :: d' =>
      if k' =? k then (k, v) :: d' else (k', v') :: dict_set d' k v
  end.


(** The body of the loop over the lines of the dump: what is printed,
    and the new [(uid_bytes, data_pages)], or [None] when the line makes
    [bytes.fromhex], [int] or an indexing raise. *)
Definition parse_line (uid_bytes : list Z) (data_pages : PageDict)
    (line : string) : list Msg * option (list Z * PageDict) :=
  let line := strip line in
  if startswith "UID:" line then
    match nth_error (split1 ":" line) 1 with
    | None => ([], None)
    | Some rest =>
        let hex_str := strip rest in
        match fromhex (replace " " "" hex_str) with
        | None => ([], None)
        | Some b => ([MsgFoundUID (hex_upper b)], Some (b, data_pages))
        end
    end
  else if startswith "Page " line then
    let parts := split1 ":" line in
    if (2 <=? List.length parts)%nat then
      match nth_error (split_ws (nth 0 parts EmptyString)) 1 with
      | None => ([], None)
      | Some number =>
          match int_of_str number with
          | None => ([], None)
          | Some page_num =>
              let hex_data := strip (nth 1 parts EmptyString) in
              match fromhex (replace " " "" hex_data) with
              | None => ([], None)
              | Some b =>
                  ([], Some (uid_bytes, dict_set data_pages page_num b))
              end
          end
      end
    else ([], Some (uid_bytes, data_pages))
  else ([], Some (uid_bytes, data_pages)).

(** [for line in lines] *)
Fixpoint parse_lines (lines : list string) (uid_bytes : list Z)
    (data_pages : PageDict) : list Msg * option (list Z * PageDict) :=
  match lines with
  | [] => ([], Some (uid_bytes, data_pages))
  | line :: rest =>
      match parse_line uid_bytes data_pages line with
      | (out, None) => (out, None)
      | (out, Some (uid_bytes', data_pages')) =>
          let (out', r) := parse_lines rest uid_bytes' data_pages' in
          (out ++ out', r)
      end
  end.

(** One step of the reconstruction loop: the page is copied when the
    bound test passes. *)
Definition place_page (raw : list Z) (entry : Z * list Z) : list Z :=
  let (page_num, page_data) := entry in
  let offset := page_num * 4 in
  if offset + len page_data <=? len raw
  then slice_assign raw offset (offset + len page_data) page_data
  else raw.

(** [raw_data = bytearray(540)] and the loop over [data_pages.items()]. *)
Definition reconstruct (data_pages : PageDict) : list Z :=
  fold_left place_page data_pages (repeat 0 540%nat).

(** [_parse_flipper_format(content, character_name)]: what it prints and
    the dictionary it returns; [None] when it raises. *)
Definition _parse_flipper_format (content character_name : string)
  : list Msg * option Amiibo :=
  let lines := split "010"%char content in
  match parse_lines lines [] [] with
  | (out, None) => (out, None)
  | (out, Some (uid_bytes, data_pages)) =>
      match uid_bytes with
      | [] => (out, None)
      | _ :: _ =>
          (out, Some (mkAmiibo (Some (reconstruct data_pages))
                               (Some (hex_upper uid_bytes))
                               (Some character_name)))
      end
  end.

Fixpoint print_all (out : list Msg) : M unit :=
  match out with
  | [] => ret tt
  | m :: out' => print m ;;; print_all out'
  end.

(** [load_amiibo(file_path)] *)
Definition load_amiibo (file_path : string) : M bool :=
  let filename := basename file_path in
  let character_name := replace "_" " " (replace ".nfc" "" filename) in
  match read_file env file_path with
  | None => print MsgErrorLoading ;;; ret false
  | Some content =>
      if startswith "Filetype: Flipper" content then
        print MsgFlipperDetected ;;;
        let (out, r) := _parse_flipper_format content character_name in
        print_all out ;;;
        match r with
        | None => print MsgErrorLoading ;;; ret false
        | Some a => set_nfc_current_amiibo (Some a) ;;; ret true
        end
      else print MsgUnsupportedFormat ;;; ret false
  end.

(** [get_firmware_version()] *)
Definition get_firmware_version : M (option (Z * Z * Z * Z)) :=
  let cmd := [0x00; 0x00; 0xFF; 0x02; 0xFE; 0xD4; 0x02; 0x2A; 0x00] in
  n <- bus_clock ;;
  let ok := i2c_write env n cmd in
  log_bus (BusWrite cmd ok) ;;;
  if negb ok then print MsgErrorFirmware ;;; ret None
  else
    n <- bus_clock ;;
    let r := i2c_read env n 20 in
    log_bus (BusRead 20 r) ;;;
    match r with
    | None => print MsgErrorFirmware ;;; ret None
    | Some response =>
        let at_ i := nth i response 0 in
        if (12 <? len response) && (at_ 0%nat =? 0x01)
        then ret (Some (at_ 9%nat, at_ 10%nat, at_ 11%nat, at_ 12%nat))
        else if 12 <? len response
        then ret (Some (at_ 8%nat, at_ 9%nat, at_ 10%nat, at_ 11%nat))
        else ret None
    end.

(** [_configure_sam()] *)
Definition _configure_sam : M bool :=
  let cmd := _build_command CMD_SAMCONFIGURATION [0x01; 0x14; 0x01] in
  _send_command cmd ;;;
  response <- _read_response 64 ;;
  match response with
  | Some (_ :: _) => print MsgSamConfigured ;;; ret true
  | _ => print MsgSamMayHaveFailed ;;; ret false
  end.

(** [__init__]: [false] when the constructor raises. *)
Definition __init__ : M bool :=
  set_nfc_current_amiibo None ;;;
  print MsgInitializing ;;;
  version <- get_firmware_version ;;
  match version with
  | Some (_, v1, v2, _) =>
      print (MsgFirmware v1 v2) ;;;
      _configure_sam ;;;
      ret true
  | None => ret false
  end.

End WithEnv.
End NFCWriter.

(** ** class AmiiboWriter *)

Module AmiiboWriter.

Section WithEnv.

Variable env : Env.

(** [__init__]: [false] when the constructor raises. *)
Definition __init__ : M bool :=
  ok <- NFCWriter.__init__ env ;;
  if ok then set_current_amiibo None ;;; ret true else ret false.

Definition character_or_unknown (a : Amiibo) : string :=
  match character a with Some c => c | None => "Unknown"%string end.

(** [load_amiibo(file_path)] *)
Definition load_amiibo (file_path : string) : M bool :=
  ok <- NFCWriter.load_amiibo env file_path ;;
  if ok then
    a <- get_nfc_current_amiibo ;;
    set_current_amiibo a ;;;
    match a with
    | Some d => print (MsgLoaded (character_or_unknown d)) ;;; ret true
    | None => ret false
    end
  else ret false.

(** [detect_tag()] *)
Definition detect_tag : M bool :=
  r <- NFCWriter.detect_tag env ;;
  ret (match r with Some _ => true | None => false end).

(** [write_to_tag(progress_callback)] *)
Definition write_to_tag (progress_callback : bool) : M bool :=
  cur <- get_current_amiibo ;;
  match cur with
  | None => print MsgNoAmiiboLoaded ;;; ret false
  | Some a =>
      if dict_nonempty a then
        print (MsgWriting (character_or_unknown a)) ;;;
        NFCWriter.write_amiibo env a progress_callback
      else print MsgNoAmiiboLoaded ;;; ret false
  end.

End WithEnv.
End AmiiboWriter.

(** ** Vocabulary of the properties *)

Import Py.
Import NFCWriter.

(** *** Reading a frame back *)

Definition frame_length (frame : list Z) : Z := nth 3 frame 0.
Definition frame_lcs (frame : list Z) : Z := nth 4 frame 0.
Definition frame_direction (frame : list Z) : Z := nth 5 frame 0.
Definition frame_command (frame : list Z) : Z := nth 6 frame 0.
Definition frame_data (frame : list Z) : list Z :=
  firstn (List.length frame - 9) (skipn 7 frame).
Definition frame_dcs (frame : list Z) : Z := nth (List.length frame - 2) frame 0.

(** The two checksums computed again from the fields of a frame. *)
Definition rederive_lcs (frame : list Z) : Z := (- frame_length frame) mod 256.
Definition rederive_dcs (frame : list Z) : Z :=
  (- (frame_direction frame + frame_command frame + sum (frame_data frame)))
    mod 256.

(** The page a frame asks the tag to write: an InDataExchange frame whose
    payload is [01 A2 page ...]. *)
Definition written_page (frame : list Z) : option Z :=
  if (frame_command frame =? CMD_INDATAEXCHANGE)
     && (nth 7 frame 0 =? 0x01) && (nth 8 frame 0 =? NTAG_CMD_WRITE)
  then Some (nth 9 frame 0) else None.

(** The bytes such a frame carries for the page. *)
Definition written_bytes (frame : list Z) : list Z := skipn 3 (frame_data frame).

(** *** Progress values *)

(** The value of [progress_percent] in integer arithmetic: the quotient of
    [(page - 4) * 100] by [126]. *)
Definition percent_floor (page : Z) : Z := (page - 4) * 100 / 126.

(** [round(f)] of Python on a float: to the nearest integer, ties to the
    even one; [None] for infinities and NaN. *)
Definition round_float (f : float) : option Z :=
  match Prim2SF f with
  | S754_zero _ => Some 0
  | S754_finite s m e =>
      let mag :=
        if 0 <=? e then Z.pos m * 2 ^ e
        else
          let d := 2 ^ (- e) in
          let q := Z.pos m / d in
          let r := Z.pos m mod d in
          if 2 * r <? d then q
          else if d <? 2 * r then q + 1
          else if Z.even q then q else q + 1 in
      Some (if s then - mag else mag)
  | S754_infinity _ => None
  | S754_nan => None
  end.

(** Following the specification's words: the percentage it gives for
    [onProgress], [round((page - firstPage) / (lastPageExclusive -
    firstPage) * 100)]. *)
Definition spec_progress (page firstPage lastPageExclusive : Z) : option Z :=
  round_float
    (PrimFloat.mul
       (PrimFloat.div (float_of_int (page - firstPage))
                      (float_of_int (lastPageExclusive - firstPage)))
       (float_of_int 100)).

(** *** Page writes seen from the bus *)

(** The four bytes [write_amiibo] takes from the image for a page. *)
Definition page_slice (raw : list Z) (page : Z) : list Z :=
  slice raw (Z.to_nat (page * 4)) (Z.to_nat (page * 4) + 4).

(** The bytes the loop of [write_amiibo] hands to [write_page] for a page:
    the slice, filled with zero bytes up to four. *)
Definition page_data_of (raw : list Z) (page : Z) : list Z :=
  let page_data := page_slice raw page in
  if (List.length page_data <? 4)%nat
  then page_data ++ repeat 0 (4 - List.length page_data)
  else page_data.

(** The frame of the single-page write of [page_data] to [page]. *)
Definition page_frame (page : Z) (page_data : list Z) : list Z :=
  _build_command CMD_INDATAEXCHANGE ([0x01; NTAG_CMD_WRITE; page] ++ page_data).

(** The frame [detect_tag] sends. *)
Definition detect_frame : list Z :=
  _build_command CMD_INLISTPASSIVETARGET [0x01; 0x00].

(** The transactions a run added to the bus log of [st]. *)
Definition new_events (st st' : State) : list BusEvent :=
  skipn (List.length (i2c_log st)) (i2c_log st').

(** The values a run handed to the progress callback. *)
Definition new_progress (st st' : State) : list Z :=
  skipn (List.length (progress_calls st)) (progress_calls st').

(** The lines a run printed. *)
Definition new_output (st st' : State) : list Msg :=
  skipn (List.length (stdout st)) (stdout st').

(** A state in which [n] bus transactions have taken place. *)
Definition state_at (n : nat) : State :=
  mkState (repeat (BusRead 0 None) n) [] [] None None.

(** The outcome of [write_page] for [page] of the image when it starts at
    bus transaction number [n]. *)
Definition page_outcome (env : Env) (n : nat) (page : Z) (raw : list Z) : bool :=
  fst (write_page env page (page_data_of raw page) (state_at n)).

(** *** Detection responses *)

(** A response as [_read_response] hands it over: without the ready marker. *)
Definition ready_stripped (raw : list Z) : list Z :=
  match raw with
  | b :: rest => if b =? 0x01 then rest else raw
  | [] => []
  end.

(** A plausible target pattern in the scanned window: within the first ten
    bytes a number of targets in 1..4, five bytes further a UID length in
    4..10, and that many bytes after it. *)
Definition plausible_target (response : list Z) : Prop :=
  exists offset : nat,
    (offset < 10)%nat /\
    (offset + 5 < List.length response)%nat /\
    1 <= nth offset response 0 <= 4 /\
    4 <= nth (offset + 5) response 0 <= 10 /\
    (offset + 6 + Z.to_nat (nth (offset + 5) response 0%Z)
       <= List.length response)%nat.

(** *** Sample environments *)

(** An InListPassiveTarget answer announcing one target with the seven-byte
    UID [04 AA BB CC DD EE FF]. *)
Definition tag_response : list Z :=
  [0x01; 0x00; 0x00; 0xFF; 0x0F; 0xF1; 0xD5; 0x4B; 0x01; 0x01; 0x00; 0x44;
   0x00; 0x07; 0x04; 0xAA; 0xBB; 0xCC; 0xDD; 0xEE; 0xFF; 0x94; 0x00].

(** An answer with the marker [D5 41 00] at offsets 6 to 8. *)
Definition write_ack : list Z :=
  [0x00; 0x00; 0x00; 0xFF; 0x03; 0xFD; 0xD5; 0x41; 0x00; 0xEA; 0x00].

Definition scenario_a_text : string :=
  "Filetype: Flipper...
UID: 04 AA BB CC DD EE FF
Page 4: 01 02 03 04
".

Definition negative_page_text : string :=
  "Filetype: Flipper NFC device
UID: 04 AA BB CC DD EE FF
Page -1: 01 02 03 04
".

(** A bus that accepts every write, answers the second transaction with
    [tag_response] and every other read with [write_ack]; one file. *)
Definition env_ok : Env :=
  mkEnv (fun _ _ => true)
        (fun n _ => if (n =? 1)%nat then Some tag_response else Some write_ack)
        (fun path => if String.eqb path "amiibo/Mario_Kart.nfc"
                     then Some scenario_a_text else None).

(** The same bus, except that the read of transaction [n_fail] returns
    zero bytes only. *)
Definition env_fail_at (n_fail : nat) : Env :=
  mkEnv (fun _ _ => true)
        (fun n length =>
           if (n =? n_fail)%nat then Some (repeat 0 length)
           else i2c_read env_ok n length)
        (read_file env_ok).

(** A bus whose every read returns the bytes [raw]. *)
Definition env_answering (raw : list Z) : Env :=
  mkEnv (fun _ _ => true) (fun _ _ => Some raw) (fun _ => None).

Definition st0 : State := mkState [] [] [] None None.

Definition blank_amiibo (n : nat) : Amiibo :=
  mkAmiibo (Some (repeat 0 n)) (Some "04AABBCCDDEEFF"%string) (Some "Blank"%string).

(** *** What a run adds to the state *)

(** Between [st] and [st'] the bus log grew by [evs], the output by [out],
    the progress values by [pcs], and no attribute was assigned. *)
Definition run_adds (st st' : State) (evs : list BusEvent) (out : list Msg)
    (pcs : list Z) : Prop :=
  i2c_log st' = i2c_log st ++ evs /\
  stdout st' = stdout st ++ out /\
  progress_calls st' = progress_calls st ++ pcs /\
  nfc_current_amiibo st' = nfc_current_amiibo st /\
  current_amiibo st' = current_amiibo st.

(** A bus transaction that [write_page] may make for [page] and [page_data]:
    the write of its frame, or a read of 64 bytes. *)
Definition page_event (page : Z) (page_data : list Z) (e : BusEvent) : Prop :=
  match e with
  | BusWrite frame _ => frame = page_frame page page_data
  | BusRead n _ => n = 64%nat
  end.

(** A bus transaction that [write_amiibo] may make for the image [raw]:
    one of [detect_tag], or one of [write_page] for a page of the range. *)
Definition amiibo_event (raw : list Z) (e : BusEvent) : Prop :=
  match e with
  | BusWrite frame _ =>
      frame = detect_frame \/
      exists page, 4 <= page < 130 /\ frame = page_frame page (page_data_of raw page)
  | BusRead n _ => n = 64%nat
  end.

(** A bus transaction that [detect_tag] may make. *)
Definition detect_event (e : BusEvent) : Prop :=
  match e with
  | BusWrite frame _ => frame = detect_frame
  | BusRead n _ => n = 64%nat
  end.

(** The detection response of scenario C of the specification. *)
Definition scenario_c_response : list Z :=
  [0x01; 0x00; 0x00; 0xFF; 0x02; 0xFE; 0xD5; 0x4B; 0x00; 0x00].

(** *** The page map of a dump *)

(** The dictionary [data_pages] that [_parse_flipper_format] has built when
    its loop over the lines ends; [None] when the loop raises. *)
Definition parsed_pages (content : string) : option PageDict :=
  option_map snd (snd (parse_lines (split "010"%char content) [] [])).

(** The image of scenario A: zero bytes, except [01 02 03 04] at offsets
    16 to 19. *)
Definition scenario_a_image : list Z :=
  repeat 0 16%nat ++ [0x01; 0x02; 0x03; 0x04] ++ repeat 0 520%nat.

(** *** The dump format *)

(** The text of a dump is described from the outside: how its lines are
    written, not how they are read. *)




















(** ** Vocabulary of the further properties *)

(** The frame [get_firmware_version] writes. *)
Definition firmware_frame : list Z :=
  [0x00; 0x00; 0xFF; 0x02; 0xFE; 0xD4; 0x02; 0x2A; 0x00].

(** The answer of the controller to InListPassiveTarget when it has found
    one target: ready marker, preamble and start code, length and its
    checksum, [D5 4B], one target numbered 1, SENS_RES [s1 s2], SEL_RES
    [sel], the length of the identifier, the identifier, and what follows. *)
Definition target_answer (s1 s2 sel : Z) (nfcid tail : list Z) : list Z :=
  [0x01; 0x00; 0x00; 0xFF; 8 + len nfcid; (- (8 + len nfcid)) mod 256;
   0xD5; 0x4B; 0x01; 0x01; s1; s2; sel; len nfcid] ++ nfcid ++ tail.

(** The bytes a frame's data checksum covers: direction, command and data. *)
Definition frame_covered (frame : list Z) : list Z :=
  frame_direction frame :: frame_command frame :: frame_data frame.

(** No line of the dump starts, once stripped, with [UID:]. *)
Definition no_uid_line (content : string) : Prop :=
  forall line, In line (split "010"%char content) ->
    startswith "UID:" (strip line) = false.

(** The name [load_amiibo] gives to the character of a file. *)
Definition character_name_of (file_path : string) : string :=
  replace "_" " " (replace ".nfc" "" (basename file_path)).

(** A bus that fails every write. *)
Definition env_deaf : Env :=
  mkEnv (fun _ _ => false) (fun _ _ => None) (fun _ => None).

(** The frame [_configure_sam] sends. *)
Definition sam_frame : list Z :=
  _build_command CMD_SAMCONFIGURATION [0x01; 0x14; 0x01].

(** The answer of the controller to GetFirmwareVersion: the ready marker
    or not, preamble and start code, length and its checksum, [D5 03], the
    four fields IC, Ver, Rev and Support, the data checksum, the
    postamble, and what follows. *)
Definition firmware_answer (ready : bool) (ic ver rev support : Z)
    (tail : list Z) : list Z :=
  (if ready then [0x01] else []) ++
  [0x00; 0x00; 0xFF; 0x06; 0xFA; 0xD5; 0x03; ic; ver; rev; support;
   (- (0xD5 + 0x03 + ic + ver + rev + support)) mod 256; 0x00] ++ tail.

(** The bus of [env_ok], with the one file [path] that holds [content]. *)
Definition env_with_file (path content : string) : Env :=
  mkEnv (i2c_write env_ok) (i2c_read env_ok)
        (fun p => if String.eqb p path then Some content else None).

(** A dump with a page and no UID line. *)
Definition pages_only_text : string :=
  "Filetype: Flipper NFC device
Page 4: 01 02 03 04
".

(** A bus that accepts every write and answers the second transaction
    with the firmware answer of a PN532 (IC 32, version 1.6, support 7),
    ready marker in front, and every other read with [write_ack]. *)
Definition env_firmware : Env :=
  mkEnv (fun _ _ => true)
        (fun n _ => if (n =? 1)%nat
                    then Some (firmware_answer true 0x32 0x01 0x06 0x07
                                 (repeat 0 6%nat))
                    else Some write_ack)
        (fun _ => None).


(** *** Proof support *)

(** Unfolding of the combinators. *)
Ltac mstep :=
  unfold bind, ret, print, log_bus, call_progress, bus_clock,
    get_current_amiibo, get_nfc_current_amiibo, set_current_amiibo,
    set_nfc_current_amiibo in *;
  cbn [fst snd i2c_log stdout progress_calls nfc_current_amiibo current_amiibo] in *.




(** * Properties *)

(** ** The state monad *)

Lemma run_adds_refl (st : State) : run_adds st st [] [] [].
Proof. unfold run_adds. rewrite !app_nil_r. auto. Qed.

Lemma run_adds_trans (a b c : State) evs1 out1 pcs1 evs2 out2 pcs2 :
  run_adds a b evs1 out1 pcs1 -> run_adds b c evs2 out2 pcs2 ->
  run_adds a c (evs1 ++ evs2) (out1 ++ out2) (pcs1 ++ pcs2).
Proof.
  unfold run_adds. intros (H1 & H2 & H3 & H4 & H5) (K1 & K2 & K3 & K4 & K5).
  rewrite K1, K2, K3, K4, K5, H1, H2, H3, H4, H5, !app_assoc. auto.
Qed.

Lemma print_adds (m : Msg) (st : State) :
  run_adds st (snd (print m st)) [] [m] [].
Proof. unfold run_adds. cbn. rewrite !app_nil_r. auto. Qed.

Lemma log_bus_adds (e : BusEvent) (st : State) :
  run_adds st (snd (log_bus e st)) [e] [] [].
Proof. unfold run_adds. cbn. rewrite !app_nil_r. auto. Qed.

Lemma call_progress_adds (v : Z) (st : State) :
  run_adds st (snd (call_progress v st)) [] [] [v].
Proof. unfold run_adds. cbn. rewrite !app_nil_r. auto. Qed.

Lemma run_adds_length (st st' : State) evs out pcs :
  run_adds st st' evs out pcs ->
  List.length (i2c_log st') = (List.length (i2c_log st) + List.length evs)%nat.
Proof. intros (H & _). rewrite H. apply length_app. Qed.

Lemma run_adds_new_events (st st' : State) evs out pcs :
  run_adds st st' evs out pcs -> new_events st st' = evs.
Proof.
  intros (H & _). unfold new_events. rewrite H.
  rewrite skipn_app, Nat.sub_diag, skipn_all. reflexivity.
Qed.

Section Bus.
Variable env : Env.

Lemma send_command_adds (cmd : list Z) (st : State) :
  exists evs out,
    run_adds st (snd (_send_command env cmd st)) evs out [] /\
    ((evs = [] /\ fst (_send_command env cmd st) = false) \/
     evs = [BusWrite cmd (fst (_send_command env cmd st))]).
Proof.
  unfold _send_command.
  destruct (forallb is_byte cmd).
  - mstep. destruct (i2c_write env (List.length (i2c_log st)) cmd) eqn:E.
    + exists [BusWrite cmd true], []. split; [|right; reflexivity].
      unfold run_adds; cbn. rewrite !app_nil_r; auto.
    + exists [BusWrite cmd false], [MsgErrorSending]. split; [|right; reflexivity].
      unfold run_adds; cbn. rewrite !app_nil_r; auto.
  - mstep. exists [], [MsgErrorSending]. split; [|left; auto].
    unfold run_adds; cbn. rewrite !app_nil_r; auto.
Qed.

Lemma read_response_adds (n : nat) (st : State) :
  exists out,
    run_adds st (snd (_read_response env n st))
      [BusRead n (i2c_read env (List.length (i2c_log st)) n)] out [] /\
    fst (_read_response env n st) =
      match i2c_read env (List.length (i2c_log st)) n with
      | Some (b :: rest) => Some (ready_stripped (b :: rest))
      | _ => None
      end.
Proof.
  unfold _read_response. mstep.
  destruct (i2c_read env (List.length (i2c_log st)) n) as [[|b rest]|].
  - exists [MsgErrorReading]. split; [|reflexivity].
    unfold run_adds; cbn. rewrite !app_nil_r; auto.
  - cbn [ready_stripped]. destruct (b =? 1); exists []; (split; [|reflexivity]);
    unfold run_adds; cbn; rewrite !app_nil_r; auto.
  - exists [MsgErrorReading]. split; [|reflexivity].
    unfold run_adds; cbn. rewrite !app_nil_r; auto.
Qed.

End Bus.


Section Pages.
Variable env : Env.

Lemma send_command_fst (cmd : list Z) (st : State) :
  fst (_send_command env cmd st) =
  forallb is_byte cmd && i2c_write env (List.length (i2c_log st)) cmd.
Proof.
  unfold _send_command. destruct (forallb is_byte cmd); mstep; [|reflexivity].
  destruct (i2c_write env (List.length (i2c_log st)) cmd); reflexivity.
Qed.

Lemma send_command_true (cmd : list Z) (st : State) :
  fst (_send_command env cmd st) = true ->
  exists out, run_adds st (snd (_send_command env cmd st)) [BusWrite cmd true] out [].
Proof.
  intros H. destruct (send_command_adds env cmd st) as (evs & out & Ha & [[_ Hf]|He]).
  - congruence.
  - exists out. rewrite H in He. subst evs. exact Ha.
Qed.

(** The outcome of [write_page] as a function of the number of the bus
    transaction it starts at. *)
Lemma write_page_fst (p : Z) (d : list Z) (st : State) :
  let n := List.length (i2c_log st) in
  fst (write_page env p d st) =
  (List.length d =? 4)%nat
  && (forallb is_byte (page_frame p d) && i2c_write env n (page_frame p d))
  && match i2c_read env (S n) 64 with
     | Some (b :: rest) =>
         let response := ready_stripped (b :: rest) in
         (8 <? len response) && (nth 6 response 0 =? 0xD5)
         && (nth 7 response 0 =? 0x41) && (nth 8 response 0 =? 0x00)
     | _ => false
     end.
Proof.
  intros n. unfold write_page.
  destruct (List.length d =? 4)%nat; cbn [negb andb]; [|reflexivity].
  fold (page_frame p d). unfold bind at 1.
  pose proof (send_command_fst (page_frame p d) st) as Hs.
  pose proof (send_command_true (page_frame p d) st) as Ht.
  destruct (_send_command env (page_frame p d) st) as [b s1].
  cbn [fst snd] in Hs, Ht. fold n in Hs. rewrite <- Hs.
  destruct b; cbn [negb andb]; [|reflexivity].
  destruct (Ht eq_refl) as (out & Ha).
  pose proof (run_adds_length _ _ _ _ _ Ha) as Hl. cbn [List.length] in Hl.
  unfold bind at 1.
  destruct (read_response_adds env 64 s1) as (out' & _ & Hr).
  destruct (_read_response env 64 s1) as [r s2]. cbn [fst] in Hr.
  replace (List.length (i2c_log s1)) with (S n) in Hr by (fold n in Hl; lia).
  subst r. destruct (i2c_read env (S n) 64) as [[|b rest]|]; try reflexivity.
  cbv zeta.
  destruct ((8 <? len (ready_stripped (b :: rest)))
            && (nth 6 (ready_stripped (b :: rest)) 0 =? 213)
            && (nth 7 (ready_stripped (b :: rest)) 0 =? 65)
            && (nth 8 (ready_stripped (b :: rest)) 0 =? 0)); reflexivity.
Qed.

Lemma write_page_outcome (p : Z) (raw : list Z) (st : State) :
  fst (write_page env p (page_data_of raw p) st) =
  page_outcome env (List.length (i2c_log st)) p raw.
Proof.
  unfold page_outcome. rewrite !write_page_fst.
  cbn [state_at i2c_log]. rewrite repeat_length. reflexivity.
Qed.

Lemma write_page_adds (p : Z) (d : list Z) (st : State) :
  exists evs out,
    run_adds st (snd (write_page env p d st)) evs out [] /\
    Forall (page_event p d) evs /\
    (fst (write_page env p d st) = true ->
     List.length evs = 2%nat /\ List.length d = 4%nat).
Proof.
  destruct (write_page env p d st) as [res st'] eqn:E. cbn [fst snd].
  unfold write_page in E.
  destruct (List.length d =? 4)%nat eqn:El; cbn [negb] in E.
  2:{ exists [], [MsgErrorWritingPage p].
      pose proof (print_adds (MsgErrorWritingPage p) st) as Hp.
      mstep. inversion E; subst res st'.
      split; [exact Hp|]. split; [constructor|discriminate]. }
  apply Nat.eqb_eq in El.
  fold (page_frame p d) in E. unfold bind in E.
  destruct (send_command_adds env (page_frame p d) st) as (evs & out & Ha & Hev).
  destruct (_send_command env (page_frame p d) st) as [b s1].
  cbn [fst snd] in Ha, Hev.
  assert (Hevs : Forall (page_event p d) evs).
  { destruct Hev as [[-> _]| ->]; repeat constructor. }
  destruct b; cbn [negb] in E.
  2:{ exists evs, out. inversion E; subst res st'.
      split; [assumption|split; [assumption|discriminate]]. }
  destruct Hev as [[_ Hf]|Hev]; [discriminate|]. subst evs.
  destruct (read_response_adds env 64 s1) as (out' & Ha' & _).
  destruct (_read_response env 64 s1) as [r s2]. cbn [fst snd] in Ha'.
  pose proof (run_adds_trans _ _ _ _ _ _ _ _ _ Ha Ha') as Hall.
  cbn [app] in Hall.
  exists [BusWrite (page_frame p d) true;
          BusRead 64 (i2c_read env (List.length (i2c_log s1)) 64)], (out ++ out').
  assert (Hf : Forall (page_event p d)
                 [BusWrite (page_frame p d) true;
                  BusRead 64 (i2c_read env (List.length (i2c_log s1)) 64)]).
  { repeat constructor. }
  assert (Hst : st' = s2).
  { destruct r as [r|]; [|inversion E; reflexivity].
    destruct ((8 <? len r) && (nth 6 r 0 =? 213) && (nth 7 r 0 =? 65)
              && (nth 8 r 0 =? 0)); inversion E; reflexivity. }
  subst st'. split; [assumption|]. split; [assumption|].
  intros _. split; [reflexivity|assumption].
Qed.

End Pages.


(** ** The page loop *)

Lemma page_data_of_length (raw : list Z) (p : Z) :
  List.length (page_data_of raw p) = 4%nat.
Proof.
  unfold page_data_of.
  assert (H : (List.length (page_slice raw p) <= 4)%nat).
  { unfold page_slice, slice. rewrite length_firstn. lia. }
  destruct (List.length (page_slice raw p) <? 4)%nat eqn:E.
  - rewrite length_app, repeat_length. lia.
  - apply Nat.ltb_ge in E. lia.
Qed.

Lemma page_data_of_full (raw : list Z) (p : Z) :
  0 <= p -> 4 * p + 4 <= len raw -> page_data_of raw p = page_slice raw p.
Proof.
  intros Hp Hl. unfold page_data_of.
  assert (H : List.length (page_slice raw p) = 4%nat).
  { unfold page_slice, slice. rewrite length_firstn, length_skipn.
    unfold len in Hl. lia. }
  rewrite H. reflexivity.
Qed.

Lemma in_data_pages_range (p : Z) : In p data_pages_range <-> 4 <= p < 130.
Proof.
  unfold data_pages_range. rewrite in_map_iff. split.
  - intros (n & <- & Hn). apply in_seq in Hn. lia.
  - intros H. exists (Z.to_nat p). split; [lia|]. apply in_seq. lia.
Qed.

Section Loop.
Variable env : Env.
Variable raw : list Z.

Lemma write_pages_cons (cb : bool) (count page : Z) (rest : list Z) (st : State) :
  write_pages env raw cb count (page :: rest) st =
  (let (ok, st1) := write_page env page (page_data_of raw page) st in
   if ok then
     if cb then
       match progress_percent page with
       | Some progress =>
           write_pages env raw cb (count + 1) rest (snd (call_progress progress st1))
       | None => (None, st1)
       end
     else write_pages env raw cb (count + 1) rest st1
   else (Some false, snd (print (MsgFailedToWritePage page) st1))).
Proof.
  unfold page_data_of, page_slice. cbn [write_pages]. unfold bind at 1.
  match goal with
  | |- context [write_page env page ?d st] =>
      destruct (write_page env page d st) as [ok st1]
  end.
  destruct ok; [|reflexivity].
  destruct cb; [|reflexivity].
  destruct (progress_percent page); reflexivity.
Qed.

(** What the loop adds: transactions of [write_page] for pages of the list,
    and, with a callback, the percentages of a prefix of the pages. *)
Lemma write_pages_adds (cb : bool) :
  forall (pages : list Z) (count : Z) (st : State),
  exists evs out pcs,
    run_adds st (snd (write_pages env raw cb count pages st)) evs out pcs /\
    Forall (fun e => exists p, In p pages /\ page_event p (page_data_of raw p) e) evs /\
    (cb = false -> pcs = []) /\
    exists k, (k <= List.length pages)%nat /\
      Forall2 (fun p v => progress_percent p = Some v) (firstn k pages) pcs.
Proof.
  induction pages as [|page rest IH]; intros count st.
  - exists [], [MsgWrotePages count], []. cbn [write_pages].
    split; [apply (print_adds (MsgWrotePages count) st)|].
    split; [constructor|]. split; [reflexivity|].
    exists 0%nat. split; [cbn; lia|constructor].
  - rewrite write_pages_cons.
    destruct (write_page_adds env page (page_data_of raw page) st)
      as (evs1 & out1 & Ha1 & Hev1 & _).
    destruct (write_page env page (page_data_of raw page) st) as [ok st1].
    cbn [fst snd] in Ha1.
    assert (Hev1' : Forall (fun e => exists p, In p (page :: rest)
                                /\ page_event p (page_data_of raw p) e) evs1).
    { eapply Forall_impl; [|exact Hev1]. intros e He. exists page.
      split; [left; reflexivity|exact He]. }
    destruct ok.
    + destruct cb.
      * destruct (progress_percent page) as [v|] eqn:Ev.
        -- destruct (IH (count + 1) (snd (call_progress v st1)))
             as (evs2 & out2 & pcs2 & Ha2 & Hev2 & _ & k & Hk & Hp).
           pose proof (run_adds_trans _ _ _ _ _ _ _ _ _ Ha1
                         (run_adds_trans _ _ _ _ _ _ _ _ _
                            (call_progress_adds v st1) Ha2)) as Hall.
           cbn [app] in Hall.
           exists (evs1 ++ evs2), (out1 ++ out2), (v :: pcs2).
           split; [exact Hall|]. split.
           { apply Forall_app. split; [exact Hev1'|].
             eapply Forall_impl; [|exact Hev2]. intros e (p & Hin & He).
             exists p. split; [right; exact Hin|exact He]. }
           split; [discriminate|].
           exists (S k). split; [cbn; lia|]. cbn [firstn]. constructor; assumption.
        -- exists evs1, out1, []. cbn [snd].
           split; [exact Ha1|]. split; [exact Hev1'|]. split; [reflexivity|].
           exists 0%nat. split; [cbn; lia|constructor].
      * destruct (IH (count + 1) st1)
          as (evs2 & out2 & pcs2 & Ha2 & Hev2 & Hn & _).
        rewrite (Hn eq_refl) in Ha2.
        pose proof (run_adds_trans _ _ _ _ _ _ _ _ _ Ha1 Ha2) as Hall.
        cbn [app] in Hall.
        exists (evs1 ++ evs2), (out1 ++ out2), [].
        split; [exact Hall|]. split.
        { apply Forall_app. split; [exact Hev1'|].
          eapply Forall_impl; [|exact Hev2]. intros e (p & Hin & He).
          exists p. split; [right; exact Hin|exact He]. }
        split; [reflexivity|].
        exists 0%nat. split; [cbn; lia|constructor].
    + pose proof (run_adds_trans _ _ _ _ _ _ _ _ _ Ha1
                    (print_adds (MsgFailedToWritePage page) st1)) as Hall.
      cbn [app] in Hall. rewrite app_nil_r in Hall.
      exists evs1, (out1 ++ [MsgFailedToWritePage page]), []. cbn [snd].
      split; [exact Hall|]. split; [exact Hev1'|]. split; [reflexivity|].
      exists 0%nat. split; [cbn; lia|constructor].
Qed.

End Loop.


(** ** Progress values *)

Lemma progress_percent_range (p : Z) :
  4 <= p < 130 -> progress_percent p = Some (percent_floor p).
Proof.
  intros Hp. apply in_data_pages_range in Hp.
  assert (H : forallb (fun q => match progress_percent q with
                                | Some v => v =? percent_floor q
                                | None => false
                                end) data_pages_range = true)
    by (vm_compute; reflexivity).
  rewrite forallb_forall in H. specialize (H p Hp).
  destruct (progress_percent p) as [v|]; [|discriminate].
  apply Z.eqb_eq in H. congruence.
Qed.

Lemma percent_floor_mono (p q : Z) : p <= q -> percent_floor p <= percent_floor q.
Proof. intros H. unfold percent_floor. apply Z.div_le_mono; lia. Qed.

Lemma percent_floor_bounds (p : Z) : 4 <= p < 130 -> 0 <= percent_floor p <= 99.
Proof.
  intros H. unfold percent_floor. split.
  - apply Z.div_pos; lia.
  - apply Z.lt_succ_r. apply Z.div_lt_upper_bound; lia.
Qed.

(** ** detect_tag *)

Lemma slice_length {A : Type} (l : list A) (a b : nat) :
  List.length (slice l a b) = Nat.min (b - a) (List.length l - a).
Proof. unfold slice. rewrite length_firstn, length_skipn. reflexivity. Qed.

Lemma uid_at_some (response : list Z) (offset : nat) (u : list Z) :
  uid_at response offset = Some u ->
  (offset + 5 < List.length response)%nat /\
  1 <= nth offset response 0 <= 4 /\
  4 <= nth (offset + 5) response 0 <= 10 /\
  (offset + 6 + Z.to_nat (nth (offset + 5) response 0%Z) <= List.length response)%nat /\
  4 <= len u <= 10.
Proof.
  unfold uid_at. intros H.
  destruct ((0 <? nth offset response 0) && (nth offset response 0 <? 5)) eqn:E1;
    [|discriminate].
  destruct (offset + 5 <? List.length response)%nat eqn:E2; [|discriminate].
  destruct ((4 <=? nth (offset + 5) response 0)
            && (nth (offset + 5) response 0 <=? 10)) eqn:E3; [|discriminate].
  match type of H with
  | (if forallb is_byte ?s then _ else _) = _ =>
      destruct (forallb is_byte s); [|discriminate];
      destruct (len s =? nth (offset + 5) response 0) eqn:E4; [|discriminate];
      pose proof (slice_length response (offset + 5 + 1)
                    (offset + 5 + 1 + Z.to_nat (nth (offset + 5) response 0%Z))) as Hl
  end.
  inversion H; subst u; clear H.
  apply andb_prop in E1, E3. destruct E1 as [E1 E1'], E3 as [E3 E3'].
  apply Z.ltb_lt in E1, E1'. apply Z.leb_le in E3, E3'.
  apply Nat.ltb_lt in E2. apply Z.eqb_eq in E4. unfold len in *.
  repeat split; try lia.
Qed.

Lemma scan_uid_some (response : list Z) (offsets : list nat) (u : list Z) :
  scan_uid response offsets = Some u ->
  exists offset, In offset offsets /\ uid_at response offset = Some u.
Proof.
  induction offsets as [|o rest IH]; cbn [scan_uid]; [discriminate|].
  destruct (uid_at response o) as [v|] eqn:E.
  - intros H. inversion H; subst v. exists o. split; [left; reflexivity|exact E].
  - intros H. destruct (IH H) as (o' & Hin & Ho'). exists o'. split; [right|]; assumption.
Qed.

(** The scan finds nothing where no plausible pattern exists. *)
Lemma scan_uid_implausible (response : list Z) :
  ~ plausible_target response ->
  scan_uid response (seq 0 (Nat.min 10 (List.length response))) = None.
Proof.
  intros Hn.
  destruct (scan_uid response (seq 0 (Nat.min 10 (List.length response))))
    as [u|] eqn:E; [|reflexivity].
  exfalso. apply Hn.
  destruct (scan_uid_some _ _ _ E) as (o & Hin & Ho).
  apply in_seq in Hin. apply uid_at_some in Ho.
  exists o. split; [lia|]. tauto.
Qed.

Section Detect.
Variable env : Env.

(** The outcome of [detect_tag] as a function of the number of the bus
    transaction it starts at. *)
Lemma detect_tag_fst (st : State) :
  let n := List.length (i2c_log st) in
  fst (detect_tag env st) =
  if i2c_write env n detect_frame then
    match i2c_read env (S n) 64 with
    | Some (b :: rest) =>
        match ready_stripped (b :: rest) with
        | [] => None
        | response =>
            if forallb is_byte (firstn 20 response)
            then scan_uid response (seq 0 (Nat.min 10 (List.length response)))
            else None
        end
    | _ => None
    end
  else None.
Proof.
  intros n. unfold detect_tag. fold detect_frame.
  unfold bind at 1. cbn [print].
  set (st1 := {| i2c_log := i2c_log st; stdout := stdout st ++ [MsgDetecting];
                 progress_calls := progress_calls st;
                 nfc_current_amiibo := nfc_current_amiibo st;
                 current_amiibo := current_amiibo st |}).
  unfold bind at 1.
  pose proof (send_command_fst env detect_frame st1) as Hs.
  pose proof (send_command_true env detect_frame st1) as Ht.
  destruct (_send_command env detect_frame st1) as [b s1].
  cbn [fst snd] in Hs, Ht.
  change (forallb is_byte detect_frame) with true in Hs.
  cbn [andb i2c_log st1] in Hs. fold n in Hs. rewrite <- Hs.
  destruct b; cbn [negb]; [|reflexivity].
  destruct (Ht eq_refl) as (out & Ha).
  pose proof (run_adds_length _ _ _ _ _ Ha) as Hl. cbn [List.length i2c_log st1] in Hl.
  unfold bind at 1.
  destruct (read_response_adds env 64 s1) as (out' & _ & Hr).
  destruct (_read_response env 64 s1) as [r s2]. cbn [fst] in Hr.
  replace (List.length (i2c_log s1)) with (S n) in Hr by (fold n in Hl; lia).
  subst r. destruct (i2c_read env (S n) 64) as [[|b rest]|]; try reflexivity.
  destruct (ready_stripped (b :: rest)) as [|x response]; [reflexivity|].
  unfold bind at 1. cbn [print].
  destruct (forallb is_byte (firstn 20 (x :: response))); [|reflexivity].
  unfold bind at 1. cbn [print].
  destruct (scan_uid (x :: response)
              (seq 0 (Nat.min 10 (List.length (x :: response))))); reflexivity.
Qed.

Lemma detect_tag_clock (s1 s2 : State) :
  List.length (i2c_log s1) = List.length (i2c_log s2) ->
  fst (detect_tag env s1) = fst (detect_tag env s2).
Proof. intros H. rewrite !detect_tag_fst. cbv zeta. rewrite H. reflexivity. Qed.

Lemma detect_tag_adds (st : State) :
  exists evs out,
    run_adds st (snd (detect_tag env st)) evs out [] /\
    Forall detect_event evs /\
    (forall u, fst (detect_tag env st) = Some u -> List.length evs = 2%nat).
Proof.
  destruct (detect_tag env st) as [res st'] eqn:E. cbn [fst snd].
  unfold detect_tag in E. fold detect_frame in E. unfold bind at 1 in E.
  pose proof (print_adds MsgDetecting st) as Hp.
  destruct (print MsgDetecting st) as [[] st1]. cbn [snd] in Hp.
  unfold bind at 1 in E.
  destruct (send_command_adds env detect_frame st1) as (evs & out & Ha & Hev).
  destruct (_send_command env detect_frame st1) as [b s1].
  cbn [fst snd] in Ha, Hev.
  pose proof (run_adds_trans _ _ _ _ _ _ _ _ _ Hp Ha) as Ha1. cbn [app] in Ha1.
  assert (Hevs : Forall detect_event evs).
  { destruct Hev as [[-> _]| ->]; repeat constructor. }
  destruct b; cbn [negb] in E.
  2:{ pose proof (run_adds_trans _ _ _ _ _ _ _ _ _ Ha1
                    (print_adds MsgFailedSendDetect s1)) as Hall.
      rewrite !app_nil_r in Hall. mstep. inversion E; subst res st'.
      exists evs, ((MsgDetecting :: out) ++ [MsgFailedSendDetect]).
      split; [exact Hall|]. split; [exact Hevs|discriminate]. }
  destruct Hev as [[_ Hf]|Hev]; [discriminate|]. subst evs.
  unfold bind at 1 in E.
  destruct (read_response_adds env 64 s1) as (out' & Ha' & _).
  destruct (_read_response env 64 s1) as [r s2]. cbn [fst snd] in Ha'.
  pose proof (run_adds_trans _ _ _ _ _ _ _ _ _ Ha1 Ha') as Ha2. cbn [app] in Ha2.
  set (evs := [BusWrite detect_frame true;
               BusRead 64 (i2c_read env (List.length (i2c_log s1)) 64)]) in *.
  assert (Hf : Forall detect_event evs) by (repeat constructor).
  assert (Hout : exists out2, run_adds st st' evs out2 []).
  { destruct r as [[|x response]|].
    - mstep. inversion E; subst res st'. eexists.
      pose proof (run_adds_trans _ _ _ _ _ _ _ _ _ Ha2 (print_adds MsgNoResponse s2)) as H.
      rewrite !app_nil_r in H. exact H.
    - unfold bind at 1 in E.
      pose proof (run_adds_trans _ _ _ _ _ _ _ _ _ Ha2
                    (print_adds (MsgResponseLength (len (x :: response))) s2)) as H3.
      rewrite !app_nil_r in H3.
      destruct (print (MsgResponseLength (len (x :: response))) s2) as [[] s3].
      cbn [snd] in H3.
      destruct (forallb is_byte (firstn 20 (x :: response))).
      + unfold bind at 1 in E.
        pose proof (run_adds_trans _ _ _ _ _ _ _ _ _ H3
                      (print_adds (MsgResponseHex (firstn 20 (x :: response))) s3)) as H4.
        rewrite !app_nil_r in H4.
        destruct (print (MsgResponseHex (firstn 20 (x :: response))) s3) as [[] s4].
        cbn [snd] in H4.
        destruct (scan_uid (x :: response)
                    (seq 0 (Nat.min 10 (List.length (x :: response))))) as [u|].
        * pose proof (run_adds_trans _ _ _ _ _ _ _ _ _ H4
                        (print_adds (MsgTagDetected u) s4)) as H5.
          rewrite !app_nil_r in H5. mstep. inversion E; subst res st'.
          eexists. exact H5.
        * pose proof (run_adds_trans _ _ _ _ _ _ _ _ _ H4
                        (print_adds MsgNoTagDetected s4)) as H5.
          rewrite !app_nil_r in H5. mstep. inversion E; subst res st'.
          eexists. exact H5.
      + pose proof (run_adds_trans _ _ _ _ _ _ _ _ _ H3
                      (print_adds MsgErrorDetecting s3)) as H5.
        rewrite !app_nil_r in H5. mstep. inversion E; subst res st'.
        eexists. exact H5.
    - mstep. inversion E; subst res st'. eexists.
      pose proof (run_adds_trans _ _ _ _ _ _ _ _ _ Ha2 (print_adds MsgNoResponse s2)) as H.
      rewrite !app_nil_r in H. exact H. }
  destruct Hout as (out2 & Hall). exists evs, out2.
  split; [exact Hall|]. split; [exact Hf|]. intros _ _. reflexivity.
Qed.

End Detect.


(** ** write_amiibo *)

Lemma run_adds_new_progress (st st' : State) evs out pcs :
  run_adds st st' evs out pcs -> new_progress st st' = pcs.
Proof.
  intros (_ & _ & H & _). unfold new_progress. rewrite H.
  rewrite skipn_app, Nat.sub_diag, skipn_all. reflexivity.
Qed.

Lemma run_adds_new_output (st st' : State) evs out pcs :
  run_adds st st' evs out pcs -> new_output st st' = out.
Proof.
  intros (_ & H & _). unfold new_output. rewrite H.
  rewrite skipn_app, Nat.sub_diag, skipn_all. reflexivity.
Qed.

Lemma in_firstn {A : Type} (k : nat) (l : list A) (x : A) :
  In x (firstn k l) -> In x l.
Proof.
  intros H. rewrite <- (firstn_skipn k l). apply in_or_app. left. exact H.
Qed.

Lemma percents_of_pages (pages pcs : list Z) :
  (forall p, In p pages -> 4 <= p < 130) ->
  Forall2 (fun p v => progress_percent p = Some v) pages pcs ->
  pcs = map percent_floor pages.
Proof.
  intros Hin H. induction H as [|p v pages pcs Hv _ IH]; [reflexivity|].
  cbn [map]. rewrite progress_percent_range in Hv by (apply Hin; left; reflexivity).
  inversion Hv. f_equal. apply IH. intros q Hq. apply Hin. right. exact Hq.
Qed.

Section WriteAmiibo.
Variable env : Env.

Lemma write_amiibo_adds (a : Amiibo) (cb : bool) (st : State) :
  exists evs out pcs,
    run_adds st (snd (write_amiibo env a cb st)) evs out pcs /\
    Forall (amiibo_event (get_raw_data a)) evs /\
    (cb = false -> pcs = []) /\
    (exists k, (k <= List.length data_pages_range)%nat /\
       pcs = map percent_floor (firstn k data_pages_range)) /\
    (len (get_raw_data a) < 540 ->
     fst (write_amiibo env a cb st) = false /\ evs = [] /\ pcs = []) /\
    (evs <> [] -> 540 <= len (get_raw_data a)).
Proof.
  pose proof in_data_pages_range as Hrange.
  unfold write_amiibo. revert Hrange. generalize data_pages_range as pages.
  intros pages Hrange.
  match goal with
  | |- context [snd (?m st)] => destruct (m st) as [res st'] eqn:E
  end.
  cbn [fst snd]. unfold bind at 1 in E.
  pose proof (print_adds MsgStartingWrite st) as Hp.
  destruct (print MsgStartingWrite st) as [[] st1]. cbn [snd] in Hp.
  set (raw := get_raw_data a) in *. cbv zeta in E.
  assert (Hk0 : exists k, (k <= List.length pages)%nat /\
                  @nil Z = map percent_floor (firstn k pages)).
  { exists 0%nat. split; [apply Nat.le_0_l|reflexivity]. }
  destruct (len raw <? 540) eqn:El.
  - pose proof (run_adds_trans _ _ _ _ _ _ _ _ _ Hp
                  (print_adds (MsgInvalidSize (len raw)) st1)) as Hall.
    cbn [app] in Hall. mstep. inversion E; subst res st'.
    exists [], [MsgStartingWrite; MsgInvalidSize (len raw)], [].
    split; [exact Hall|]. split; [constructor|]. split; [reflexivity|].
    split; [exact Hk0|]. split; [intros _; repeat split|congruence].
  - apply Z.ltb_ge in El.
    unfold bind at 1 in E.
    destruct (detect_tag_adds env st1) as (evs1 & out1 & Ha1 & Hev1 & _).
    destruct (detect_tag env st1) as [u s2]. cbn [fst snd] in Ha1.
    pose proof (run_adds_trans _ _ _ _ _ _ _ _ _ Hp Ha1) as Ha2. cbn [app] in Ha2.
    assert (Hev1' : Forall (amiibo_event raw) evs1).
    { eapply Forall_impl; [|exact Hev1]. intros [f ok|n r] He; cbn [amiibo_event detect_event] in *.
      - left. exact He.
      - exact He. }
    assert (Hno : forall s3, s3 = snd (print MsgNoTagPlaceTag s2) ->
              exists evs out pcs,
                run_adds st s3 evs out pcs /\ Forall (amiibo_event raw) evs /\
                (cb = false -> pcs = []) /\
                (exists k, (k <= List.length pages)%nat /\
                   pcs = map percent_floor (firstn k pages)) /\
                (len raw < 540 -> false = false /\ evs = [] /\ pcs = []) /\
                (evs <> [] -> 540 <= len raw)).
    { intros s3 ->.
      pose proof (run_adds_trans _ _ _ _ _ _ _ _ _ Ha2
                    (print_adds MsgNoTagPlaceTag s2)) as Hall.
      rewrite !app_nil_r in Hall.
      exists evs1, ((MsgStartingWrite :: out1) ++ [MsgNoTagPlaceTag]), [].
      split; [exact Hall|]. split; [exact Hev1'|]. split; [reflexivity|].
      split; [exact Hk0|].
      split; [intros Hlt; exfalso; exact (proj1 (Z.lt_nge _ _) Hlt El)|].
      intros _; exact El. }
    destruct u as [[|x u]|].
    + mstep. inversion E; subst res st'. apply Hno. reflexivity.
    + unfold bind at 1 in E.
      destruct (write_pages_adds env raw cb pages 0 s2)
        as (evs2 & out2 & pcs2 & Ha3 & Hev2 & Hcb & k & Hk & Hpc).
      destruct (write_pages env raw cb 0 pages s2) as [r s3].
      cbn [snd] in Ha3.
      pose proof (run_adds_trans _ _ _ _ _ _ _ _ _ Ha2 Ha3) as Ha4.
      cbn [app] in Ha4.
      assert (Hev : Forall (amiibo_event raw) (evs1 ++ evs2)).
      { apply Forall_app. split; [exact Hev1'|].
        eapply Forall_impl; [|exact Hev2].
        intros [f ok|n rd] (p & Hin & He); cbn [amiibo_event page_event] in *.
        - right. exists p. split; [apply Hrange; exact Hin|exact He].
        - exact He. }
      assert (Hpcs : exists k, (k <= List.length pages)%nat /\
                       pcs2 = map percent_floor (firstn k pages)).
      { exists k. split; [exact Hk|]. apply percents_of_pages; [|exact Hpc].
        intros p Hin. apply Hrange.
        exact (in_firstn _ _ _ Hin). }
      destruct r as [b|].
      * mstep. inversion E; subst res st'.
        exists (evs1 ++ evs2), (MsgStartingWrite :: out1 ++ out2), pcs2.
        split; [exact Ha4|]. split; [exact Hev|]. split; [exact Hcb|].
        split; [exact Hpcs|]. split; [intros Hlt; exfalso; exact (proj1 (Z.lt_nge _ _) Hlt El)|intros _; exact El].
      * pose proof (run_adds_trans _ _ _ _ _ _ _ _ _ Ha4
                      (print_adds MsgErrorWritingAmiibo s3)) as Hall.
        rewrite !app_nil_r in Hall. mstep. inversion E; subst res st'.
        exists (evs1 ++ evs2),
               ((MsgStartingWrite :: out1 ++ out2) ++ [MsgErrorWritingAmiibo]), pcs2.
        split; [exact Hall|]. split; [exact Hev|]. split; [exact Hcb|].
        split; [exact Hpcs|]. split; [intros Hlt; exfalso; exact (proj1 (Z.lt_nge _ _) Hlt El)|intros _; exact El].
    + mstep. inversion E; subst res st'. apply Hno. reflexivity.
Qed.

End WriteAmiibo.


(** ** Frames *)

Lemma sum_from (l : list Z) (a : Z) : fold_left Z.add l a = a + sum l.
Proof.
  unfold sum. revert a. induction l as [|x l IH]; intros a; simpl.
  - lia.
  - rewrite IH, (IH x). lia.
Qed.

Lemma sum_cons (x : Z) (l : list Z) : sum (x :: l) = x + sum l.
Proof. unfold sum at 1. simpl. apply sum_from. Qed.

Lemma neg_low_byte (x : Z) : Z.land (Z.lnot x + 1) 0xFF = (- x) mod 256.
Proof.
  replace (Z.lnot x + 1) with (- x) by (unfold Z.lnot; lia).
  change 0xFF with (Z.ones 8). rewrite Z.land_ones by lia. reflexivity.
Qed.

Lemma build_command_shape (cmd : Z) (data : list Z) :
  _build_command cmd data =
  [0x00; 0x00; 0xFF; len data + 1; (- (len data + 1)) mod 256; 0xD4; cmd]
    ++ data ++ [(- (0xD4 + cmd + sum data)) mod 256; 0x00].
Proof.
  unfold _build_command. rewrite !neg_low_byte.
  change ([PN532_HOSTTOPN532; cmd] ++ data) with (0xD4 :: cmd :: data).
  rewrite !sum_cons. unfold PN532_PREAMBLE, PN532_STARTCODE1, PN532_STARTCODE2, PN532_HOSTTOPN532, PN532_POSTAMBLE.
  rewrite <- !app_assoc. cbn [app].
  replace (0xD4 + (cmd + sum data)) with (0xD4 + cmd + sum data) by lia.
  reflexivity.
Qed.

Lemma frame_data_build (cmd : Z) (data : list Z) :
  frame_data (_build_command cmd data) = data.
Proof.
  rewrite build_command_shape. unfold frame_data.
  rewrite !length_app. cbn [List.length app skipn].
  replace (7 + (List.length data + 2) - 9)%nat with (List.length data) by lia.
  rewrite firstn_app, firstn_all, Nat.sub_diag. cbn [firstn]. apply app_nil_r.
Qed.

Lemma frame_dcs_build (cmd : Z) (data : list Z) :
  frame_dcs (_build_command cmd data) = (- (0xD4 + cmd + sum data)) mod 256.
Proof.
  rewrite build_command_shape. unfold frame_dcs.
  rewrite !length_app. cbn [List.length].
  replace (7 + (List.length data + 2) - 2)%nat with (7 + List.length data)%nat by lia.
  rewrite app_nth2 by (cbn [List.length]; lia). cbn [List.length].
  replace (7 + List.length data - 7)%nat with (List.length data) by lia.
  rewrite app_nth2 by lia. rewrite Nat.sub_diag. reflexivity.
Qed.

Lemma written_page_frame (p : Z) (d : list Z) : written_page (page_frame p d) = Some p.
Proof.
  unfold written_page, frame_command, page_frame. rewrite build_command_shape.
  cbn [app nth]. unfold CMD_INDATAEXCHANGE, NTAG_CMD_WRITE.
  rewrite !Z.eqb_refl. reflexivity.
Qed.

Lemma written_bytes_frame (p : Z) (d : list Z) : written_bytes (page_frame p d) = d.
Proof.
  unfold written_bytes, page_frame. rewrite frame_data_build. reflexivity.
Qed.

Lemma written_page_detect : written_page detect_frame = None.
Proof. vm_compute. reflexivity. Qed.

(** C1: every frame built by [_build_command] carries the length
    [len(data) + 1], the length checksum [(- length) mod 256] and the data
    checksum [(- (0xD4 + cmd + sum(data))) mod 256]; computing the two
    checksums again from the length, direction, command and data fields read
    back from the frame gives the bytes the frame holds.  This holds for any
    command and data, in particular for [len(data) <= 255]. *)
Theorem build_command_checksums : forall (cmd : Z) (data : list Z),
  let frame := _build_command cmd data in
  let length := len data + 1 in
  frame_length frame = length /\
  frame_lcs frame = (- length) mod 256 /\
  frame_direction frame = 0xD4 /\
  frame_command frame = cmd /\
  frame_data frame = data /\
  frame_dcs frame = (- (0xD4 + cmd + sum data)) mod 256 /\
  rederive_lcs frame = frame_lcs frame /\
  rederive_dcs frame = frame_dcs frame.
Proof.
  intros cmd data frame length.
  assert (Hd : frame_data frame = data) by apply frame_data_build.
  assert (Hc : frame_dcs frame = (- (0xD4 + cmd + sum data)) mod 256)
    by apply frame_dcs_build.
  unfold rederive_lcs, rederive_dcs. rewrite Hd, Hc.
  subst frame. rewrite build_command_shape.
  repeat split; reflexivity.
Qed.

(** C2: the frame built for command [0x4A] with data [01 00] is
    [00 00 FF 03 FD D4 4A 01 00 E1 00]: eleven bytes, the data checksum being
    [E1]. *)
Theorem build_command_scenario_b :
  _build_command 0x4A [0x01; 0x00] =
  [0x00; 0x00; 0xFF; 0x03; 0xFD; 0xD4; 0x4A; 0x01; 0x00; 0xE1; 0x00].
Proof. reflexivity. Qed.

(** C2, as the specification words it: the frame is not
    [00 00 FF 03 FD D4 4A 01 00 B0 00]; its tenth byte is [E1], which is what
    the checksum rule gives, and not [B0]. *)
Lemma build_command_scenario_b_not_b0 :
  nth 9 (_build_command 0x4A [0x01; 0x00]) 0 = 0xE1 /\
  (- (0xD4 + 0x4A + sum [0x01; 0x00])) mod 256 = 0xE1 /\
  _build_command 0x4A [0x01; 0x00] <>
  [0x00; 0x00; 0xFF; 0x03; 0xFD; 0xD4; 0x4A; 0x01; 0x00; 0xB0; 0x00].
Proof. repeat split. discriminate. Qed.


(** ** The page write engine *)

Lemma data_pages_range_length : List.length data_pages_range = 126%nat.
Proof. reflexivity. Qed.

Lemma firstn_seq (k a n : nat) : firstn k (seq a n) = seq a (Nat.min k n).
Proof.
  revert a n. induction k as [|k IH]; intros a [|n]; cbn; try reflexivity.
  rewrite IH. reflexivity.
Qed.

Lemma nth_map_seq (f : nat -> Z) (d : Z) (k a i : nat) :
  (i < k)%nat -> nth i (map f (seq a k)) d = f (a + i)%nat.
Proof.
  revert a i. induction k as [|k IH]; intros a i Hi; [lia|].
  destruct i as [|i]; cbn [seq map nth].
  - rewrite Nat.add_0_r. reflexivity.
  - rewrite IH by lia. f_equal. lia.
Qed.

(** The percentages of the first [k] pages of the range. *)
Lemma percents_prefix (k : nat) :
  (k <= 126)%nat ->
  map percent_floor (firstn k data_pages_range)
  = map (fun i => percent_floor (Z.of_nat i)) (seq 4 k).
Proof.
  intros Hk. unfold data_pages_range.
  rewrite firstn_map, firstn_seq, map_map, Nat.min_l by exact Hk. reflexivity.
Qed.

Section Engine.
Variable env : Env.

(** Every frame [write_amiibo] puts on the bus is the detection frame or
    the write of a page of the range with four bytes of the image. *)
Lemma write_amiibo_frames (a : Amiibo) (cb : bool) (st : State)
    (frame : list Z) (ok : bool) :
  In (BusWrite frame ok) (new_events st (snd (write_amiibo env a cb st))) ->
  540 <= len (get_raw_data a) /\
  (frame = detect_frame \/
   exists page, 4 <= page < 130 /\
     frame = page_frame page (page_slice (get_raw_data a) page) /\
     List.length (page_slice (get_raw_data a) page) = 4%nat).
Proof.
  destruct (write_amiibo_adds env a cb st)
    as (evs & out & pcs & Ha & Hev & _ & _ & _ & Hlen).
  rewrite (run_adds_new_events _ _ _ _ _ Ha). intros Hin.
  assert (Hl : 540 <= len (get_raw_data a)).
  { apply Hlen. intros ->. exact Hin. }
  split; [exact Hl|].
  rewrite Forall_forall in Hev. specialize (Hev _ Hin). cbn [amiibo_event] in Hev.
  destruct Hev as [Hd|(page & Hp & Hf)]; [left; exact Hd|right].
  exists page. split; [exact Hp|].
  rewrite page_data_of_full in Hf by lia.
  split; [exact Hf|].
  rewrite <- (page_data_of_full (get_raw_data a) page) by lia.
  apply page_data_of_length.
Qed.

(** C3: whatever the image and whatever the bus answers, a frame that
    [write_amiibo] sends and that asks for the write of a page names a page
    [p] with [4 <= p < 130]: pages 0 to 3 and pages 130 to 134 are never
    written. *)
Theorem write_amiibo_targets_data_pages (a : Amiibo) (cb : bool) (st : State)
    (frame : list Z) (ok : bool) (page : Z) :
  In (BusWrite frame ok) (new_events st (snd (write_amiibo env a cb st))) ->
  written_page frame = Some page ->
  4 <= page < 130.
Proof.
  intros Hin Hw.
  destruct (write_amiibo_frames a cb st frame ok Hin) as (_ & [->|(p & Hp & -> & _)]).
  - rewrite written_page_detect in Hw. discriminate.
  - rewrite written_page_frame in Hw. inversion Hw; subst. exact Hp.
Qed.

(** C4, amended: an image shorter than 540 bytes is refused, [write_amiibo]
    returns [False] without any bus transaction and without progress call;
    and every page write that [write_amiibo] issues carries exactly four
    bytes, the bytes of the image at offset [4 * page]. *)
Theorem write_amiibo_rejects_short_image (a : Amiibo) (cb : bool) (st : State) :
  let st' := snd (write_amiibo env a cb st) in
  (len (get_raw_data a) < 540 ->
   fst (write_amiibo env a cb st) = false /\
   new_events st st' = [] /\ new_progress st st' = []) /\
  (forall frame ok page,
     In (BusWrite frame ok) (new_events st st') ->
     written_page frame = Some page ->
     written_bytes frame = page_slice (get_raw_data a) page /\
     List.length (written_bytes frame) = 4%nat /\
     540 <= len (get_raw_data a)).
Proof.
  intros st'. split.
  - intros Hlt.
    destruct (write_amiibo_adds env a cb st)
      as (evs & out & pcs & Ha & _ & _ & _ & Hshort & _).
    destruct (Hshort Hlt) as (Hf & -> & ->).
    subst st'. rewrite (run_adds_new_events _ _ _ _ _ Ha).
    rewrite (run_adds_new_progress _ _ _ _ _ Ha). auto.
  - intros frame ok page Hin Hw.
    destruct (write_amiibo_frames a cb st frame ok Hin)
      as (Hl & [->|(p & Hp & -> & H4)]).
    + rewrite written_page_detect in Hw. discriminate.
    + rewrite written_page_frame in Hw. inversion Hw; subst p.
      rewrite written_bytes_frame. auto.
Qed.

(** C6, amended: the values handed to the progress callback during one
    [write_amiibo] are, in order, [int(i / 126 * 100)] for [i = 0, 1, ...]
    (the quotient of [100 * i] by [126], rounded down, not to the nearest),
    at most 126 of them, each between 0 and 99, and they never decrease. *)
Theorem progress_values_truncated_monotone (a : Amiibo) (cb : bool) (st : State) :
  let vs := new_progress st (snd (write_amiibo env a cb st)) in
  (List.length vs <= 126)%nat /\
  (forall i, (i < List.length vs)%nat ->
     progress_percent (4 + Z.of_nat i) = Some (nth i vs 0) /\
     nth i vs 0 = Z.of_nat i * 100 / 126 /\
     0 <= nth i vs 0 <= 99) /\
  (forall i j, (i <= j < List.length vs)%nat -> nth i vs 0 <= nth j vs 0).
Proof.
  intros vs.
  destruct (write_amiibo_adds env a cb st)
    as (evs & out & pcs & Ha & _ & _ & (k & Hk & Hpcs) & _).
  assert (Hvs : vs = pcs) by (apply (run_adds_new_progress _ _ _ _ _ Ha)).
  rewrite data_pages_range_length in Hk.
  rewrite percents_prefix in Hpcs by exact Hk.
  assert (Hlen : List.length vs = k).
  { rewrite Hvs, Hpcs, length_map, length_seq. reflexivity. }
  assert (Hnth : forall i, (i < k)%nat ->
                   nth i vs 0 = percent_floor (4 + Z.of_nat i)).
  { intros i Hi. rewrite Hvs, Hpcs, nth_map_seq by exact Hi.
    f_equal. lia. }
  rewrite Hlen. split; [exact Hk|]. split.
  - intros i Hi. rewrite (Hnth i Hi). split; [|split].
    + apply progress_percent_range. lia.
    + unfold percent_floor. f_equal. lia.
    + apply percent_floor_bounds. lia.
  - intros i j Hij. rewrite (Hnth i), (Hnth j) by lia.
    apply percent_floor_mono. lia.
Qed.

End Engine.


(** ** A failing page *)

Section Failing.
Variable env : Env.
Variable raw : list Z.

(** When the pages of [pre] are written with success and the write of [p]
    then fails, the loop stops there: it has reported the percentages of
    the pages of [pre] and its last line names [p]. *)
Lemma write_pages_fails_after :
  forall (pre : list Z) (p : Z) (post : list Z) (count : Z) (st : State),
    (forall q, In q pre -> 4 <= q < 130) ->
    (forall i, (i < List.length pre)%nat ->
       page_outcome env (List.length (i2c_log st) + 2 * i) (nth i pre 0) raw = true) ->
    page_outcome env (List.length (i2c_log st) + 2 * List.length pre) p raw = false ->
    exists evs out,
      fst (write_pages env raw true count (pre ++ p :: post) st) = Some false /\
      run_adds st (snd (write_pages env raw true count (pre ++ p :: post) st))
        evs (out ++ [MsgFailedToWritePage p]) (map percent_floor pre).
Proof.
  induction pre as [|q pre IH]; intros p post count st Hrange Hok Hfail.
  - cbn [app]. rewrite write_pages_cons.
    pose proof (write_page_outcome env p raw st) as Ho.
    cbn [List.length] in Hfail. rewrite Nat.mul_0_r, Nat.add_0_r in Hfail.
    rewrite Hfail in Ho.
    destruct (write_page_adds env p (page_data_of raw p) st) as (evs & out & Ha & _).
    destruct (write_page env p (page_data_of raw p) st) as [ok st1].
    cbn [fst snd] in Ho, Ha. subst ok.
    exists evs, out. split; [reflexivity|]. cbn [snd map].
    pose proof (run_adds_trans _ _ _ _ _ _ _ _ _ Ha
                  (print_adds (MsgFailedToWritePage p) st1)) as Hall.
    rewrite !app_nil_r in Hall. exact Hall.
  - cbn [app]. rewrite write_pages_cons.
    pose proof (write_page_outcome env q raw st) as Ho.
    pose proof (Hok 0%nat ltac:(cbn; lia)) as H0.
    rewrite Nat.mul_0_r, Nat.add_0_r in H0. cbn [nth] in H0. rewrite H0 in Ho.
    destruct (write_page_adds env q (page_data_of raw q) st)
      as (evs1 & out1 & Ha1 & _ & Hlen).
    destruct (write_page env q (page_data_of raw q) st) as [ok st1].
    cbn [fst snd] in Ho, Ha1, Hlen. subst ok.
    destruct (Hlen eq_refl) as (Hl2 & _).
    rewrite progress_percent_range by (apply Hrange; left; reflexivity).
    set (st2 := snd (call_progress (percent_floor q) st1)).
    assert (Ha2 : run_adds st st2 evs1 out1 [percent_floor q]).
    { pose proof (run_adds_trans _ _ _ _ _ _ _ _ _ Ha1
                    (call_progress_adds (percent_floor q) st1)) as H.
      rewrite !app_nil_r in H. exact H. }
    assert (Hclock : List.length (i2c_log st2) = (List.length (i2c_log st) + 2)%nat).
    { rewrite (run_adds_length _ _ _ _ _ Ha2), Hl2. reflexivity. }
    destruct (IH p post (count + 1) st2) as (evs2 & out2 & Hres & Ha3).
    + intros x Hx. apply Hrange. right. exact Hx.
    + intros i Hi. rewrite Hclock.
      replace (List.length (i2c_log st) + 2 + 2 * i)%nat
        with (List.length (i2c_log st) + 2 * S i)%nat by lia.
      apply (Hok (S i)). cbn [List.length]. lia.
    + rewrite Hclock.
      replace (List.length (i2c_log st) + 2 + 2 * List.length pre)%nat
        with (List.length (i2c_log st) + 2 * List.length (q :: pre))%nat
        by (cbn [List.length]; lia).
      exact Hfail.
    + exists (evs1 ++ evs2), (out1 ++ out2). split; [exact Hres|].
      pose proof (run_adds_trans _ _ _ _ _ _ _ _ _ Ha2 Ha3) as Hall.
      cbn [app map] in *. rewrite <- app_assoc. exact Hall.
Qed.

End Failing.

(** The range splits at page 50: 46 pages come before it. *)
Lemma range_split_50 :
  exists pre post,
    data_pages_range = pre ++ 50 :: post /\
    List.length pre = 46%nat /\
    (forall i, (i < 46)%nat -> nth i pre 0 = 4 + Z.of_nat i) /\
    (forall q, In q pre -> 4 <= q < 130) /\
    List.length (map percent_floor pre) = 46%nat /\
    last (map percent_floor pre) 0 = 35.
Proof.
  exists (map Z.of_nat (seq 4 46)), (map Z.of_nat (seq 51 79)).
  split; [reflexivity|]. split; [reflexivity|]. split.
  { intros i Hi. rewrite nth_map_seq by exact Hi. lia. }
  split.
  { intros q Hq. apply in_map_iff in Hq. destruct Hq as (n & <- & Hn).
    apply in_seq in Hn. lia. }
  split; reflexivity.
Qed.

Section Scenario.
Variable env : Env.

Lemma detect_tag_uid_nonempty (st : State) (u : list Z) :
  fst (detect_tag env st) = Some u -> u <> [].
Proof.
  rewrite detect_tag_fst. cbv zeta.
  destruct (i2c_write env (List.length (i2c_log st)) detect_frame); [|discriminate].
  destruct (i2c_read env (S (List.length (i2c_log st))) 64) as [[|b rest]|];
    try discriminate.
  destruct (ready_stripped (b :: rest)) as [|x r]; [discriminate|].
  destruct (forallb is_byte (firstn 20 (x :: r))); [|discriminate].
  intros H. apply scan_uid_some in H. destruct H as (o & _ & Ho).
  apply uid_at_some in Ho. destruct Ho as (_ & _ & _ & _ & Hlen).
  intros ->. cbn in Hlen. lia.
Qed.

(** C5, amended: when a tag is detected, the writes of pages 4 to 49
    succeed and the write of page 50 fails, [write_amiibo] returns [False],
    its last line names page 50, the progress callback has been called
    exactly 46 times, and the last value it received is
    [int(45 / 126 * 100) = 35]. *)
Theorem write_amiibo_fails_at_page_50 (a : Amiibo) (st : State) (u : list Z) :
  540 <= len (get_raw_data a) ->
  fst (detect_tag env st) = Some u ->
  (forall k, (k < 46)%nat ->
     page_outcome env (List.length (i2c_log st) + 2 + 2 * k)
       (4 + Z.of_nat k) (get_raw_data a) = true) ->
  page_outcome env (List.length (i2c_log st) + 94) 50 (get_raw_data a) = false ->
  fst (write_amiibo env a true st) = false /\
  List.length (new_progress st (snd (write_amiibo env a true st))) = 46%nat /\
  last (new_progress st (snd (write_amiibo env a true st))) 0 = 35 /\
  last (new_output st (snd (write_amiibo env a true st))) MsgStartingWrite
    = MsgFailedToWritePage 50.
Proof.
  intros Hlen Hdet Hok Hfail.
  destruct range_split_50 as (pre & post & Hsplit & Hpre & Hnth & Hrange & Hl & Hlast).
  destruct (write_amiibo env a true st) as [res st'] eqn:E. cbn [fst snd].
  unfold write_amiibo in E. rewrite Hsplit in E. clear Hsplit.
  set (raw := get_raw_data a) in *.
  unfold bind at 1 in E.
  pose proof (print_adds MsgStartingWrite st) as Hp.
  assert (Hc1 : List.length (i2c_log (snd (print MsgStartingWrite st)))
                = List.length (i2c_log st)) by reflexivity.
  destruct (print MsgStartingWrite st) as [[] st1]. cbn [snd] in Hp, Hc1.
  cbv zeta in E.
  destruct (len raw <? 540) eqn:El.
  { apply Z.ltb_lt in El. exfalso. exact (proj1 (Z.lt_nge _ _) El Hlen). }
  rewrite (detect_tag_clock env st st1 (eq_sym Hc1)) in Hdet.
  pose proof (detect_tag_uid_nonempty st1 u Hdet) as Hne.
  destruct (detect_tag_adds env st1) as (evs1 & out1 & Ha1 & _ & Hl1).
  unfold bind at 1 in E.
  destruct (detect_tag env st1) as [r s2]. cbn [fst snd] in Hdet, Ha1, Hl1.
  subst r. specialize (Hl1 u eq_refl).
  destruct u as [|x u]; [congruence|].
  assert (Hclock : List.length (i2c_log s2) = (List.length (i2c_log st) + 2)%nat).
  { rewrite (run_adds_length _ _ _ _ _ Ha1), Hl1, Hc1. reflexivity. }
  destruct (write_pages_fails_after env raw pre 50 post 0 s2 Hrange)
    as (evs2 & out2 & Hres & Ha2).
  { intros i Hi. rewrite Hclock, Hnth by lia. apply Hok. lia. }
  { rewrite Hclock, Hpre.
    replace (List.length (i2c_log st) + 2 + 2 * 46)%nat
      with (List.length (i2c_log st) + 94)%nat by lia.
    exact Hfail. }
  unfold bind at 1 in E.
  destruct (write_pages env raw true 0 (pre ++ 50 :: post) s2) as [r s3].
  cbn [fst snd] in Hres, Ha2. subst r. cbn [ret] in E.
  inversion E; subst res st'.
  pose proof (run_adds_trans _ _ _ _ _ _ _ _ _ Hp
                (run_adds_trans _ _ _ _ _ _ _ _ _ Ha1 Ha2)) as Hall.
  cbn [app] in Hall.
  rewrite (run_adds_new_progress _ _ _ _ _ Hall).
  rewrite (run_adds_new_output _ _ _ _ _ Hall).
  split; [reflexivity|]. split; [exact Hl|]. split; [exact Hlast|].
  change (MsgStartingWrite :: out1 ++ out2 ++ [MsgFailedToWritePage 50])
    with ((MsgStartingWrite :: out1) ++ out2 ++ [MsgFailedToWritePage 50]).
  rewrite !app_assoc. apply last_last.
Qed.

End Scenario.


(** ** Absent tag *)

Lemma nth_repeat_zero (n i : nat) : nth i (repeat 0 n) 0 = 0.
Proof.
  revert i. induction n as [|n IH]; intros [|i]; cbn [repeat nth]; auto.
Qed.

Lemma ready_stripped_zeros (n : nat) : ready_stripped (repeat 0 n) = repeat 0 n.
Proof. destruct n; reflexivity. Qed.

Lemma zeros_implausible (n : nat) : ~ plausible_target (repeat 0 n).
Proof.
  intros (o & _ & _ & H & _). rewrite nth_repeat_zero in H. lia.
Qed.

Lemma scenario_c_implausible : ~ plausible_target (ready_stripped scenario_c_response).
Proof.
  intros (o & _ & H5 & H1 & H4 & _). cbn [ready_stripped scenario_c_response] in *.
  change (1 =? 1) with true in *. cbv iota in *. cbn [List.length] in H5.
  destruct o as [|[|[|[|o]]]]; cbn [nth Nat.add] in *; lia.
Qed.

Lemma scenario_c_unstripped_implausible : ~ plausible_target scenario_c_response.
Proof.
  intros (o & _ & H5 & H1 & H4 & _). unfold scenario_c_response in *.
  cbn [List.length] in H5.
  destruct o as [|[|[|[|[|o]]]]]; cbn [nth Nat.add] in *; lia.
Qed.

Section Absent.
Variable env : Env.

Lemma detect_tag_implausible (st : State) :
  (forall raw, i2c_read env (S (List.length (i2c_log st))) 64 = Some raw ->
               ~ plausible_target (ready_stripped raw)) ->
  fst (detect_tag env st) = None.
Proof.
  intros H. rewrite detect_tag_fst. cbv zeta.
  destruct (i2c_write env (List.length (i2c_log st)) detect_frame); [|reflexivity].
  destruct (i2c_read env (S (List.length (i2c_log st))) 64) as [[|b rest]|] eqn:E;
    try reflexivity.
  specialize (H _ eq_refl).
  destruct (ready_stripped (b :: rest)) as [|x r]; [reflexivity|].
  destruct (forallb is_byte (firstn 20 (x :: r))); [|reflexivity].
  apply scan_uid_implausible. exact H.
Qed.

(** C7: [detect_tag] returns [None] whenever the response read from the bus
    holds no plausible target pattern in its first bytes; in particular
    when the response is made of zero bytes only, and when it is
    [01 00 00 FF 02 FE D5 4B 00 00] (be that the bytes read or the bytes
    left once the ready marker is removed). *)
Theorem detect_tag_none_without_target (st : State) :
  let answer := i2c_read env (S (List.length (i2c_log st))) 64 in
  ((forall raw, answer = Some raw -> ~ plausible_target (ready_stripped raw)) ->
   fst (detect_tag env st) = None) /\
  (forall n, answer = Some (repeat 0 n) -> fst (detect_tag env st) = None) /\
  (forall raw, answer = Some raw ->
     raw = scenario_c_response \/ ready_stripped raw = scenario_c_response ->
     fst (detect_tag env st) = None).
Proof.
  intros answer. split; [apply detect_tag_implausible|]. split.
  - intros n Hn. apply detect_tag_implausible. intros raw Hr.
    fold answer in Hr. rewrite Hn in Hr. inversion Hr; subst raw.
    rewrite ready_stripped_zeros. apply zeros_implausible.
  - intros raw Hraw Hc. apply detect_tag_implausible. intros raw' Hr.
    fold answer in Hr. rewrite Hraw in Hr. inversion Hr; subst raw'.
    destruct Hc as [->| ->].
    + apply scenario_c_implausible.
    + apply scenario_c_unstripped_implausible.
Qed.

End Absent.

(** ** The front object *)

Section Front.
Variable env : Env.

(** C8: with no current image, [write_to_tag] returns [False], prints
    that no amiibo is loaded, makes no bus transaction, calls no progress
    callback and leaves both [current_amiibo] attributes as they were. *)
Theorem write_to_tag_without_image (cb : bool) (st : State) :
  current_amiibo st = None ->
  fst (AmiiboWriter.write_to_tag env cb st) = false /\
  i2c_log (snd (AmiiboWriter.write_to_tag env cb st)) = i2c_log st /\
  progress_calls (snd (AmiiboWriter.write_to_tag env cb st)) = progress_calls st /\
  current_amiibo (snd (AmiiboWriter.write_to_tag env cb st)) = None /\
  nfc_current_amiibo (snd (AmiiboWriter.write_to_tag env cb st))
    = nfc_current_amiibo st /\
  stdout (snd (AmiiboWriter.write_to_tag env cb st))
    = stdout st ++ [MsgNoAmiiboLoaded].
Proof.
  intros H. unfold AmiiboWriter.write_to_tag. mstep. rewrite H. cbn.
  rewrite H. repeat split.
Qed.

Lemma print_all_keeps (out : list Msg) :
  forall st, i2c_log (snd (print_all out st)) = i2c_log st /\
             current_amiibo (snd (print_all out st)) = current_amiibo st.
Proof.
  induction out as [|m out IH]; intros st; [split; reflexivity|].
  cbn [print_all]. unfold bind. cbn [print].
  destruct (IH {| i2c_log := i2c_log st; stdout := stdout st ++ [m];
                  progress_calls := progress_calls st;
                  nfc_current_amiibo := nfc_current_amiibo st;
                  current_amiibo := current_amiibo st |}) as (H1 & H2).
  split; assumption.
Qed.

(** The dump loader makes no bus transaction and assigns the NFCWriter's
    attribute only. *)
Lemma nfc_load_amiibo_keeps (path : string) (st : State) :
  i2c_log (snd (NFCWriter.load_amiibo env path st)) = i2c_log st /\
  current_amiibo (snd (NFCWriter.load_amiibo env path st)) = current_amiibo st.
Proof.
  destruct (NFCWriter.load_amiibo env path st) as [res st'] eqn:E. cbn [snd].
  unfold NFCWriter.load_amiibo in E.
  destruct (read_file env path) as [content|];
    [|mstep; inversion E; split; reflexivity].
  destruct (startswith "Filetype: Flipper" content);
    [|mstep; inversion E; split; reflexivity].
  unfold bind at 1 in E. cbn [print] in E.
  match type of E with
  | context [_parse_flipper_format ?c ?n] =>
      destruct (_parse_flipper_format c n) as [out r]
  end.
  unfold bind at 1 in E.
  match type of E with
  | context [print_all out ?s] =>
      destruct (print_all_keeps out s) as (H1 & H2);
      destruct (print_all out s) as [[] s2]
  end.
  cbn [snd i2c_log current_amiibo] in H1, H2.
  destruct r; mstep; inversion E; split; assumption.
Qed.

(** A load that fails leaves the front object without image if it had none. *)
Lemma failed_load_keeps_no_image (path : string) (st : State) :
  current_amiibo st = None ->
  fst (AmiiboWriter.load_amiibo env path st) = false ->
  current_amiibo (snd (AmiiboWriter.load_amiibo env path st)) = None /\
  i2c_log (snd (AmiiboWriter.load_amiibo env path st)) = i2c_log st.
Proof.
  intros Hnone.
  destruct (AmiiboWriter.load_amiibo env path st) as [res st'] eqn:E.
  cbn [fst snd]. intros ->.
  unfold AmiiboWriter.load_amiibo in E. unfold bind at 1 in E.
  destruct (nfc_load_amiibo_keeps path st) as (H1 & H2).
  destruct (NFCWriter.load_amiibo env path st) as [ok s1]. cbn [snd] in H1, H2.
  destruct ok; [|cbn [ret] in E; inversion E; subst; split; congruence].
  mstep. destruct (nfc_current_amiibo s1); inversion E.
  split; [reflexivity|assumption].
Qed.

(** A freshly built front object has no image. *)
Lemma init_no_image (st : State) :
  fst (AmiiboWriter.__init__ env st) = true ->
  current_amiibo (snd (AmiiboWriter.__init__ env st)) = None.
Proof.
  destruct (AmiiboWriter.__init__ env st) as [res st'] eqn:E.
  cbn [fst snd]. intros ->.
  unfold AmiiboWriter.__init__ in E. unfold bind at 1 in E.
  destruct (NFCWriter.__init__ env st) as [ok s1].
  destruct ok; mstep; inversion E. reflexivity.
Qed.

End Front.


(** ** The dump parser *)





(** *** Placing one page *)

Lemma slice_assign_inside (raw : list Z) (off : Z) (d : list Z) :
  0 <= off -> off + len d <= len raw ->
  slice_assign raw off (off + len d) d =
  firstn (Z.to_nat off) raw ++ d ++ skipn (Z.to_nat off + List.length d) raw.
Proof.
  intros H0 Hfit. unfold slice_assign, adjust_index, len in *.
  destruct (off <? 0) eqn:E1; [apply Z.ltb_lt in E1; lia|].
  destruct (off + Z.of_nat (List.length d) <? 0) eqn:E2; [apply Z.ltb_lt in E2; lia|].
  rewrite (Z.min_l off) by lia.
  rewrite (Z.min_l (off + Z.of_nat (List.length d))) by lia.
  rewrite Z.max_r by lia.
  rewrite Z2Nat.inj_add, Nat2Z.id by lia. reflexivity.
Qed.

Lemma place_page_inside (raw : list Z) (N : Z) (d : list Z) :
  0 <= N -> N * 4 + len d <= len raw ->
  place_page raw (N, d) =
  firstn (Z.to_nat (N * 4)) raw ++ d
    ++ skipn (Z.to_nat (N * 4) + List.length d) raw.
Proof.
  intros H0 Hfit. unfold place_page.
  destruct (N * 4 + len d <=? len raw) eqn:E; [|apply Z.leb_gt in E; lia].
  apply slice_assign_inside; lia.
Qed.

Lemma place_page_outside (raw : list Z) (N : Z) (d : list Z) :
  len raw < N * 4 + len d -> place_page raw (N, d) = raw.
Proof.
  intros H. unfold place_page.
  destruct (N * 4 + len d <=? len raw) eqn:E; [apply Z.leb_le in E; lia|reflexivity].
Qed.

Lemma place_page_length (raw : list Z) (N : Z) (d : list Z) :
  0 <= N -> List.length (place_page raw (N, d)) = List.length raw.
Proof.
  intros H0. destruct (Z_le_gt_dec (N * 4 + len d) (len raw)) as [Hfit|Hout].
  - rewrite place_page_inside by assumption.
    rewrite !length_app, length_firstn, length_skipn. unfold len in Hfit. lia.
  - rewrite place_page_outside by lia. reflexivity.
Qed.


(** *** The reconstruction loop *)

(** With page numbers from 0 on, the image keeps its 540 bytes. *)
Lemma reconstruct_length (dp : PageDict) :
  (forall N d, In (N, d) dp -> 0 <= N) ->
  List.length (reconstruct dp) = 540%nat.
Proof.
  unfold reconstruct. generalize (repeat_length 0 540).
  generalize (repeat 0 540%nat) as raw.
  induction dp as [|[N d] dp IH]; intros raw Hlen Hwf; cbn [fold_left].
  - exact Hlen.
  - apply IH.
    + rewrite place_page_length by (apply (Hwf N d); left; reflexivity). exact Hlen.
    + intros M e Hin. apply (Hwf M e). right. exact Hin.
Qed.


(** *** Lines and the page map *)




(** *** The dump format: strings *)









(** Stripping. *)








(** Removing the spaces. *)


(** Hexadecimal text. *)










(** Decimal numbers. *)





(** Splitting. *)











(** *** The lines of a dump *)











(** C10, at the input [negative_page_text]: the line [Page -1: 01 02 03 04]
    passes the bound test and the slice assignment [raw_data[-4:0] = ...]
    inserts its four bytes, so that the image has 544 bytes. *)
Theorem negative_page_grows_image :
  option_map (fun a => option_map len (raw_data a))
    (snd (_parse_flipper_format negative_page_text "Mario Kart"))
  = Some (Some 544).
Proof. vm_compute. reflexivity. Qed.


(** ** Instances *)

Lemma below_by_forallb (P : nat -> bool) (n : nat) :
  forallb P (seq 0 n) = true -> forall k, (k < n)%nat -> P k = true.
Proof.
  intros H k Hk. rewrite forallb_forall in H. apply H. apply in_seq. lia.
Qed.

(** C3 on the sample bus: the write of page 4 is among the frames sent, and
    page 4 lies in the range. *)
Lemma write_amiibo_targets_data_pages_witness :
  In (BusWrite (page_frame 4 [0; 0; 0; 0]) true)
     (new_events st0 (snd (write_amiibo env_ok (blank_amiibo 540) true st0))) /\
  written_page (page_frame 4 [0; 0; 0; 0]) = Some 4 /\
  4 <= 4 < 130.
Proof.
  assert (Hin : In (BusWrite (page_frame 4 [0; 0; 0; 0]) true)
                  (new_events st0
                     (snd (write_amiibo env_ok (blank_amiibo 540) true st0)))).
  { apply (nth_error_In _ 2). vm_compute. reflexivity. }
  assert (Hw : written_page (page_frame 4 [0; 0; 0; 0]) = Some 4)
    by (vm_compute; reflexivity).
  split; [exact Hin|]. split; [exact Hw|].
  exact (write_amiibo_targets_data_pages env_ok (blank_amiibo 540) true st0
           (page_frame 4 [0; 0; 0; 0]) true 4 Hin Hw).
Defined.

(** C4 as the specification words it fails: an image of 519 bytes, one byte
    short of what pages 4 to 129 need, makes [write_amiibo] return [False]
    and nothing is written, not even padded. *)
Lemma short_image_is_refused :
  len (get_raw_data (blank_amiibo 519)) = 519 /\
  519 < 4 * 130 /\
  fst (write_amiibo env_ok (blank_amiibo 519) true st0) = false /\
  i2c_log (snd (write_amiibo env_ok (blank_amiibo 519) true st0)) = [] /\
  stdout (snd (write_amiibo env_ok (blank_amiibo 519) true st0))
  = [MsgStartingWrite; MsgInvalidSize 519].
Proof. vm_compute. repeat split. Qed.

(** C4, amended, on the sample bus with an image of 519 bytes. *)
Lemma write_amiibo_rejects_short_image_witness :
  len (get_raw_data (blank_amiibo 519)) < 540 /\
  fst (write_amiibo env_ok (blank_amiibo 519) true st0) = false /\
  new_events st0 (snd (write_amiibo env_ok (blank_amiibo 519) true st0)) = [] /\
  new_progress st0 (snd (write_amiibo env_ok (blank_amiibo 519) true st0)) = [].
Proof.
  assert (H : len (get_raw_data (blank_amiibo 519)) < 540) by reflexivity.
  split; [exact H|].
  exact (proj1 (write_amiibo_rejects_short_image env_ok (blank_amiibo 519) true st0) H).
Defined.

(** C5 as the specification words it fails: on a bus where page 50 is the
    first page whose answer lacks the marker, the last value handed to the
    callback is 35, whereas [round(46 / 126 * 100)] is 37. *)
Lemma scenario_d_last_progress :
  fst (write_amiibo (env_fail_at 95) (blank_amiibo 540) true st0) = false /\
  List.length
    (progress_calls (snd (write_amiibo (env_fail_at 95) (blank_amiibo 540) true st0)))
  = 46%nat /\
  last (progress_calls (snd (write_amiibo (env_fail_at 95) (blank_amiibo 540) true st0))) 0
  = 35 /\
  spec_progress 50 4 130 = Some 37 /\
  last (stdout (snd (write_amiibo (env_fail_at 95) (blank_amiibo 540) true st0)))
       MsgStartingWrite
  = MsgFailedToWritePage 50.
Proof. vm_compute. repeat split. Qed.

(** C5, amended, on that bus. *)
Lemma write_amiibo_fails_at_page_50_witness :
  fst (write_amiibo (env_fail_at 95) (blank_amiibo 540) true st0) = false /\
  List.length
    (new_progress st0 (snd (write_amiibo (env_fail_at 95) (blank_amiibo 540) true st0)))
  = 46%nat /\
  last (new_progress st0 (snd (write_amiibo (env_fail_at 95) (blank_amiibo 540) true st0))) 0
  = 35 /\
  last (new_output st0 (snd (write_amiibo (env_fail_at 95) (blank_amiibo 540) true st0)))
       MsgStartingWrite
  = MsgFailedToWritePage 50.
Proof.
  apply (write_amiibo_fails_at_page_50 (env_fail_at 95) (blank_amiibo 540) st0
           [4; 170; 187; 204; 221; 238; 255]).
  - vm_compute. discriminate.
  - vm_compute. reflexivity.
  - apply (below_by_forallb
             (fun k => page_outcome (env_fail_at 95)
                         (List.length (i2c_log st0) + 2 + 2 * k)
                         (4 + Z.of_nat k) (get_raw_data (blank_amiibo 540)))).
    vm_compute. reflexivity.
  - vm_compute. reflexivity.
Defined.

(** C6 as the specification words it fails: when every page is written, the
    second value handed to the callback, the one of page 5, is 0, whereas
    [round((5 - 4) / (130 - 4) * 100)] is 1. *)
Lemma second_progress_value_truncated :
  nth 1 (progress_calls (snd (write_amiibo env_ok (blank_amiibo 540) true st0))) 0 = 0 /\
  progress_percent 5 = Some 0 /\
  spec_progress 5 4 130 = Some 1.
Proof. vm_compute. repeat split. Qed.

(** C6, amended, on the sample bus: all 126 values are delivered, the last
    one being 99. *)
Lemma progress_values_truncated_monotone_witness :
  List.length (new_progress st0 (snd (write_amiibo env_ok (blank_amiibo 540) true st0)))
  = 126%nat /\
  nth 125 (new_progress st0 (snd (write_amiibo env_ok (blank_amiibo 540) true st0))) 0
  = 125 * 100 / 126 /\
  nth 0 (new_progress st0 (snd (write_amiibo env_ok (blank_amiibo 540) true st0))) 0
  <= nth 125 (new_progress st0 (snd (write_amiibo env_ok (blank_amiibo 540) true st0))) 0.
Proof.
  assert (Hl : List.length
                 (new_progress st0 (snd (write_amiibo env_ok (blank_amiibo 540) true st0)))
               = 126%nat) by (vm_compute; reflexivity).
  destruct (progress_values_truncated_monotone env_ok (blank_amiibo 540) true st0)
    as (_ & Hv & Hm).
  split; [exact Hl|]. split.
  - apply (Hv 125%nat). rewrite Hl. repeat constructor.
  - apply (Hm 0%nat 125%nat). rewrite Hl. split; repeat constructor.
Defined.

(** C7 on a bus that answers every read with 64 zero bytes. *)
Lemma detect_tag_none_without_target_witness :
  i2c_read (env_answering (repeat 0 64)) (S (List.length (i2c_log st0))) 64
  = Some (repeat 0 64) /\
  fst (detect_tag (env_answering (repeat 0 64)) st0) = None.
Proof.
  assert (H : i2c_read (env_answering (repeat 0 64)) (S (List.length (i2c_log st0))) 64
              = Some (repeat 0 64)) by reflexivity.
  split; [exact H|].
  exact (proj1 (proj2 (detect_tag_none_without_target
                         (env_answering (repeat 0 64)) st0)) 64%nat H).
Defined.

(** C8 on the sample bus, in the state where nothing was loaded. *)
Lemma write_to_tag_without_image_witness :
  current_amiibo st0 = None /\
  fst (AmiiboWriter.write_to_tag env_ok true st0) = false /\
  i2c_log (snd (AmiiboWriter.write_to_tag env_ok true st0)) = i2c_log st0.
Proof.
  assert (H : current_amiibo st0 = None) by reflexivity.
  pose proof (write_to_tag_without_image env_ok true st0 H) as (H1 & H2 & _).
  split; [exact H|]. split; [exact H1|exact H2].
Defined.



(** * Further properties *)

(** ** Frames and the bus *)

Lemma is_byte_mod (x : Z) : is_byte (x mod 256) = true.
Proof.
  unfold is_byte. pose proof (Z.mod_pos_bound x 256 ltac:(lia)) as H.
  apply andb_true_intro. split; [apply Z.leb_le|apply Z.ltb_lt]; lia.
Qed.

Lemma build_command_length (cmd : Z) (data : list Z) :
  List.length (_build_command cmd data) = (List.length data + 9)%nat.
Proof.
  rewrite build_command_shape, !length_app. cbn [List.length]. lia.
Qed.

(** X1: a frame built from an octet command and octet data is made of
    octets exactly when the data has at most 254 bytes (with 255 bytes and
    more its length field exceeds 255); it has nine bytes more than the
    data. *)
Theorem build_command_octets (cmd : Z) (data : list Z) :
  is_byte cmd = true ->
  forallb is_byte data = true ->
  (forallb is_byte (_build_command cmd data) = true
   <-> (List.length data <= 254)%nat) /\
  List.length (_build_command cmd data) = (List.length data + 9)%nat.
Proof.
  intros Hc Hd. split; [|apply build_command_length].
  rewrite build_command_shape.
  change ([0; 0; 255; len data + 1; (- (len data + 1)) mod 256; 212; cmd]
            ++ data ++ [(- (212 + cmd + sum data)) mod 256; 0])
    with ([0; 0; 255] ++ (len data + 1)
            :: ([(- (len data + 1)) mod 256; 212; cmd]
                  ++ data ++ [(- (212 + cmd + sum data)) mod 256; 0])).
  rewrite forallb_app. cbn [forallb].
  rewrite forallb_app, forallb_app. cbn [forallb].
  rewrite !is_byte_mod, Hc, Hd.
  change (is_byte 0) with true. change (is_byte 255) with true.
  change (is_byte 212) with true. cbn [andb].
  rewrite andb_true_r. unfold is_byte, len.
  rewrite andb_true_iff, Z.leb_le, Z.ltb_lt. lia.
Qed.

Lemma build_command_octets_witness :
  is_byte 0x4A = true /\ forallb is_byte [0x01; 0x00] = true /\
  forallb is_byte (_build_command 0x4A [0x01; 0x00]) = true /\
  List.length (_build_command 0x4A [0x01; 0x00]) = 11%nat.
Proof.
  assert (Hc : is_byte 0x4A = true) by reflexivity.
  assert (Hd : forallb is_byte [0x01; 0x00] = true) by reflexivity.
  destruct (build_command_octets 0x4A [0x01; 0x00] Hc Hd) as (Hiff & Hl).
  split; [exact Hc|]. split; [exact Hd|]. split; [|exact Hl].
  apply Hiff. cbn. lia.
Defined.

Section Sending.
Variable env : Env.

(** X2: a frame built for 255 bytes of data or more never reaches the bus:
    [_send_command] returns [False] and makes no transaction, whatever the
    bus would have answered. *)
Theorem oversized_frame_not_sent (cmd : Z) (data : list Z) (st : State) :
  (255 <= List.length data)%nat ->
  fst (_send_command env (_build_command cmd data) st) = false /\
  i2c_log (snd (_send_command env (_build_command cmd data) st)) = i2c_log st /\
  stdout (snd (_send_command env (_build_command cmd data) st))
  = stdout st ++ [MsgErrorSending].
Proof.
  intros Hlen. unfold _send_command.
  assert (H : forallb is_byte (_build_command cmd data) = false).
  { rewrite build_command_shape.
    change ([0; 0; 255; len data + 1; (- (len data + 1)) mod 256; 212; cmd]
              ++ data ++ [(- (212 + cmd + sum data)) mod 256; 0])
      with ([0; 0; 255] ++ (len data + 1)
              :: ([(- (len data + 1)) mod 256; 212; cmd]
                    ++ data ++ [(- (212 + cmd + sum data)) mod 256; 0])).
    rewrite forallb_app. cbn [forallb].
    replace (is_byte (len data + 1)) with false; [reflexivity|].
    symmetry. unfold is_byte, len. apply andb_false_intro2.
    apply Z.ltb_ge. lia. }
  rewrite H. mstep. repeat split.
Qed.

End Sending.

Lemma oversized_frame_not_sent_witness :
  (255 <= List.length (repeat 0 255))%nat /\
  fst (_send_command env_ok (_build_command 0x40 (repeat 0 255)) st0) = false /\
  i2c_log (snd (_send_command env_ok (_build_command 0x40 (repeat 0 255)) st0)) = [].
Proof.
  assert (H : (255 <= List.length (repeat 0 255))%nat)
    by (rewrite repeat_length; apply Nat.le_refl).
  destruct (oversized_frame_not_sent env_ok 0x40 (repeat 0 255) st0 H) as (H1 & H2 & _).
  split; [exact H|]. split; [exact H1|exact H2].
Defined.

Lemma mod_opp_cancel (x : Z) : (x + (- x) mod 256) mod 256 = 0.
Proof.
  rewrite Zplus_mod_idemp_r. replace (x + - x) with 0 by lia. reflexivity.
Qed.

(** X3: in every frame built the length and its checksum add up to 0
    modulo 256, and so do the bytes from the direction byte to the data
    checksum: the two tests a receiver of the frame makes succeed. *)
Theorem build_command_checksums_cancel (cmd : Z) (data : list Z) :
  (frame_length (_build_command cmd data)
   + frame_lcs (_build_command cmd data)) mod 256 = 0 /\
  (sum (frame_covered (_build_command cmd data))
   + frame_dcs (_build_command cmd data)) mod 256 = 0.
Proof.
  unfold frame_covered. rewrite frame_data_build, frame_dcs_build.
  rewrite !sum_cons.
  unfold frame_length, frame_lcs, frame_direction, frame_command.
  rewrite build_command_shape. cbn [app nth].
  split.
  - apply mod_opp_cancel.
  - replace (212 + (cmd + sum data)) with (212 + cmd + sum data) by lia.
    apply mod_opp_cancel.
Qed.

Section Firmware.
Variable env : Env.

(** X4: the length field of a frame built by [_build_command] is one less
    than the number of bytes its data checksum covers (it counts the
    command and the data, not the direction byte), whereas the frame that
    [get_firmware_version] writes, the first transaction it makes, has a
    length field equal to that number. *)
Theorem length_field_of_frames (cmd : Z) (data : list Z) (st : State) :
  frame_length (_build_command cmd data) + 1
  = len (frame_covered (_build_command cmd data)) /\
  frame_length firmware_frame = len (frame_covered firmware_frame) /\
  exists ok, nth_error (new_events st (snd (get_firmware_version env st))) 0
             = Some (BusWrite firmware_frame ok).
Proof.
  split; [|split].
  - unfold frame_covered. rewrite frame_data_build.
    unfold frame_length. rewrite build_command_shape. cbn [app nth].
    unfold len. cbn [List.length]. lia.
  - reflexivity.
  - unfold get_firmware_version. fold firmware_frame.
    exists (i2c_write env (List.length (i2c_log st)) firmware_frame).
    unfold new_events. mstep.
    destruct (i2c_write env (List.length (i2c_log st)) firmware_frame);
      cbn [negb]; mstep.
    + destruct (i2c_read env _ 20) as [response|]; mstep.
      * match goal with
        | |- context [if ?c then _ else _] => destruct c
        end; [|match goal with
               | |- context [if ?c then _ else _] => destruct c
               end]; cbn [snd i2c_log];
        rewrite <- app_assoc, skipn_app, Nat.sub_diag, skipn_all; reflexivity.
      * rewrite <- app_assoc, skipn_app, Nat.sub_diag, skipn_all. reflexivity.
    + rewrite skipn_app, Nat.sub_diag, skipn_all. reflexivity.
Qed.

End Firmware.

(** ** Detection *)

Lemma uid_at_slice (response : list Z) (offset : nat) (u : list Z) :
  uid_at response offset = Some u ->
  forallb is_byte u = true /\
  len u = nth (offset + 5) response 0 /\
  u = slice response (offset + 6) (offset + 6 + List.length u).
Proof.
  unfold uid_at. intros H.
  destruct ((0 <? nth offset response 0) && (nth offset response 0 <? 5));
    [|discriminate].
  destruct (offset + 5 <? List.length response)%nat; [|discriminate].
  destruct ((4 <=? nth (offset + 5) response 0)
            && (nth (offset + 5) response 0 <=? 10)) eqn:E3; [|discriminate].
  replace (offset + 5 + 1)%nat with (offset + 6)%nat in H by lia.
  set (s := slice response (offset + 6)
              (offset + 6 + Z.to_nat (nth (offset + 5) response 0%Z))) in *.
  destruct (forallb is_byte s) eqn:Eb; [|discriminate].
  destruct (len s =? nth (offset + 5) response 0) eqn:E4; [|discriminate].
  inversion H; subst u. apply Z.eqb_eq in E4.
  split; [exact Eb|]. split; [exact E4|].
  unfold s at 1. f_equal. f_equal. unfold len in E4. rewrite <- E4.
  rewrite Nat2Z.id. reflexivity.
Qed.

Section Detection.
Variable env : Env.

(** X5: a UID that [detect_tag] returns has 4 to 10 bytes, all octets, and
    is read from the response: the detection frame was accepted, and at
    some offset below 10 of the response (ready marker removed) stands a
    byte in 1..4, five bytes further the length of the UID, and after it
    the UID itself. *)
Theorem detect_tag_uid_sound (st : State) (u : list Z) :
  fst (detect_tag env st) = Some u ->
  4 <= len u <= 10 /\
  forallb is_byte u = true /\
  i2c_write env (List.length (i2c_log st)) detect_frame = true /\
  exists raw offset,
    i2c_read env (S (List.length (i2c_log st))) 64 = Some raw /\
    (offset < 10)%nat /\
    1 <= nth offset (ready_stripped raw) 0 <= 4 /\
    nth (offset + 5) (ready_stripped raw) 0 = len u /\
    u = slice (ready_stripped raw) (offset + 6) (offset + 6 + List.length u).
Proof.
  rewrite detect_tag_fst. cbv zeta.
  destruct (i2c_write env (List.length (i2c_log st)) detect_frame); [|discriminate].
  destruct (i2c_read env (S (List.length (i2c_log st))) 64) as [[|b rest]|];
    try discriminate.
  destruct (ready_stripped (b :: rest)) as [|x r] eqn:Er; [discriminate|].
  destruct (forallb is_byte (firstn 20 (x :: r))); [|discriminate].
  intros H. apply scan_uid_some in H. destruct H as (o & Hin & Ho).
  apply in_seq in Hin.
  pose proof (uid_at_some _ _ _ Ho) as (_ & H1 & _ & _ & Hlen).
  pose proof (uid_at_slice _ _ _ Ho) as (Hb & Hl & Hs).
  split; [exact Hlen|]. split; [exact Hb|]. split; [reflexivity|].
  exists (b :: rest), o. rewrite Er.
  split; [reflexivity|]. split; [lia|]. split; [exact H1|].
  split; [symmetry; exact Hl|exact Hs].
Qed.

(** X6: when the bus accepts the detection frame and answers with the
    frame by which the controller announces one target, [detect_tag]
    returns the identifier of that target. *)
Theorem detect_tag_reads_target_answer (st : State) (s1 s2 sel : Z)
    (nfcid tail : list Z) :
  i2c_write env (List.length (i2c_log st)) detect_frame = true ->
  i2c_read env (S (List.length (i2c_log st))) 64
  = Some (target_answer s1 s2 sel nfcid tail) ->
  4 <= len nfcid <= 10 ->
  forallb is_byte (s1 :: s2 :: sel :: nfcid ++ tail) = true ->
  fst (detect_tag env st) = Some nfcid.
Proof.
  intros Hw Hr Hlen Hb. rewrite detect_tag_fst. cbv zeta. rewrite Hw, Hr.
  unfold target_answer. cbn [app ready_stripped].
  change (1 =? 1) with true. cbv iota.
  set (L := len nfcid) in *.
  assert (Hlcs : (- (8 + L)) mod 256 = 248 - L).
  { symmetry. apply (Z.mod_unique _ _ (-1)); lia. }
  rewrite Hlcs.
  set (r := 0 :: 0 :: 255 :: 8 + L :: 248 - L :: 213 :: 75 :: 1 :: 1 :: s1 :: s2
              :: sel :: L :: nfcid ++ tail).
  cbn [forallb] in Hb. apply andb_prop in Hb. destruct Hb as (Hs1 & Hb).
  apply andb_prop in Hb. destruct Hb as (Hs2 & Hb).
  apply andb_prop in Hb. destruct Hb as (Hsel & Hb).
  rewrite forallb_app in Hb. apply andb_prop in Hb. destruct Hb as (Hid & Htail).
  assert (HbL : is_byte L = true).
  { unfold is_byte. apply andb_true_intro.
    split; [apply Z.leb_le|apply Z.ltb_lt]; lia. }
  assert (Hb8 : is_byte (8 + L) = true).
  { unfold is_byte. apply andb_true_intro.
    split; [apply Z.leb_le|apply Z.ltb_lt]; lia. }
  assert (Hb248 : is_byte (248 - L) = true).
  { unfold is_byte. apply andb_true_intro.
    split; [apply Z.leb_le|apply Z.ltb_lt]; lia. }
  assert (Hall : forallb is_byte r = true).
  { unfold r. cbn [forallb]. rewrite Hb8, Hb248, Hs1, Hs2, Hsel, HbL.
    rewrite forallb_app, Hid, Htail. reflexivity. }
  assert (H20 : forallb is_byte (firstn 20 r) = true).
  { rewrite forallb_forall in Hall. apply forallb_forall.
    intros x Hx. apply Hall. exact (in_firstn _ _ _ Hx). }
  rewrite H20.
  assert (Hr13 : List.length r = (13 + List.length (nfcid ++ tail))%nat)
    by reflexivity.
  rewrite Nat.min_l by lia.
  assert (Hno : forall b, (0 <? b) && (b <? 5) = false ->
                 forall o, nth o r 0 = b -> uid_at r o = None).
  { intros b Hbb o Ho. unfold uid_at. rewrite Ho, Hbb. reflexivity. }
  assert (H0 : uid_at r 0 = None) by (apply (Hno 0); reflexivity).
  assert (H1 : uid_at r 1 = None) by (apply (Hno 0); reflexivity).
  assert (H2 : uid_at r 2 = None) by (apply (Hno 255); reflexivity).
  assert (H3 : uid_at r 3 = None).
  { apply (Hno (8 + L)); [|reflexivity].
    apply andb_false_intro2. apply Z.ltb_ge. lia. }
  assert (H4 : uid_at r 4 = None).
  { apply (Hno (248 - L)); [|reflexivity].
    apply andb_false_intro2. apply Z.ltb_ge. lia. }
  assert (H5 : uid_at r 5 = None) by (apply (Hno 213); reflexivity).
  assert (H6 : uid_at r 6 = None) by (apply (Hno 75); reflexivity).
  assert (H7 : uid_at r 7 = Some nfcid).
  { unfold uid_at. change (nth 7 r 0) with 1.
    change ((0 <? 1) && (1 <? 5)) with true. cbv iota.
    change (7 + 5)%nat with 12%nat. cbv zeta. change (12 + 1)%nat with 13%nat.
    replace (12 <? List.length r)%nat with true
      by (symmetry; apply Nat.ltb_lt; lia).
    change (nth 12 r 0) with L.
    replace ((4 <=? L) && (L <=? 10)) with true
      by (symmetry; apply andb_true_intro;
          split; apply Z.leb_le; lia).
    assert (Hsl : slice r 13 (13 + Z.to_nat L) = nfcid).
    { unfold slice. replace (13 + Z.to_nat L - 13)%nat with (List.length nfcid)
        by (unfold L, len; lia).
      change (skipn 13 r) with (nfcid ++ tail).
      rewrite firstn_app, Nat.sub_diag, firstn_all. cbn [firstn].
      apply app_nil_r. }
    rewrite Hsl, Hid. fold L. rewrite Z.eqb_refl. reflexivity. }
  cbn [seq scan_uid]. rewrite H0, H1, H2, H3, H4, H5, H6, H7. reflexivity.
Qed.

End Detection.

Lemma detect_tag_uid_sound_witness :
  fst (detect_tag env_ok st0) = Some [0x04; 0xAA; 0xBB; 0xCC; 0xDD; 0xEE; 0xFF] /\
  4 <= len [0x04; 0xAA; 0xBB; 0xCC; 0xDD; 0xEE; 0xFF] <= 10.
Proof.
  assert (H : fst (detect_tag env_ok st0)
              = Some [0x04; 0xAA; 0xBB; 0xCC; 0xDD; 0xEE; 0xFF])
    by (vm_compute; reflexivity).
  split; [exact H|].
  exact (proj1 (detect_tag_uid_sound env_ok st0 _ H)).
Defined.

Lemma detect_tag_reads_target_answer_witness :
  tag_response
  = target_answer 0x00 0x44 0x00 [0x04; 0xAA; 0xBB; 0xCC; 0xDD; 0xEE; 0xFF]
      [0x94; 0x00] /\
  fst (detect_tag env_ok st0) = Some [0x04; 0xAA; 0xBB; 0xCC; 0xDD; 0xEE; 0xFF].
Proof.
  split; [reflexivity|].
  apply (detect_tag_reads_target_answer env_ok st0 0x00 0x44 0x00
           [0x04; 0xAA; 0xBB; 0xCC; 0xDD; 0xEE; 0xFF] [0x94; 0x00]).
  - reflexivity.
  - reflexivity.
  - vm_compute. split; discriminate.
  - reflexivity.
Defined.

(** ** Single page writes *)

Lemma new_events_app (st st' : State) (evs : list BusEvent) :
  i2c_log st' = i2c_log st ++ evs -> new_events st st' = evs.
Proof.
  intros H. unfold new_events. rewrite H.
  rewrite skipn_app, Nat.sub_diag, skipn_all. reflexivity.
Qed.

Section PageWrites.
Variable env : Env.

(** The transactions of [_send_command], from the number of the first. *)
Lemma send_command_events (cmd : list Z) (st : State) :
  i2c_log (snd (_send_command env cmd st)) =
  i2c_log st ++
    (if forallb is_byte cmd
     then [BusWrite cmd (i2c_write env (List.length (i2c_log st)) cmd)]
     else []).
Proof.
  unfold _send_command. destruct (forallb is_byte cmd); mstep.
  - destruct (i2c_write env (List.length (i2c_log st)) cmd); reflexivity.
  - rewrite app_nil_r. reflexivity.
Qed.

Lemma read_response_events (n : nat) (st : State) :
  i2c_log (snd (_read_response env n st)) =
  i2c_log st ++ [BusRead n (i2c_read env (List.length (i2c_log st)) n)].
Proof.
  destruct (read_response_adds env n st) as (out & (H & _) & _). exact H.
Qed.

(** The transactions of [write_page], from the number of the first. *)
Lemma write_page_events (page : Z) (data : list Z) (st : State) :
  let n := List.length (i2c_log st) in
  let frame := page_frame page data in
  new_events st (snd (write_page env page data st)) =
    (if (List.length data =? 4)%nat && forallb is_byte frame
     then if i2c_write env n frame
          then [BusWrite frame true; BusRead 64 (i2c_read env (S n) 64)]
          else [BusWrite frame false]
     else []).
Proof.
  intros n frame.
  apply new_events_app.
  destruct (write_page env page data st) as [res st'] eqn:E. cbn [snd].
  unfold write_page in E. fold (page_frame page data) in E. fold frame in E.
  destruct (List.length data =? 4)%nat; cbn [negb andb] in *.
  2:{ mstep. inversion E. cbn [i2c_log]. rewrite app_nil_r. reflexivity. }
  unfold bind at 1 in E.
  pose proof (send_command_events frame st) as Hs.
  pose proof (send_command_fst env frame st) as Hf.
  destruct (_send_command env frame st) as [b s1]. cbn [fst snd] in Hs, Hf.
  fold n in Hs, Hf.
  destruct (forallb is_byte frame); cbn [andb] in Hf.
  2:{ subst b. cbn [negb ret] in E. inversion E; subst. exact Hs. }
  destruct (i2c_write env n frame); subst b; cbn [negb] in E.
  2:{ cbn [ret] in E. inversion E; subst. exact Hs. }
  unfold bind at 1 in E.
  pose proof (read_response_events 64 s1) as Hr.
  destruct (_read_response env 64 s1) as [r s2]. cbn [snd] in Hr.
  assert (Hst : st' = s2).
  { destruct r as [r|]; [|inversion E; reflexivity].
    destruct ((8 <? len r) && (nth 6 r 0 =? 213) && (nth 7 r 0 =? 65)
              && (nth 8 r 0 =? 0)); inversion E; reflexivity. }
  subst st'. rewrite Hr, Hs, <- app_assoc. cbn [app].
  rewrite length_app. cbn [List.length]. fold n.
  replace (n + 1)%nat with (S n) by lia. reflexivity.
Qed.

(** X8: the bus transactions of one [write_page].  With four bytes of
    data and a frame made of octets it writes the frame; when the bus
    accepts it, and only then, it reads 64 bytes; otherwise it makes no
    transaction at all.  It returns [True] only after both transactions,
    when the answer, ready marker removed, holds [D5 41 00] at offsets 6
    to 8. *)
Theorem write_page_exchange (page : Z) (data : list Z) (st : State) :
  let n := List.length (i2c_log st) in
  let frame := page_frame page data in
  new_events st (snd (write_page env page data st)) =
    (if (List.length data =? 4)%nat && forallb is_byte frame
     then if i2c_write env n frame
          then [BusWrite frame true; BusRead 64 (i2c_read env (S n) 64)]
          else [BusWrite frame false]
     else []) /\
  (fst (write_page env page data st) = true ->
   exists raw,
     new_events st (snd (write_page env page data st))
     = [BusWrite frame true; BusRead 64 (Some raw)] /\
     nth 6 (ready_stripped raw) 0 = 0xD5 /\
     nth 7 (ready_stripped raw) 0 = 0x41 /\
     nth 8 (ready_stripped raw) 0 = 0x00).
Proof.
  intros n frame.
  pose proof (write_page_events page data st) as Hev. cbv zeta in Hev.
  fold n in Hev. fold frame in Hev.
  split; [exact Hev|].
  rewrite Hev, write_page_fst. fold n. fold frame.
  destruct (List.length data =? 4)%nat; cbn [andb]; [|discriminate].
  destruct (forallb is_byte frame); cbn [andb]; [|discriminate].
  destruct (i2c_write env n frame); cbn [andb]; [|discriminate].
  destruct (i2c_read env (S n) 64) as [[|b rest]|]; try discriminate.
  cbv zeta. intros H.
  apply andb_prop in H. destruct H as (H & H8).
  apply andb_prop in H. destruct H as (H & H7).
  apply andb_prop in H. destruct H as (_ & H6).
  apply Z.eqb_eq in H6, H7, H8.
  exists (b :: rest). repeat split; assumption.
Qed.

Lemma page_frame_octets (page : Z) (data : list Z) :
  forallb is_byte (page_frame page data) = true ->
  is_byte page = true /\ forallb is_byte data = true.
Proof.
  unfold page_frame. rewrite build_command_shape.
  rewrite forallb_app, forallb_app. cbn [app forallb]. intros H.
  repeat (apply andb_prop in H; destruct H as (? & H)).
  repeat match goal with
         | K : _ && _ = true |- _ => apply andb_prop in K; destruct K
         end.
  split; assumption.
Qed.

(** X7: [write_page] refuses data that is not four bytes long, a page
    number that is not an octet, and data that is not made of octets: it
    returns [False] and makes no bus transaction. *)
Theorem write_page_rejects_bad_input (page : Z) (data : list Z) (st : State) :
  List.length data <> 4%nat \/ is_byte page = false
    \/ forallb is_byte data = false ->
  fst (write_page env page data st) = false /\
  new_events st (snd (write_page env page data st)) = [].
Proof.
  intros H.
  assert (Hc : (List.length data =? 4)%nat
               && forallb is_byte (page_frame page data) = false).
  { destruct H as [H|H].
    - apply andb_false_intro1. apply Nat.eqb_neq. exact H.
    - apply andb_false_intro2.
      destruct (forallb is_byte (page_frame page data)) eqn:E; [|reflexivity].
      apply page_frame_octets in E. destruct E as (E1 & E2).
      destruct H as [H|H]; congruence. }
  split.
  - rewrite write_page_fst. cbv zeta.
    rewrite andb_assoc, Hc. reflexivity.
  - rewrite (write_page_events page data st). cbv zeta.
    rewrite Hc. reflexivity.
Qed.

(** X13: [write_to_tag], whatever its outcome, assigns no attribute (the
    current image stays loaded for a further attempt) and only appends to
    the bus log. *)
Theorem write_to_tag_keeps_image (cb : bool) (st : State) :
  current_amiibo (snd (AmiiboWriter.write_to_tag env cb st)) = current_amiibo st /\
  nfc_current_amiibo (snd (AmiiboWriter.write_to_tag env cb st))
  = nfc_current_amiibo st /\
  i2c_log (snd (AmiiboWriter.write_to_tag env cb st))
  = i2c_log st
      ++ new_events st (snd (AmiiboWriter.write_to_tag env cb st)).
Proof.
  assert (H : exists evs out pcs,
             run_adds st (snd (AmiiboWriter.write_to_tag env cb st)) evs out pcs).
  { destruct (AmiiboWriter.write_to_tag env cb st) as [res st'] eqn:E.
    cbn [snd]. unfold AmiiboWriter.write_to_tag in E.
    unfold bind at 1 in E. cbn [get_current_amiibo] in E.
    destruct (current_amiibo st) as [a|].
    - destruct (dict_nonempty a).
      + unfold bind at 1 in E.
        pose proof (print_adds (MsgWriting (AmiiboWriter.character_or_unknown a)) st)
          as Hp.
        destruct (print (MsgWriting (AmiiboWriter.character_or_unknown a)) st)
          as [[] s1].
        cbn [snd] in Hp.
        destruct (write_amiibo_adds env a cb s1) as (evs & out & pcs & Ha & _).
        rewrite E in Ha. cbn [snd] in Ha.
        pose proof (run_adds_trans _ _ _ _ _ _ _ _ _ Hp Ha) as Hall.
        eauto.
      + pose proof (print_adds MsgNoAmiiboLoaded st) as Hp.
        mstep. inversion E; subst. eauto.
    - pose proof (print_adds MsgNoAmiiboLoaded st) as Hp.
      mstep. inversion E; subst. eauto. }
  destruct H as (evs & out & pcs & Ha).
  rewrite (run_adds_new_events _ _ _ _ _ Ha).
  destruct Ha as (H1 & _ & _ & H4 & H5). auto.
Qed.

End PageWrites.

Lemma write_page_rejects_bad_input_witness :
  is_byte 300 = false /\
  fst (write_page env_ok 300 [0x01; 0x02; 0x03; 0x04] st0) = false /\
  new_events st0 (snd (write_page env_ok 300 [0x01; 0x02; 0x03; 0x04] st0)) = [].
Proof.
  assert (H : is_byte 300 = false) by reflexivity.
  split; [exact H|].
  exact (write_page_rejects_bad_input env_ok 300 [0x01; 0x02; 0x03; 0x04] st0
           (or_intror (or_introl H))).
Defined.

Lemma write_page_exchange_witness :
  fst (write_page env_ok 4 [0x01; 0x02; 0x03; 0x04] (state_at 2)) = true /\
  exists raw,
    new_events (state_at 2) (snd (write_page env_ok 4 [0x01; 0x02; 0x03; 0x04] (state_at 2)))
    = [BusWrite (page_frame 4 [0x01; 0x02; 0x03; 0x04]) true; BusRead 64 (Some raw)] /\
    nth 6 (ready_stripped raw) 0 = 0xD5 /\
    nth 7 (ready_stripped raw) 0 = 0x41 /\
    nth 8 (ready_stripped raw) 0 = 0x00.
Proof.
  assert (H : fst (write_page env_ok 4 [0x01; 0x02; 0x03; 0x04] (state_at 2)) = true)
    by (vm_compute; reflexivity).
  split; [exact H|].
  exact (proj2 (write_page_exchange env_ok 4 [0x01; 0x02; 0x03; 0x04] (state_at 2)) H).
Defined.

(** ** Whole write attempts *)

Lemma range_split (k : nat) :
  (k < 126)%nat ->
  exists pre post,
    data_pages_range = pre ++ (4 + Z.of_nat k) :: post /\
    List.length pre = k /\
    (forall i, (i < k)%nat -> nth i pre 0 = 4 + Z.of_nat i) /\
    (forall q, In q pre -> 4 <= q < 4 + Z.of_nat k).
Proof.
  intros Hk.
  exists (map Z.of_nat (seq 4 k)), (map Z.of_nat (seq (5 + k) (125 - k))).
  split.
  { unfold data_pages_range.
    replace 126%nat with (k + S (125 - k))%nat by lia.
    rewrite seq_app, map_app. cbn [seq map].
    replace (Z.of_nat (4 + k)) with (4 + Z.of_nat k) by lia.
    replace (S (4 + k)) with (5 + k)%nat by lia. reflexivity. }
  split; [rewrite length_map, length_seq; reflexivity|]. split.
  - intros i Hi. rewrite nth_map_seq by exact Hi. lia.
  - intros q Hq. apply in_map_iff in Hq. destruct Hq as (n & <- & Hn).
    apply in_seq in Hn. lia.
Qed.

Lemma range_facts :
  List.length data_pages_range = 126%nat /\
  (forall i, (i < 126)%nat -> nth i data_pages_range 0 = 4 + Z.of_nat i) /\
  (forall q, In q data_pages_range -> 4 <= q < 130) /\
  last (map percent_floor data_pages_range) 0 = 99.
Proof.
  split; [reflexivity|]. split.
  - intros i Hi. unfold data_pages_range. rewrite nth_map_seq by exact Hi. lia.
  - split; [intros q; apply in_data_pages_range|reflexivity].
Qed.

Section Attempts.
Variable env : Env.
Variable raw : list Z.

(** The loop stops at the first page whose write fails. *)
Lemma write_pages_stops :
  forall (pre : list Z) (p : Z) (post : list Z) (count : Z) (st : State),
    (forall q, In q pre -> 4 <= q < 130) ->
    (forall i, (i < List.length pre)%nat ->
       page_outcome env (List.length (i2c_log st) + 2 * i) (nth i pre 0) raw = true) ->
    page_outcome env (List.length (i2c_log st) + 2 * List.length pre) p raw = false ->
    exists evs out,
      fst (write_pages env raw true count (pre ++ p :: post) st) = Some false /\
      run_adds st (snd (write_pages env raw true count (pre ++ p :: post) st))
        evs (out ++ [MsgFailedToWritePage p]) (map percent_floor pre) /\
      Forall (fun e => exists q, In q (pre ++ [p])
                         /\ page_event q (page_data_of raw q) e) evs.
Proof.
  induction pre as [|q pre IH]; intros p post count st Hrange Hok Hfail.
  - cbn [app]. rewrite write_pages_cons.
    pose proof (write_page_outcome env p raw st) as Ho.
    cbn [List.length] in Hfail. rewrite Nat.mul_0_r, Nat.add_0_r in Hfail.
    rewrite Hfail in Ho.
    destruct (write_page_adds env p (page_data_of raw p) st)
      as (evs & out & Ha & Hev & _).
    destruct (write_page env p (page_data_of raw p) st) as [ok st1].
    cbn [fst snd] in Ho, Ha. subst ok.
    exists evs, out. split; [reflexivity|]. cbn [snd map]. split.
    + pose proof (run_adds_trans _ _ _ _ _ _ _ _ _ Ha
                    (print_adds (MsgFailedToWritePage p) st1)) as Hall.
      rewrite !app_nil_r in Hall. exact Hall.
    + eapply Forall_impl; [|exact Hev]. intros e He. exists p.
      split; [left; reflexivity|exact He].
  - cbn [app]. rewrite write_pages_cons.
    pose proof (write_page_outcome env q raw st) as Ho.
    pose proof (Hok 0%nat ltac:(cbn; lia)) as H0.
    rewrite Nat.mul_0_r, Nat.add_0_r in H0. cbn [nth] in H0. rewrite H0 in Ho.
    destruct (write_page_adds env q (page_data_of raw q) st)
      as (evs1 & out1 & Ha1 & Hev1 & Hlen).
    destruct (write_page env q (page_data_of raw q) st) as [ok st1].
    cbn [fst snd] in Ho, Ha1, Hlen. subst ok.
    destruct (Hlen eq_refl) as (Hl2 & _).
    rewrite progress_percent_range by (apply Hrange; left; reflexivity).
    set (st2 := snd (call_progress (percent_floor q) st1)).
    assert (Ha2 : run_adds st st2 evs1 out1 [percent_floor q]).
    { pose proof (run_adds_trans _ _ _ _ _ _ _ _ _ Ha1
                    (call_progress_adds (percent_floor q) st1)) as H.
      rewrite !app_nil_r in H. exact H. }
    assert (Hclock : List.length (i2c_log st2) = (List.length (i2c_log st) + 2)%nat).
    { rewrite (run_adds_length _ _ _ _ _ Ha2), Hl2. reflexivity. }
    destruct (IH p post (count + 1) st2) as (evs2 & out2 & Hres & Ha3 & Hev2).
    + intros x Hx. apply Hrange. right. exact Hx.
    + intros i Hi. rewrite Hclock.
      replace (List.length (i2c_log st) + 2 + 2 * i)%nat
        with (List.length (i2c_log st) + 2 * S i)%nat by lia.
      apply (Hok (S i)). cbn [List.length]. lia.
    + rewrite Hclock.
      replace (List.length (i2c_log st) + 2 + 2 * List.length pre)%nat
        with (List.length (i2c_log st) + 2 * List.length (q :: pre))%nat
        by (cbn [List.length]; lia).
      exact Hfail.
    + exists (evs1 ++ evs2), (out1 ++ out2). split; [exact Hres|]. split.
      * pose proof (run_adds_trans _ _ _ _ _ _ _ _ _ Ha2 Ha3) as Hall.
        cbn [app map] in *. rewrite <- app_assoc. exact Hall.
      * apply Forall_app. split.
        -- eapply Forall_impl; [|exact Hev1]. intros e He. exists q.
           split; [left; reflexivity|exact He].
        -- eapply Forall_impl; [|exact Hev2]. intros e (x & Hx & He).
           exists x. split; [right; exact Hx|exact He].
Qed.

(** The loop when every page is written. *)
Lemma write_pages_all_ok (cb : bool) :
  forall (pages : list Z) (count : Z) (st : State),
    (forall q, In q pages -> 4 <= q < 130) ->
    (forall i, (i < List.length pages)%nat ->
       page_outcome env (List.length (i2c_log st) + 2 * i) (nth i pages 0) raw = true) ->
    exists evs out,
      fst (write_pages env raw cb count pages st) = Some true /\
      run_adds st (snd (write_pages env raw cb count pages st))
        evs (out ++ [MsgWrotePages (count + len pages)])
        (if cb then map percent_floor pages else []) /\
      List.length evs = (2 * List.length pages)%nat.
Proof.
  induction pages as [|q pages IH]; intros count st Hrange Hok.
  - cbn [write_pages]. exists [], []. split; [reflexivity|]. split; [|reflexivity].
    cbn [app map snd len List.length]. rewrite Z.add_0_r.
    destruct cb; apply (print_adds (MsgWrotePages count) st).
  - rewrite write_pages_cons.
    pose proof (write_page_outcome env q raw st) as Ho.
    pose proof (Hok 0%nat ltac:(cbn; lia)) as H0.
    rewrite Nat.mul_0_r, Nat.add_0_r in H0. cbn [nth] in H0. rewrite H0 in Ho.
    destruct (write_page_adds env q (page_data_of raw q) st)
      as (evs1 & out1 & Ha1 & _ & Hlen).
    destruct (write_page env q (page_data_of raw q) st) as [ok st1].
    cbn [fst snd] in Ho, Ha1, Hlen. subst ok.
    destruct (Hlen eq_refl) as (Hl2 & _).
    rewrite progress_percent_range by (apply Hrange; left; reflexivity).
    set (st2 := if cb then snd (call_progress (percent_floor q) st1) else st1).
    assert (Ha2 : run_adds st st2 evs1 out1 (if cb then [percent_floor q] else [])).
    { unfold st2. destruct cb; [|exact Ha1].
      pose proof (run_adds_trans _ _ _ _ _ _ _ _ _ Ha1
                    (call_progress_adds (percent_floor q) st1)) as H.
      rewrite !app_nil_r in H. exact H. }
    assert (Hclock : List.length (i2c_log st2) = (List.length (i2c_log st) + 2)%nat).
    { rewrite (run_adds_length _ _ _ _ _ Ha2), Hl2. reflexivity. }
    destruct (IH (count + 1) st2) as (evs2 & out2 & Hres & Ha3 & Hl3).
    + intros x Hx. apply Hrange. right. exact Hx.
    + intros i Hi. rewrite Hclock.
      replace (List.length (i2c_log st) + 2 + 2 * i)%nat
        with (List.length (i2c_log st) + 2 * S i)%nat by lia.
      apply (Hok (S i)). cbn [List.length]. lia.
    + assert (Hgoal : (if cb
                       then write_pages env raw cb (count + 1) pages
                              (snd (call_progress (percent_floor q) st1))
                       else write_pages env raw cb (count + 1) pages st1)
                      = write_pages env raw cb (count + 1) pages st2).
      { unfold st2. destruct cb; reflexivity. }
      rewrite Hgoal.
      exists (evs1 ++ evs2), (out1 ++ out2). split; [exact Hres|]. split.
      * pose proof (run_adds_trans _ _ _ _ _ _ _ _ _ Ha2 Ha3) as Hall.
        rewrite <- app_assoc.
        replace (count + len (q :: pages)) with (count + 1 + len pages)
          by (unfold len; cbn [List.length]; lia).
        replace (if cb then map percent_floor (q :: pages) else [])
          with ((if cb then [percent_floor q] else [])
                ++ (if cb then map percent_floor pages else []))
          by (destruct cb; reflexivity).
        exact Hall.
      * rewrite length_app, Hl2, Hl3. cbn [List.length]. lia.
Qed.

End Attempts.

Section WholeAttempt.
Variable env : Env.

(** The run of [write_amiibo] up to the page loop, for an image of 540
    bytes or more and a tag that is detected: the loop starts in the state
    that [detect_tag] leaves. *)
Lemma write_amiibo_reaches_loop (a : Amiibo) (cb : bool) (st : State)
    (u : list Z) :
  540 <= len (get_raw_data a) ->
  fst (detect_tag env st) = Some u ->
  let s2 := snd (detect_tag env (snd (print MsgStartingWrite st))) in
  (exists evs1 out1,
     run_adds st s2 evs1 (MsgStartingWrite :: out1) [] /\
     List.length evs1 = 2%nat /\
     Forall detect_event evs1) /\
  write_amiibo env a cb st
  = (r <- write_pages env (get_raw_data a) cb 0 data_pages_range ;;
     match r with
     | Some b => ret b
     | None => print MsgErrorWritingAmiibo ;;; ret false
     end) s2.
Proof.
  intros Hlen Hdet s2. subst s2. unfold write_amiibo.
  unfold bind at 1.
  pose proof (print_adds MsgStartingWrite st) as Hp.
  assert (Hc1 : List.length (i2c_log (snd (print MsgStartingWrite st)))
                = List.length (i2c_log st)) by reflexivity.
  destruct (print MsgStartingWrite st) as [[] st1]. cbn [snd] in Hp, Hc1.
  change (snd (tt, st1)) with st1.
  cbv zeta.
  destruct (len (get_raw_data a) <? 540) eqn:El.
  { apply Z.ltb_lt in El. exfalso. exact (proj1 (Z.lt_nge _ _) El Hlen). }
  rewrite (detect_tag_clock env st st1 (eq_sym Hc1)) in Hdet.
  pose proof (detect_tag_uid_nonempty env st1 u Hdet) as Hne.
  destruct (detect_tag_adds env st1) as (evs1 & out1 & Ha1 & Hev1 & Hl1).
  unfold bind at 1.
  destruct (detect_tag env st1) as [r s2]. cbn [fst snd] in Hdet, Ha1, Hl1.
  change (snd (r, s2)) with s2. subst r. specialize (Hl1 u eq_refl).
  destruct u as [|x u]; [congruence|].
  split; [|reflexivity].
  exists evs1, out1.
  pose proof (run_adds_trans _ _ _ _ _ _ _ _ _ Hp Ha1) as Hall.
  cbn [app] in Hall.
  split; [exact Hall|]. split; [exact Hl1|exact Hev1].
Qed.

(** The run of [write_amiibo] that ends before the page loop: the image
    is too short, or no tag is detected. *)
Lemma write_amiibo_before_loop (a : Amiibo) (cb : bool) (st : State) :
  len (get_raw_data a) < 540 \/ fst (detect_tag env st) = None ->
  write_amiibo env a cb st =
  (false,
   if len (get_raw_data a) <? 540
   then snd (print (MsgInvalidSize (len (get_raw_data a)))
               (snd (print MsgStartingWrite st)))
   else snd (print MsgNoTagPlaceTag
               (snd (detect_tag env (snd (print MsgStartingWrite st)))))).
Proof.
  intros H. unfold write_amiibo.
  unfold bind at 1.
  assert (Hc1 : List.length (i2c_log (snd (print MsgStartingWrite st)))
                = List.length (i2c_log st)) by reflexivity.
  destruct (print MsgStartingWrite st) as [[] st1]. cbn [snd] in Hc1.
  change (snd (tt, st1)) with st1.
  cbv zeta.
  destruct (len (get_raw_data a) <? 540) eqn:El; [reflexivity|].
  destruct H as [H|H].
  { apply Z.ltb_ge in El. exfalso. exact (proj1 (Z.lt_nge _ _) H El). }
  rewrite (detect_tag_clock env st st1 (eq_sym Hc1)) in H.
  unfold bind at 1.
  destruct (detect_tag env st1) as [r s2]. cbn [fst] in H.
  change (snd (r, s2)) with s2. subst r. reflexivity.
Qed.

(** X9: without a progress callback, when a tag is detected and the
    writes of all 126 pages succeed, [write_amiibo] returns [True] after
    254 bus transactions, and the last line printed counts 126 pages. *)
Theorem write_amiibo_succeeds (a : Amiibo) (st : State) (u : list Z) :
  540 <= len (get_raw_data a) ->
  fst (detect_tag env st) = Some u ->
  (forall k, (k < 126)%nat ->
     page_outcome env (List.length (i2c_log st) + 2 + 2 * k)
       (4 + Z.of_nat k) (get_raw_data a) = true) ->
  fst (write_amiibo env a false st) = true /\
  List.length (new_events st (snd (write_amiibo env a false st))) = 254%nat /\
  last (new_output st (snd (write_amiibo env a false st))) MsgStartingWrite
  = MsgWrotePages 126.
Proof.
  intros Hlen Hdet Hok.
  destruct range_facts as (Hl & Hnth & Hrange & _).
  destruct (write_amiibo_reaches_loop a false st u Hlen Hdet)
    as ((evs1 & out1 & Ha1 & Hl1 & _) & ->).
  set (s2 := snd (detect_tag env (snd (print MsgStartingWrite st)))) in *.
  revert Hl Hnth Hrange.
  generalize data_pages_range as pages. intros pages Hl Hnth Hrange.
  assert (Hclock : List.length (i2c_log s2) = (List.length (i2c_log st) + 2)%nat).
  { rewrite (run_adds_length _ _ _ _ _ Ha1), Hl1. reflexivity. }
  destruct (write_pages_all_ok env (get_raw_data a) false pages 0 s2 Hrange)
    as (evs2 & out2 & Hres & Ha2 & Hl2).
  { intros i Hi. rewrite Hclock, Hnth by lia. apply Hok. lia. }
  unfold bind.
  destruct (write_pages env (get_raw_data a) false 0 pages s2) as [r s3].
  cbn [fst snd] in Hres, Ha2. subst r. cbn [ret fst snd].
  pose proof (run_adds_trans _ _ _ _ _ _ _ _ _ Ha1 Ha2) as Hall.
  cbn [app] in Hall.
  rewrite (run_adds_new_output _ _ _ _ _ Hall).
  rewrite (run_adds_new_events _ _ _ _ _ Hall).
  split; [reflexivity|].
  split; [rewrite length_app, Hl1, Hl2, Hl; reflexivity|].
  replace (0 + len pages) with 126 by (unfold len; rewrite Hl; reflexivity).
  change (MsgStartingWrite :: out1 ++ out2 ++ [MsgWrotePages 126])
    with ((MsgStartingWrite :: out1) ++ out2 ++ [MsgWrotePages 126]).
  rewrite !app_assoc. apply last_last.
Qed.

End WholeAttempt.

Section Outcomes.
Variable env : Env.

(** X10: when [detect_tag] finds no tag, [write_amiibo] returns [False]
    without a single page write: the bus has seen at most the detection
    exchange, and the callback has not been called. *)
Theorem write_amiibo_without_tag (a : Amiibo) (cb : bool) (st : State) :
  fst (detect_tag env st) = None ->
  fst (write_amiibo env a cb st) = false /\
  Forall detect_event (new_events st (snd (write_amiibo env a cb st))) /\
  (forall frame ok,
     In (BusWrite frame ok) (new_events st (snd (write_amiibo env a cb st))) ->
     written_page frame = None) /\
  new_progress st (snd (write_amiibo env a cb st)) = [].
Proof.
  intros Hdet.
  rewrite (write_amiibo_before_loop env a cb st (or_intror Hdet)).
  cbn [fst snd].
  pose proof (print_adds MsgStartingWrite st) as Hp.
  set (st1 := snd (print MsgStartingWrite st)) in *.
  assert (H : exists evs out,
             run_adds st
               (if len (get_raw_data a) <? 540
                then snd (print (MsgInvalidSize (len (get_raw_data a))) st1)
                else snd (print MsgNoTagPlaceTag (snd (detect_tag env st1))))
               evs out [] /\ Forall detect_event evs).
  { destruct (len (get_raw_data a) <? 540).
    - pose proof (run_adds_trans _ _ _ _ _ _ _ _ _ Hp
                    (print_adds (MsgInvalidSize (len (get_raw_data a))) st1)) as H.
      cbn [app] in H. eexists _, _. split; [exact H|constructor].
    - destruct (detect_tag_adds env st1) as (evs1 & out1 & Ha1 & Hev1 & _).
      pose proof (run_adds_trans _ _ _ _ _ _ _ _ _ Hp
                    (run_adds_trans _ _ _ _ _ _ _ _ _ Ha1
                       (print_adds MsgNoTagPlaceTag (snd (detect_tag env st1)))))
        as H.
      cbn [app] in H. rewrite app_nil_r in H.
      eexists _, _. split; [exact H|exact Hev1]. }
  destruct H as (evs & out & Ha & Hev).
  rewrite (run_adds_new_events _ _ _ _ _ Ha).
  rewrite (run_adds_new_progress _ _ _ _ _ Ha).
  split; [reflexivity|]. split; [exact Hev|]. split; [|reflexivity].
  intros frame ok Hin. rewrite Forall_forall in Hev. specialize (Hev _ Hin).
  cbn [detect_event] in Hev. subst frame. apply written_page_detect.
Qed.

(** X11: [write_amiibo] stops at the first page whose write fails,
    whichever page it is: it returns [False], its last line names that
    page, the callback has been called once for each page before it, and
    no page after it has been written. *)
Theorem write_amiibo_stops_at_first_failure (a : Amiibo) (st : State)
    (u : list Z) (k : nat) :
  540 <= len (get_raw_data a) ->
  fst (detect_tag env st) = Some u ->
  (k < 126)%nat ->
  (forall i, (i < k)%nat ->
     page_outcome env (List.length (i2c_log st) + 2 + 2 * i)
       (4 + Z.of_nat i) (get_raw_data a) = true) ->
  page_outcome env (List.length (i2c_log st) + 2 + 2 * k)
    (4 + Z.of_nat k) (get_raw_data a) = false ->
  fst (write_amiibo env a true st) = false /\
  List.length (new_progress st (snd (write_amiibo env a true st))) = k /\
  last (new_output st (snd (write_amiibo env a true st))) MsgStartingWrite
  = MsgFailedToWritePage (4 + Z.of_nat k) /\
  (forall frame ok page,
     In (BusWrite frame ok) (new_events st (snd (write_amiibo env a true st))) ->
     written_page frame = Some page -> 4 <= page <= 4 + Z.of_nat k).
Proof.
  intros Hlen Hdet Hk Hok Hfail.
  destruct (write_amiibo_reaches_loop env a true st u Hlen Hdet)
    as ((evs1 & out1 & Ha1 & Hl1 & Hev1) & ->).
  set (s2 := snd (detect_tag env (snd (print MsgStartingWrite st)))) in *.
  destruct (range_split k Hk) as (pre & post & -> & Hpre & Hnth & Hrange).
  assert (Hclock : List.length (i2c_log s2) = (List.length (i2c_log st) + 2)%nat).
  { rewrite (run_adds_length _ _ _ _ _ Ha1), Hl1. reflexivity. }
  destruct (write_pages_stops env (get_raw_data a) pre (4 + Z.of_nat k) post 0 s2)
    as (evs2 & out2 & Hres & Ha2 & Hev2).
  { intros q Hq. specialize (Hrange q Hq). lia. }
  { intros i Hi. rewrite Hclock, Hnth by lia. apply Hok. lia. }
  { rewrite Hclock, Hpre. exact Hfail. }
  unfold bind.
  destruct (write_pages env (get_raw_data a) true 0
              (pre ++ (4 + Z.of_nat k) :: post) s2) as [r s3].
  cbn [fst snd] in Hres, Ha2. subst r. cbn [ret fst snd].
  pose proof (run_adds_trans _ _ _ _ _ _ _ _ _ Ha1 Ha2) as Hall.
  cbn [app] in Hall.
  rewrite (run_adds_new_progress _ _ _ _ _ Hall).
  rewrite (run_adds_new_output _ _ _ _ _ Hall).
  rewrite (run_adds_new_events _ _ _ _ _ Hall).
  split; [reflexivity|].
  split; [rewrite length_map; exact Hpre|]. split.
  - change (MsgStartingWrite :: out1 ++ out2 ++ [MsgFailedToWritePage (4 + Z.of_nat k)])
      with ((MsgStartingWrite :: out1) ++ out2
              ++ [MsgFailedToWritePage (4 + Z.of_nat k)]).
    rewrite !app_assoc. apply last_last.
  - intros frame ok page Hin Hw. apply in_app_or in Hin. destruct Hin as [Hin|Hin].
    + rewrite Forall_forall in Hev1. specialize (Hev1 _ Hin).
      cbn [detect_event] in Hev1. subst frame.
      rewrite written_page_detect in Hw. discriminate.
    + rewrite Forall_forall in Hev2. destruct (Hev2 _ Hin) as (q & Hq & He).
      cbn [page_event] in He. subst frame. rewrite written_page_frame in Hw.
      inversion Hw; subst page. apply in_app_or in Hq. destruct Hq as [Hq|[<-|[]]].
      * specialize (Hrange q Hq). lia.
      * lia.
Qed.

(** The transactions of [detect_tag], from the number of the first. *)
Lemma detect_tag_events (st : State) :
  let n := List.length (i2c_log st) in
  i2c_log (snd (detect_tag env st)) =
  i2c_log st ++
    (if i2c_write env n detect_frame
     then [BusWrite detect_frame true; BusRead 64 (i2c_read env (S n) 64)]
     else [BusWrite detect_frame false]).
Proof.
  intros n.
  destruct (detect_tag env st) as [res st'] eqn:E. cbn [snd].
  unfold detect_tag in E. fold detect_frame in E. unfold bind at 1 in E.
  cbn [print] in E.
  set (st1 := {| i2c_log := i2c_log st; stdout := stdout st ++ [MsgDetecting];
                 progress_calls := progress_calls st;
                 nfc_current_amiibo := nfc_current_amiibo st;
                 current_amiibo := current_amiibo st |}) in E.
  unfold bind at 1 in E.
  pose proof (send_command_events env detect_frame st1) as Hs.
  pose proof (send_command_fst env detect_frame st1) as Hf.
  destruct (_send_command env detect_frame st1) as [b s1]. cbn [fst snd] in Hs, Hf.
  change (forallb is_byte detect_frame) with true in Hs, Hf.
  cbn [andb i2c_log st1] in Hs, Hf. fold n in Hs, Hf. subst b.
  destruct (i2c_write env n detect_frame); cbn [negb] in E.
  2:{ mstep. inversion E; subst. exact Hs. }
  unfold bind at 1 in E.
  pose proof (read_response_events env 64 s1) as Hr.
  destruct (_read_response env 64 s1) as [r s2]. cbn [snd] in Hr.
  assert (Hst : i2c_log st' = i2c_log s2).
  { destruct r as [[|x r]|].
    - mstep. inversion E; reflexivity.
    - unfold bind at 1 in E. cbn [print] in E.
      destruct (forallb is_byte (firstn 20 (x :: r))).
      + unfold bind at 1 in E. cbn [print] in E.
        destruct (scan_uid (x :: r) (seq 0 (Nat.min 10 (List.length (x :: r)))));
          mstep; inversion E; reflexivity.
      + mstep. inversion E; reflexivity.
    - mstep. inversion E; reflexivity. }
  rewrite Hst, Hr, Hs, <- app_assoc. cbn [app].
  rewrite length_app. cbn [List.length]. fold n.
  replace (n + 1)%nat with (S n) by lia. reflexivity.
Qed.

End Outcomes.

Lemma write_amiibo_succeeds_witness :
  fst (write_amiibo env_ok (blank_amiibo 540) false st0) = true /\
  List.length (new_events st0 (snd (write_amiibo env_ok (blank_amiibo 540) false st0)))
  = 254%nat /\
  last (new_output st0 (snd (write_amiibo env_ok (blank_amiibo 540) false st0)))
       MsgStartingWrite
  = MsgWrotePages 126.
Proof.
  apply (write_amiibo_succeeds env_ok (blank_amiibo 540) st0
           [4; 170; 187; 204; 221; 238; 255]).
  - vm_compute. discriminate.
  - vm_compute. reflexivity.
  - apply (below_by_forallb
             (fun k => page_outcome env_ok (List.length (i2c_log st0) + 2 + 2 * k)
                         (4 + Z.of_nat k) (get_raw_data (blank_amiibo 540)))).
    vm_compute. reflexivity.
Defined.

Lemma write_amiibo_without_tag_witness :
  fst (detect_tag env_deaf st0) = None /\
  fst (write_amiibo env_deaf (blank_amiibo 540) true st0) = false /\
  new_progress st0 (snd (write_amiibo env_deaf (blank_amiibo 540) true st0)) = [].
Proof.
  assert (H : fst (detect_tag env_deaf st0) = None) by (vm_compute; reflexivity).
  destruct (write_amiibo_without_tag env_deaf (blank_amiibo 540) true st0 H)
    as (H1 & _ & _ & H2).
  split; [exact H|]. split; [exact H1|exact H2].
Defined.

Lemma write_amiibo_stops_at_first_failure_witness :
  fst (write_amiibo (env_fail_at 3) (blank_amiibo 540) true st0) = false /\
  List.length
    (new_progress st0 (snd (write_amiibo (env_fail_at 3) (blank_amiibo 540) true st0)))
  = 0%nat /\
  last (new_output st0 (snd (write_amiibo (env_fail_at 3) (blank_amiibo 540) true st0)))
       MsgStartingWrite
  = MsgFailedToWritePage (4 + Z.of_nat 0).
Proof.
  destruct (write_amiibo_stops_at_first_failure (env_fail_at 3) (blank_amiibo 540) st0
              [4; 170; 187; 204; 221; 238; 255] 0) as (H1 & H2 & H3 & _).
  - vm_compute. discriminate.
  - vm_compute. reflexivity.
  - repeat constructor.
  - intros i Hi. inversion Hi.
  - vm_compute. reflexivity.
  - split; [exact H1|]. split; [exact H2|exact H3].
Defined.

(** ** The dump parser and the loader *)

Lemma slice_assign_length (l : list Z) (start stop : Z) (d : list Z) :
  len (slice_assign l start stop d) =
  adjust_index (len l) start + len d
  + (len l - Z.max (adjust_index (len l) start) (adjust_index (len l) stop)).
Proof.
  unfold slice_assign.
  assert (H0 : 0 <= len l) by (unfold len; lia).
  assert (Hs : 0 <= adjust_index (len l) start <= len l).
  { unfold adjust_index. destruct (start <? 0) eqn:E; lia. }
  assert (He : 0 <= adjust_index (len l) stop <= len l).
  { unfold adjust_index. destruct (stop <? 0) eqn:E; lia. }
  unfold len in *. rewrite !length_app, length_firstn, length_skipn. lia.
Qed.

(** Placing a page never shortens the buffer. *)
Lemma place_page_grows (raw : list Z) (entry : Z * list Z) :
  len raw <= len (place_page raw entry).
Proof.
  destruct entry as [N d]. unfold place_page.
  destruct (N * 4 + len d <=? len raw) eqn:E; [|lia].
  apply Z.leb_le in E. rewrite slice_assign_length.
  assert (H0 : 0 <= len d) by (unfold len; lia).
  unfold adjust_index.
  destruct (N * 4 <? 0) eqn:E1; destruct (N * 4 + len d <? 0) eqn:E2;
    try apply Z.ltb_lt in E1; try apply Z.ltb_ge in E1;
    try apply Z.ltb_lt in E2; try apply Z.ltb_ge in E2; lia.
Qed.

Lemma reconstruct_grows (dp : PageDict) : 540 <= len (reconstruct dp).
Proof.
  unfold reconstruct.
  assert (H : 540 <= len (repeat 0 540%nat))
    by (unfold len; rewrite repeat_length; lia).
  revert H. generalize (repeat 0 540%nat) as raw.
  induction dp as [|e dp IH]; intros raw H; cbn [fold_left]; [exact H|].
  apply IH. pose proof (place_page_grows raw e). lia.
Qed.

(** A line that is not a UID line leaves the UID as it is. *)
Lemma parse_line_keeps_uid (u : list Z) (dp : PageDict) (line : string)
    (u' : list Z) (dp' : PageDict) :
  startswith "UID:" (strip line) = false ->
  snd (parse_line u dp line) = Some (u', dp') -> u' = u.
Proof.
  unfold parse_line. intros ->.
  repeat match goal with
         | |- context [match ?x with _ => _ end] => destruct x
         end;
    cbn [snd]; intros H; inversion H; reflexivity.
Qed.

Lemma parse_lines_keeps_uid (lines : list string) :
  (forall line, In line lines -> startswith "UID:" (strip line) = false) ->
  forall u dp u' dp',
    snd (parse_lines lines u dp) = Some (u', dp') -> u' = u.
Proof.
  induction lines as [|line rest IH]; intros Hno u dp u' dp'; cbn [parse_lines].
  - cbn [snd]. intros H. inversion H. reflexivity.
  - pose proof (parse_line_keeps_uid u dp line) as Hl.
    destruct (parse_line u dp line) as [out [[u1 dp1]|]]; [|discriminate].
    cbn [snd] in Hl.
    specialize (Hl u1 dp1 (Hno line (or_introl eq_refl)) eq_refl). subst u1.
    destruct (parse_lines rest u dp1) as [o r] eqn:E. cbn [snd]. intros H.
    apply (IH (fun l Hin => Hno l (or_intror Hin)) u dp1 u' dp').
    rewrite E. exact H.
Qed.

(** What a dictionary returned by [_parse_flipper_format] is made of. *)
Lemma parse_flipper_fields (content name : string) (a : Amiibo) :
  snd (_parse_flipper_format content name) = Some a ->
  exists uid_bytes dp,
    snd (parse_lines (split "010"%char content) [] []) = Some (uid_bytes, dp) /\
    uid_bytes <> [] /\
    a = mkAmiibo (Some (reconstruct dp)) (Some (hex_upper uid_bytes)) (Some name).
Proof.
  unfold _parse_flipper_format.
  destruct (parse_lines (split "010"%char content) [] []) as [out [[u dp]|]];
    cbn [snd]; [|discriminate].
  destruct u as [|x u]; cbn [snd]; [discriminate|].
  intros H. inversion H. exists (x :: u), dp.
  repeat split. discriminate.
Qed.

(** X16: every dictionary that [_parse_flipper_format] returns holds the
    three keys; its image has at least 540 bytes, and exactly 540 when no
    page of the page map has a negative number; its character is the name
    given. *)
Theorem parse_flipper_result (content name : string) (a : Amiibo) :
  snd (_parse_flipper_format content name) = Some a ->
  exists raw uid_hex pages,
    raw_data a = Some raw /\
    uid a = Some uid_hex /\
    character a = Some name /\
    parsed_pages content = Some pages /\
    540 <= len raw /\
    ((forall N d, In (N, d) pages -> 0 <= N) -> len raw = 540).
Proof.
  intros H. apply parse_flipper_fields in H.
  destruct H as (u & dp & Hp & _ & ->). cbn [raw_data uid character].
  exists (reconstruct dp), (hex_upper u), dp.
  unfold parsed_pages. rewrite Hp. cbn [option_map snd].
  repeat split; try reflexivity.
  - apply reconstruct_grows.
  - intros Hnn. unfold len. rewrite (reconstruct_length dp Hnn). reflexivity.
Qed.

Lemma parse_flipper_result_witness :
  exists raw uid_hex pages,
    raw_data (mkAmiibo (Some scenario_a_image) (Some "04AABBCCDDEEFF"%string)
                (Some "Mario Kart"%string)) = Some raw /\
    uid (mkAmiibo (Some scenario_a_image) (Some "04AABBCCDDEEFF"%string)
           (Some "Mario Kart"%string)) = Some uid_hex /\
    character (mkAmiibo (Some scenario_a_image) (Some "04AABBCCDDEEFF"%string)
                 (Some "Mario Kart"%string)) = Some "Mario Kart"%string /\
    parsed_pages scenario_a_text = Some pages /\
    540 <= len raw /\
    ((forall N d, In (N, d) pages -> 0 <= N) -> len raw = 540).
Proof.
  apply (parse_flipper_result scenario_a_text "Mario Kart").
  vm_compute. reflexivity.
Defined.

Section Loading.
Variable env : Env.

(** X17: a dump without a UID line is not loaded: the parser raises, and
    [load_amiibo] returns [False] for a file that holds it. *)
Theorem dump_without_uid_rejected (content name path : string) (st : State) :
  no_uid_line content ->
  snd (_parse_flipper_format content name) = None /\
  (read_file env path = Some content ->
   fst (NFCWriter.load_amiibo env path st) = false).
Proof.
  intros Hno.
  assert (Hp : forall n, snd (_parse_flipper_format content n) = None).
  { intros n. unfold _parse_flipper_format.
    pose proof (parse_lines_keeps_uid (split "010"%char content) Hno [] []) as Hk.
    destruct (parse_lines (split "010"%char content) [] []) as [out [[u dp]|]];
      [|reflexivity].
    cbn [snd] in Hk. rewrite (Hk u dp eq_refl). reflexivity. }
  split; [apply Hp|].
  intros Hr. unfold NFCWriter.load_amiibo. rewrite Hr.
  destruct (startswith "Filetype: Flipper" content); [|reflexivity].
  unfold bind at 1. cbn [print].
  specialize (Hp (replace "_" " " (replace ".nfc" "" (basename path)))).
  destruct (_parse_flipper_format content
              (replace "_" " " (replace ".nfc" "" (basename path)))) as [out r].
  cbn [snd] in Hp. subst r.
  unfold bind at 1.
  destruct (print_all out _) as [[] s2]. reflexivity.
Qed.

Lemma print_all_keeps_nfc (out : list Msg) :
  forall s, nfc_current_amiibo (snd (print_all out s)) = nfc_current_amiibo s.
Proof.
  induction out as [|m out IH]; intros s; [reflexivity|].
  cbn [print_all]. unfold bind. cbn [print]. rewrite IH. reflexivity.
Qed.

(** The two outcomes of the NFCWriter's [load_amiibo]. *)
Lemma nfc_load_amiibo_cases (path : string) (st : State) :
  (fst (NFCWriter.load_amiibo env path st) = true ->
   exists content a,
     read_file env path = Some content /\
     startswith "Filetype: Flipper" content = true /\
     snd (_parse_flipper_format content (character_name_of path)) = Some a /\
     nfc_current_amiibo (snd (NFCWriter.load_amiibo env path st)) = Some a) /\
  (fst (NFCWriter.load_amiibo env path st) = false ->
   nfc_current_amiibo (snd (NFCWriter.load_amiibo env path st))
   = nfc_current_amiibo st /\
   (forall content,
      read_file env path = Some content ->
      startswith "Filetype: Flipper" content = true ->
      snd (_parse_flipper_format content (character_name_of path)) = None)).
Proof.
  split.
  - destruct (NFCWriter.load_amiibo env path st) as [res st'] eqn:E.
    cbn [fst snd]. intros ->.
    unfold NFCWriter.load_amiibo in E. fold (character_name_of path) in E.
    destruct (read_file env path) as [content|]; [|mstep; discriminate].
    destruct (startswith "Filetype: Flipper" content) eqn:Es; [|mstep; discriminate].
    unfold bind at 1 in E. cbn [print] in E.
    destruct (_parse_flipper_format content (character_name_of path)) as [out r] eqn:Ep.
    unfold bind at 1 in E.
    match type of E with
    | context [print_all out ?s] => destruct (print_all out s) as [[] s2]
    end.
    destruct r as [a|]; [|mstep; discriminate].
    mstep. inversion E; subst st'. exists content, a.
    rewrite Ep. repeat split; try reflexivity. exact Es.
  - destruct (NFCWriter.load_amiibo env path st) as [res st'] eqn:E.
    cbn [fst snd]. intros ->.
    unfold NFCWriter.load_amiibo in E. fold (character_name_of path) in E.
    destruct (read_file env path) as [content|].
    2:{ mstep. inversion E. split; [reflexivity|discriminate]. }
    destruct (startswith "Filetype: Flipper" content) eqn:Es.
    2:{ mstep. inversion E. split; [reflexivity|].
        intros c Hc. inversion Hc; subst c. congruence. }
    unfold bind at 1 in E. cbn [print] in E.
    destruct (_parse_flipper_format content (character_name_of path)) as [out r] eqn:Ep.
    unfold bind at 1 in E.
    match type of E with
    | context [print_all out ?s] =>
        pose proof (print_all_keeps_nfc out s) as Hn;
        destruct (print_all out s) as [[] s2]
    end.
    cbn [snd nfc_current_amiibo] in Hn.
    destruct r as [a|]; [mstep; discriminate|].
    mstep. inversion E; subst st'. cbn [nfc_current_amiibo].
    split; [exact Hn|].
    intros c Hc _. inversion Hc; subst c. rewrite Ep. reflexivity.
Qed.

(** X14: [load_amiibo] of the NFCWriter returns [True] exactly when the
    file can be read, starts with [Filetype: Flipper] and is parsed; the
    dictionary parsed is then the current image.  When it returns [False]
    the current image is the one before.  In no case does it make a bus
    transaction or assign the attribute of the AmiiboWriter. *)
Theorem nfc_load_amiibo_outcome (path : string) (st : State) :
  (fst (NFCWriter.load_amiibo env path st) = true ->
   exists content a,
     read_file env path = Some content /\
     startswith "Filetype: Flipper" content = true /\
     snd (_parse_flipper_format content (character_name_of path)) = Some a /\
     nfc_current_amiibo (snd (NFCWriter.load_amiibo env path st)) = Some a) /\
  (fst (NFCWriter.load_amiibo env path st) = false ->
   nfc_current_amiibo (snd (NFCWriter.load_amiibo env path st))
   = nfc_current_amiibo st /\
   (forall content,
      read_file env path = Some content ->
      startswith "Filetype: Flipper" content = true ->
      snd (_parse_flipper_format content (character_name_of path)) = None)) /\
  i2c_log (snd (NFCWriter.load_amiibo env path st)) = i2c_log st /\
  current_amiibo (snd (NFCWriter.load_amiibo env path st)) = current_amiibo st.
Proof.
  destruct (nfc_load_amiibo_keeps env path st) as (Hlog & Hcur).
  destruct (nfc_load_amiibo_cases path st) as (Ht & Hf).
  split; [exact Ht|]. split; [exact Hf|]. split; assumption.
Qed.

(** X15: [load_amiibo] of the AmiiboWriter returns what the NFCWriter's
    returns.  On success both objects hold the same dictionary, its
    character is the file name without [.nfc] and with spaces for
    underscores, and its image has at least 540 bytes; on failure both
    attributes are the ones before.  It makes no bus transaction. *)
Theorem load_amiibo_outcome (path : string) (st : State) :
  let st' := snd (AmiiboWriter.load_amiibo env path st) in
  fst (AmiiboWriter.load_amiibo env path st)
  = fst (NFCWriter.load_amiibo env path st) /\
  (fst (AmiiboWriter.load_amiibo env path st) = true ->
   exists a raw,
     current_amiibo st' = Some a /\
     nfc_current_amiibo st' = Some a /\
     character a = Some (character_name_of path) /\
     raw_data a = Some raw /\ 540 <= len raw /\
     last (stdout st') MsgNoAmiiboLoaded
     = MsgLoaded (character_name_of path)) /\
  (fst (AmiiboWriter.load_amiibo env path st) = false ->
   current_amiibo st' = current_amiibo st /\
   nfc_current_amiibo st' = nfc_current_amiibo st) /\
  i2c_log st' = i2c_log st.
Proof.
  intros st'. subst st'.
  destruct (nfc_load_amiibo_cases path st) as (Ht & Hf).
  destruct (nfc_load_amiibo_keeps env path st) as (Hlog & Hcur).
  destruct (AmiiboWriter.load_amiibo env path st) as [res st'] eqn:E.
  unfold AmiiboWriter.load_amiibo in E. unfold bind at 1 in E.
  destruct (NFCWriter.load_amiibo env path st) as [ok s1].
  cbn [fst snd] in *.
  destruct ok.
  - destruct (Ht eq_refl) as (content & a & Hr & Hs & Hp & Hn).
    destruct (parse_flipper_fields content (character_name_of path) a Hp)
      as (ub & dp & _ & _ & Ha).
    assert (Hraw : raw_data a = Some (reconstruct dp)) by (subst a; reflexivity).
    assert (Hch : character a = Some (character_name_of path))
      by (subst a; reflexivity).
    pose proof (reconstruct_grows dp) as Hlen. clear Ha.
    mstep. rewrite Hn in E. inversion E; subst res st'.
    cbn [current_amiibo nfc_current_amiibo i2c_log].
    split; [reflexivity|]. split; [|split; [discriminate|exact Hlog]].
    intros _. exists a, (reconstruct dp). repeat split; try assumption.
    unfold AmiiboWriter.character_or_unknown. cbn [stdout].
    rewrite Hch. apply last_last.
  - mstep. inversion E; subst res st'.
    split; [reflexivity|]. split; [discriminate|].
    split; [|exact Hlog]. intros _. destruct (Hf eq_refl) as (Hn & _).
    split; assumption.
Qed.

End Loading.

Lemma dump_without_uid_rejected_witness :
  snd (_parse_flipper_format pages_only_text "Mario Kart") = None /\
  (read_file (env_with_file "amiibo/Mario_Kart.nfc" pages_only_text)
     "amiibo/Mario_Kart.nfc" = Some pages_only_text ->
   fst (NFCWriter.load_amiibo
          (env_with_file "amiibo/Mario_Kart.nfc" pages_only_text)
          "amiibo/Mario_Kart.nfc" st0) = false).
Proof.
  apply (dump_without_uid_rejected
           (env_with_file "amiibo/Mario_Kart.nfc" pages_only_text)
           pages_only_text "Mario Kart" "amiibo/Mario_Kart.nfc" st0).
  unfold no_uid_line. intros line Hin. vm_compute in Hin.
  repeat (destruct Hin as [<-|Hin]; [vm_compute; reflexivity|]).
  destruct Hin.
Defined.

(** ** Construction *)

Section Construction.
Variable env : Env.

(** What [get_firmware_version] does on the bus and what it returns. *)
Lemma firmware_version_run (st : State) :
  let n := List.length (i2c_log st) in
  i2c_log (snd (get_firmware_version env st)) =
    i2c_log st ++
      (if i2c_write env n firmware_frame
       then [BusWrite firmware_frame true; BusRead 20 (i2c_read env (S n) 20)]
       else [BusWrite firmware_frame false]) /\
  nfc_current_amiibo (snd (get_firmware_version env st)) = nfc_current_amiibo st /\
  current_amiibo (snd (get_firmware_version env st)) = current_amiibo st /\
  fst (get_firmware_version env st) =
    (if i2c_write env n firmware_frame
     then match i2c_read env (S n) 20 with
          | Some r =>
              if 12 <? len r
              then if nth 0 r 0 =? 0x01
                   then Some (nth 9 r 0, nth 10 r 0, nth 11 r 0, nth 12 r 0)
                   else Some (nth 8 r 0, nth 9 r 0, nth 10 r 0, nth 11 r 0)
              else None
          | None => None
          end
     else None).
Proof.
  intros n. subst n. unfold get_firmware_version. fold firmware_frame. mstep.
  destruct (i2c_write env (List.length (i2c_log st)) firmware_frame);
    cbn [negb fst snd i2c_log nfc_current_amiibo current_amiibo].
  2:{ repeat split. }
  rewrite length_app. cbn [List.length]. rewrite Nat.add_1_r.
  destruct (i2c_read env (S (List.length (i2c_log st))) 20) as [r|];
    cbn [fst snd i2c_log nfc_current_amiibo current_amiibo].
  2:{ rewrite <- app_assoc. repeat split. }
  destruct (12 <? len r); cbn [andb];
    [destruct (nth 0 r 0 =? 1)|];
    cbn [fst snd i2c_log nfc_current_amiibo current_amiibo];
    rewrite <- app_assoc; repeat split.
Qed.

(** What [_configure_sam] does on the bus: it sends its frame and reads,
    whether the frame was accepted or not. *)
Lemma configure_sam_run (st : State) :
  let n := List.length (i2c_log st) in
  i2c_log (snd (_configure_sam env st)) =
    i2c_log st ++ [BusWrite sam_frame (i2c_write env n sam_frame);
                   BusRead 64 (i2c_read env (S n) 64)] /\
  nfc_current_amiibo (snd (_configure_sam env st)) = nfc_current_amiibo st /\
  current_amiibo (snd (_configure_sam env st)) = current_amiibo st /\
  exists out, stdout (snd (_configure_sam env st)) = stdout st ++ out.
Proof.
  intros n.
  destruct (_configure_sam env st) as [res st'] eqn:E. cbn [snd].
  unfold _configure_sam in E. fold sam_frame in E. unfold bind at 1 in E.
  pose proof (send_command_events env sam_frame st) as Hs.
  destruct (send_command_adds env sam_frame st)
    as (evs & out & (_ & Ho1 & _ & Hn1 & Hc1) & _).
  destruct (_send_command env sam_frame st) as [b s1]. cbn [fst snd] in *.
  change (forallb is_byte sam_frame) with true in Hs. cbv iota in Hs. fold n in Hs.
  unfold bind at 1 in E.
  pose proof (read_response_events env 64 s1) as Hr.
  destruct (read_response_adds env 64 s1)
    as (out2 & (_ & Ho2 & _ & Hn2 & Hc2) & _).
  destruct (_read_response env 64 s1) as [r s2]. cbn [fst snd] in *.
  assert (Hst : i2c_log st' = i2c_log s2 /\
                nfc_current_amiibo st' = nfc_current_amiibo s2 /\
                current_amiibo st' = current_amiibo s2 /\
                exists m, stdout st' = stdout s2 ++ [m]).
  { destruct r as [[|x r]|]; mstep; inversion E; repeat split;
      eexists; reflexivity. }
  destruct Hst as (H1 & H2 & H3 & m & H4).
  rewrite H1, H2, H3, H4, Hr, Hs, Ho2, Ho1, <- !app_assoc. cbn [app].
  rewrite length_app. cbn [List.length]. fold n.
  replace (n + 1)%nat with (S n) by lia.
  split; [reflexivity|]. split; [congruence|]. split; [congruence|].
  eexists; reflexivity.
Qed.

(** The constructor of the NFCWriter, step by step. *)
Lemma nfc_init_run (st : State) :
  let n := List.length (i2c_log st) in
  let st' := snd (NFCWriter.__init__ env st) in
  fst (NFCWriter.__init__ env st) =
    (i2c_write env n firmware_frame &&
     match i2c_read env (S n) 20 with
     | Some r => 12 <? len r
     | None => false
     end) /\
  new_events st st' =
    (if i2c_write env n firmware_frame
     then [BusWrite firmware_frame true; BusRead 20 (i2c_read env (S n) 20)]
          ++ (if fst (NFCWriter.__init__ env st)
              then [BusWrite sam_frame (i2c_write env (n + 2) sam_frame);
                    BusRead 64 (i2c_read env (n + 3) 64)]
              else [])
     else [BusWrite firmware_frame false]) /\
  nfc_current_amiibo st' = None /\
  current_amiibo st' = current_amiibo st.
Proof.
  intros n st'. subst st'.
  destruct (NFCWriter.__init__ env st) as [res s'] eqn:E. cbn [fst snd].
  unfold NFCWriter.__init__ in E.
  unfold bind at 1 in E. cbn [set_nfc_current_amiibo] in E.
  unfold bind at 1 in E. cbn [print] in E.
  cbn [i2c_log stdout progress_calls nfc_current_amiibo current_amiibo] in E.
  set (s1 := {| i2c_log := i2c_log st; stdout := stdout st ++ [MsgInitializing];
                progress_calls := progress_calls st;
                nfc_current_amiibo := None;
                current_amiibo := current_amiibo st |}) in E.
  unfold bind at 1 in E.
  destruct (firmware_version_run s1) as (Hl & Hn & Hc & Hv).
  destruct (get_firmware_version env s1) as [v s2]. cbn [fst snd] in Hl, Hn, Hc, Hv.
  cbn [i2c_log nfc_current_amiibo current_amiibo s1] in Hl, Hn, Hc, Hv.
  fold n in Hl, Hv.
  destruct (i2c_write env n firmware_frame) eqn:Ew; cbn [andb].
  2:{ subst v. cbn [ret] in E. inversion E; subst res s'.
      repeat split; try assumption. apply new_events_app. exact Hl. }
  destruct (i2c_read env (S n) 20) as [r|] eqn:Er.
  2:{ subst v. cbn [ret] in E. inversion E; subst res s'.
      repeat split; try assumption. apply new_events_app.
      rewrite Hl. rewrite app_nil_r. reflexivity. }
  destruct (12 <? len r) eqn:E12.
  2:{ subst v. cbn [ret] in E. inversion E; subst res s'.
      repeat split; try assumption. apply new_events_app.
      rewrite Hl. rewrite app_nil_r. reflexivity. }
  assert (Hsome : exists v0 v1 v2 v3, v = Some (v0, v1, v2, v3)).
  { destruct (nth 0 r 0 =? 1); subst v; do 4 eexists; reflexivity. }
  destruct Hsome as (v0 & v1 & v2 & v3 & ->).
  unfold bind at 1 in E. cbn [print] in E.
  unfold bind at 1 in E.
  match type of E with
  | context [_configure_sam env ?s] =>
      destruct (configure_sam_run s) as (Hl3 & Hn3 & Hc3 & _);
      destruct (_configure_sam env s) as [b s3]
  end.
  cbn [fst snd i2c_log nfc_current_amiibo current_amiibo] in Hl3, Hn3, Hc3.
  cbn [ret] in E. inversion E; subst res s'.
  split; [reflexivity|]. split; [|split; congruence].
  apply new_events_app. rewrite Hl3, Hl, <- app_assoc.
  rewrite length_app. cbn [List.length app]. fold n.
  replace (S (n + 2)) with (n + 3)%nat by lia. reflexivity.
Qed.

(** X18: the constructor of the NFCWriter succeeds exactly when the bus
    accepts the firmware frame and the read that follows returns more
    than 12 bytes.  It then sends the SAM frame and reads 64 bytes, and
    succeeds whatever the outcome of these two transactions; when it
    fails, the SAM frame is not sent.  In both cases it leaves the
    NFCWriter without image. *)
Theorem nfc_init_outcome (st : State) :
  let n := List.length (i2c_log st) in
  let st' := snd (NFCWriter.__init__ env st) in
  (fst (NFCWriter.__init__ env st) = true <->
   i2c_write env n firmware_frame = true /\
   exists r, i2c_read env (S n) 20 = Some r /\ 12 < len r) /\
  (fst (NFCWriter.__init__ env st) = true ->
   new_events st st' =
     [BusWrite firmware_frame true; BusRead 20 (i2c_read env (S n) 20);
      BusWrite sam_frame (i2c_write env (n + 2) sam_frame);
      BusRead 64 (i2c_read env (n + 3) 64)]) /\
  (fst (NFCWriter.__init__ env st) = false ->
   new_events st st' =
     if i2c_write env n firmware_frame
     then [BusWrite firmware_frame true; BusRead 20 (i2c_read env (S n) 20)]
     else [BusWrite firmware_frame false]) /\
  nfc_current_amiibo st' = None.
Proof.
  intros n st'. subst st'.
  destruct (nfc_init_run st) as (Hres & Hev & Hn & _). cbv zeta in *.
  fold n in Hres, Hev.
  split; [|split; [|split; [|exact Hn]]].
  - rewrite Hres. split.
    + intros H. apply andb_prop in H. destruct H as (Hw & Hr).
      split; [exact Hw|].
      destruct (i2c_read env (S n) 20) as [r|]; [|discriminate].
      exists r. split; [reflexivity|]. apply Z.ltb_lt. exact Hr.
    + intros (Hw & r & Hr & Hlen). rewrite Hw, Hr. cbn [andb].
      apply Z.ltb_lt. exact Hlen.
  - intros Ht. rewrite Hev. rewrite Ht in *.
    symmetry in Hres. apply andb_prop in Hres. destruct Hres as (-> & _).
    reflexivity.
  - intros Ht. rewrite Hev. rewrite Ht.
    destruct (i2c_write env n firmware_frame); reflexivity.
Qed.

(** X19: on the controller's answer to GetFirmwareVersion, with or
    without the ready marker in front, [get_firmware_version] returns the
    fields Ver, Rev and Support followed by the data checksum, and the
    constructor prints Rev and Support as the version. *)
Theorem firmware_version_fields (ready : bool) (ic ver rev support : Z)
    (tail : list Z) (st : State) :
  let n := List.length (i2c_log st) in
  i2c_write env n firmware_frame = true ->
  i2c_read env (S n) 20 = Some (firmware_answer ready ic ver rev support tail) ->
  (fst (get_firmware_version env st)
   = Some (ver, rev, support,
           (- (0xD5 + 0x03 + ic + ver + rev + support)) mod 256)) /\
  fst (NFCWriter.__init__ env st) = true /\
  In (MsgFirmware rev support) (stdout (snd (NFCWriter.__init__ env st))).
Proof.
  intros n Hw Hr.
  assert (Hlen : (12 <? len (firmware_answer ready ic ver rev support tail)) = true).
  { apply Z.ltb_lt. unfold firmware_answer, len.
    destruct ready; cbn [app List.length]; lia. }
  assert (Hv : forall s, List.length (i2c_log s) = n ->
             fst (get_firmware_version env s)
             = Some (ver, rev, support,
                     (- (0xD5 + 0x03 + ic + ver + rev + support)) mod 256)).
  { intros s Hs. destruct (firmware_version_run s) as (_ & _ & _ & H).
    cbv zeta in H. rewrite Hs in H. rewrite H, Hw, Hr, Hlen.
    destruct ready; reflexivity. }
  split; [apply Hv; reflexivity|].
  destruct (NFCWriter.__init__ env st) as [res s'] eqn:E. cbn [fst snd].
  unfold NFCWriter.__init__ in E.
  unfold bind at 1 in E. cbn [set_nfc_current_amiibo] in E.
  unfold bind at 1 in E. cbn [print] in E.
  cbn [i2c_log stdout progress_calls nfc_current_amiibo current_amiibo] in E.
  set (s1 := {| i2c_log := i2c_log st; stdout := stdout st ++ [MsgInitializing];
                progress_calls := progress_calls st;
                nfc_current_amiibo := None;
                current_amiibo := current_amiibo st |}) in E.
  unfold bind at 1 in E.
  pose proof (Hv s1 eq_refl) as Hv1.
  destruct (get_firmware_version env s1) as [v s2]. cbn [fst] in Hv1. subst v.
  unfold bind at 1 in E. cbn [print] in E.
  unfold bind at 1 in E.
  match type of E with
  | context [_configure_sam env ?s] =>
      destruct (configure_sam_run s) as (_ & _ & _ & out & Ho);
      destruct (_configure_sam env s) as [b s3]
  end.
  cbn [snd stdout] in Ho. cbn [ret] in E. inversion E; subst res s'.
  split; [reflexivity|]. rewrite Ho.
  apply in_or_app. left. apply in_or_app. right. left. reflexivity.
Qed.

End Construction.

Lemma firmware_version_fields_witness :
  (fst (get_firmware_version env_firmware st0) = Some (0x01, 0x06, 0x07, 0xE8)) /\
  fst (NFCWriter.__init__ env_firmware st0) = true /\
  In (MsgFirmware 0x06 0x07) (stdout (snd (NFCWriter.__init__ env_firmware st0))).
Proof.
  exact (firmware_version_fields env_firmware true 0x32 0x01 0x06 0x07
           (repeat 0 6%nat) st0 eq_refl eq_refl).
Defined.

(** ** From construction and loading to writing *)

Section Session.
Variable env : Env.

(** X20: the constructor of the AmiiboWriter succeeds exactly when the
    NFCWriter's does, and leaves both objects without image: a
    [write_to_tag] that follows it directly returns [False] and makes no
    bus transaction. *)
Theorem fresh_writer_cannot_write (cb : bool) (st : State) :
  let s := snd (AmiiboWriter.__init__ env st) in
  fst (AmiiboWriter.__init__ env st) = fst (NFCWriter.__init__ env st) /\
  (fst (AmiiboWriter.__init__ env st) = true ->
   current_amiibo s = None /\
   nfc_current_amiibo s = None /\
   fst (AmiiboWriter.write_to_tag env cb s) = false /\
   new_events s (snd (AmiiboWriter.write_to_tag env cb s)) = []).
Proof.
  intros s. subst s.
  destruct (nfc_init_run env st) as (_ & _ & Hn & _). cbv zeta in Hn.
  destruct (AmiiboWriter.__init__ env st) as [res s] eqn:E. cbn [fst snd].
  unfold AmiiboWriter.__init__ in E. unfold bind at 1 in E.
  destruct (NFCWriter.__init__ env st) as [ok s1]. cbn [fst snd] in *.
  destruct ok; mstep; inversion E; subst res s; cbn [fst snd].
  2:{ split; [reflexivity|discriminate]. }
  split; [reflexivity|]. intros _.
  cbn [current_amiibo nfc_current_amiibo]. split; [reflexivity|].
  split; [exact Hn|].
  unfold AmiiboWriter.write_to_tag. mstep.
  split; [reflexivity|]. apply new_events_app.
  cbn [i2c_log]. rewrite app_nil_r. reflexivity.
Qed.

(** An attempt on an image of 540 bytes or more starts on the bus with
    the detection frame. *)
Lemma write_amiibo_first_event (a : Amiibo) (cb : bool) (st : State) :
  540 <= len (get_raw_data a) ->
  exists rest,
    new_events st (snd (write_amiibo env a cb st))
    = BusWrite detect_frame
        (i2c_write env (List.length (i2c_log st)) detect_frame) :: rest.
Proof.
  intros Hlen.
  pose proof (detect_tag_events env (snd (print MsgStartingWrite st))) as Hd.
  cbv zeta in Hd.
  change (i2c_log (snd (print MsgStartingWrite st))) with (i2c_log st) in Hd.
  destruct (fst (detect_tag env st)) as [u|] eqn:Hdet.
  - destruct (write_amiibo_reaches_loop env a cb st u Hlen Hdet) as (_ & Heq).
    cbv zeta in Heq. rewrite Heq. clear Heq.
    set (s2 := snd (detect_tag env (snd (print MsgStartingWrite st)))) in *.
    generalize data_pages_range as pages. intros pages.
    unfold bind at 1.
    destruct (write_pages_adds env (get_raw_data a) cb pages 0 s2)
      as (evs & out & pcs & (Hl & _) & _).
    destruct (write_pages env (get_raw_data a) cb 0 pages s2) as [r s3].
    cbn [snd] in Hl.
    assert (Hf : i2c_log (snd (match r with
                               | Some b => ret b
                               | None => print MsgErrorWritingAmiibo ;;; ret false
                               end s3)) = i2c_log s3).
    { destruct r; reflexivity. }
    destruct (i2c_write env (List.length (i2c_log st)) detect_frame).
    + eexists. apply new_events_app. rewrite Hf, Hl, Hd, <- app_assoc.
      cbn [app]. reflexivity.
    + eexists. apply new_events_app. rewrite Hf, Hl, Hd, <- app_assoc.
      cbn [app]. reflexivity.
  - rewrite (write_amiibo_before_loop env a cb st (or_intror Hdet)).
    cbn [snd]. apply Z.ltb_ge in Hlen. rewrite Hlen.
    destruct (i2c_write env (List.length (i2c_log st)) detect_frame).
    + eexists. apply new_events_app.
      change (i2c_log (snd (print MsgNoTagPlaceTag ?s))) with (i2c_log s).
      rewrite Hd. cbn [app]. reflexivity.
    + eexists. apply new_events_app.
      change (i2c_log (snd (print MsgNoTagPlaceTag ?s))) with (i2c_log s).
      rewrite Hd. cbn [app]. reflexivity.
Qed.

(** X21: an image that [load_amiibo] has loaded is never refused for its
    size: it has at least 540 bytes, and the [write_to_tag] that follows
    starts on the bus with the detection frame. *)
Theorem loaded_image_reaches_detection (path : string) (cb : bool)
    (st : State) :
  fst (AmiiboWriter.load_amiibo env path st) = true ->
  let s := snd (AmiiboWriter.load_amiibo env path st) in
  exists a rest,
    current_amiibo s = Some a /\
    540 <= len (get_raw_data a) /\
    new_events s (snd (AmiiboWriter.write_to_tag env cb s))
    = BusWrite detect_frame
        (i2c_write env (List.length (i2c_log st)) detect_frame) :: rest.
Proof.
  intros Hok s. subst s.
  destruct (nfc_load_amiibo_cases env path st) as (Ht & _).
  destruct (nfc_load_amiibo_keeps env path st) as (Hlog & _).
  destruct (AmiiboWriter.load_amiibo env path st) as [res s] eqn:E.
  cbn [fst snd] in *. subst res.
  unfold AmiiboWriter.load_amiibo in E. unfold bind at 1 in E.
  destruct (NFCWriter.load_amiibo env path st) as [ok s1]. cbn [fst snd] in *.
  destruct ok; [|cbn [ret] in E; discriminate E].
  destruct (Ht eq_refl) as (content & a & _ & _ & Hp & Hn).
  destruct (parse_flipper_fields content (character_name_of path) a Hp)
    as (ub & dp & _ & _ & Ha).
  pose proof (reconstruct_grows dp) as Hlen.
  mstep. rewrite Hn in E. inversion E; subst s. clear E.
  cbn [current_amiibo].
  assert (Hraw : get_raw_data a = reconstruct dp) by (subst a; reflexivity).
  assert (Hne : dict_nonempty a = true) by (subst a; reflexivity).
  clear Ha.
  match goal with
  | |- context [AmiiboWriter.write_to_tag env cb ?s0] => set (s := s0)
  end.
  assert (Hs : List.length (i2c_log s) = List.length (i2c_log st))
    by (cbn [s i2c_log]; rewrite Hlog; reflexivity).
  destruct (write_amiibo_first_event a cb
              (snd (print (MsgWriting (AmiiboWriter.character_or_unknown a)) s)))
    as (rest & Hev).
  { rewrite Hraw. exact Hlen. }
  exists a, rest. split; [reflexivity|]. split; [rewrite Hraw; exact Hlen|].
  rewrite <- Hs.
  assert (Hw : AmiiboWriter.write_to_tag env cb s
               = write_amiibo env a cb
                   (snd (print (MsgWriting (AmiiboWriter.character_or_unknown a)) s))).
  { unfold AmiiboWriter.write_to_tag. unfold bind at 1.
    unfold get_current_amiibo. cbn [s current_amiibo]. rewrite Hne.
    unfold bind at 1. reflexivity. }
  rewrite Hw. exact Hev.
Qed.

End Session.

Lemma loaded_image_reaches_detection_witness :
  exists a rest,
    current_amiibo (snd (AmiiboWriter.load_amiibo env_ok "amiibo/Mario_Kart.nfc" st0))
    = Some a /\
    540 <= len (get_raw_data a) /\
    new_events (snd (AmiiboWriter.load_amiibo env_ok "amiibo/Mario_Kart.nfc" st0))
      (snd (AmiiboWriter.write_to_tag env_ok true
              (snd (AmiiboWriter.load_amiibo env_ok "amiibo/Mario_Kart.nfc" st0))))
    = BusWrite detect_frame
        (i2c_write env_ok (List.length (i2c_log st0)) detect_frame) :: rest.
Proof.
  apply (loaded_image_reaches_detection env_ok "amiibo/Mario_Kart.nfc" true st0).
  vm_compute. reflexivity.
Defined.
